(** * OpenPubkey: provider verifier and MFA cosigner

    A shallow embedding of [verifier/providerverifier.go] (package
    [verifier]) and of the authenticating cosigner (package [cosigner]),
    followed by the properties of the specification that concern them.

    Go functions returning [(T, error)] become functions into [res T], a
    three-valued outcome: a value, a returned [error], or a run-time panic.
    Code of other packages (jwx, gq, discover, pktoken, encoding/json) is
    taken as an interface, [Lib], whose operations return a value or an
    error message. *)

From stdpp Require Import base option list strings gmap.
From Stdlib Require Import ZArith Ascii String.

#[local] Set Warnings "-register-all".

Local Open Scope string_scope.
Local Open Scope Z_scope.

(** ** Values *)

(** Go's [[]byte] and [string] are both byte sequences; the conversions
    [string(b)] and [[]byte(s)] are the identity on them. *)
Abbreviation bytes := string (only parsing).

(** The dynamic values [encoding/json] stores into an [any]: [nil] (JSON
    null, or a member that is absent), [bool], [float64] (kept as the
    literal, no function below inspects it), [string], [[]any] and
    [map[string]any]. *)
Inductive any : Type :=
| Nil
| Bool (b : bool)
| Float64 (literal : string)
| Str (s : string)
| Slice (l : list any)
| Map (m : list (string * any)).

(** [jwa.SignatureAlgorithm] is a string type. *)
Abbreviation SignatureAlgorithm := string (only parsing).
Definition GQ256 : SignatureAlgorithm := "GQ256".
Definition RS256 : SignatureAlgorithm := "RS256".

(** ** Errors and panics *)

(** One constructor per [fmt.Errorf] of the source, named after its message;
    [Foreign] is an error returned by a library, and the constructors with an
    [error] argument are the [%w] wrappers. *)
Inductive error : Type :=
| Foreign (msg : string)
(* VerifyProvider *)
| GQCommitmentRequiresGQOnly (gqOnly : bool)
| GQCommitmentRequiresEmptyCommitmentClaim (commitmentClaim : string)
| GQCommitmentRequiresAudNotClientID
| ProviderAlgorithmTypeMissing
| ErrNonGQUnsupported
| ErrorVerifyingOPGQSignature (e : error)
| FailedToGetOPPublicKey (e : error)
| ErrorVerifyingClientSignature (e : error)
(* verifyCommitment *)
| AudiencePrefixMissing
| AudienceMustBePrefixed (aud : string)
| MissingGQCommitment
| MissingCommitmentClaim (claim : string)
| CommitmentDoesNotMatch (got : any) (expected : string)
(* verifyGQSig and originalTokenHeaders *)
| MissingProviderAlgorithmHeader
| SignatureNotGQ
| MalformattedPKTokenHeaders (e : error)
| ErrorDecodingOriginalHeaders (e : error)
| ErrorParsingSegment (e : error)
| ExpectedOriginalRS256 (alg : string)
| MissingIssuer (e : error)
| IssuerDoesNotMatch (pktIssuer expected : string)
| FailedToGetProviderPublicKey (e : error)
| JwkIsNotRSA
| IDTokenInvalid
(* verifyAudience *)
| AudienceDoesNotContainClientID (clientID : string) (aud : any)
| MissingAudienceClaim
(* cosigner *)
| FailedToParseInitMFAAuth (e : error)
| TimestampTooOld (timeSigned : Z)
| TimestampTooFarInTheFuture (timeSigned : Z)
| UnexpectedHMACBytes (n : Z)
| InvalidAuthcode
| FailedToUnmarshalPKToken (e : error)
| FailedToDeserializeAud (aud : any).

(** The run-time panics the code can raise: a failed single-value type
    assertion [x.(string)] and a field access through a nil pointer. *)
Inductive panic : Type :=
| InterfaceConversion (x : any) (want : string)
| NilPointerDereference.

Inductive res (A : Type) : Type :=
| Ok (a : A)
| Err (e : error)
| Panic (p : panic).
Arguments Ok {A} a.
Arguments Err {A} e.
Arguments Panic {A} p.

(** Sequencing with early return, as an instance of stdpp's [MBind], whose
    notation [x ← r; k] is used below. *)
#[global] Instance res_bind : MBind res := λ A B k r,
  match r with
  | Ok a => k a
  | Err e => Err e
  | Panic p => Panic p
  end.

(** What a library call returns: its value, or an error. *)
Inductive lib (A : Type) : Type :=
| Done (a : A)
| Fail (msg : string).
Arguments Done {A} a.
Arguments Fail {A} msg.

(** [x, err := f(...); if err != nil { return err }]. *)
Definition call {A} (r : lib A) : res A :=
  match r with
  | Done a => Ok a
  | Fail msg => Err (Foreign msg)
  end.

(** [x, err := f(...); if err != nil { return fmt.Errorf("...: %w", err) }]. *)
Definition call_wrap {A} (w : error → error) (r : lib A) : res A :=
  match r with
  | Done a => Ok a
  | Fail msg => Err (w (Foreign msg))
  end.

Definition wrap {A} (w : error → error) (r : res A) : res A :=
  match r with
  | Err e => Err (w e)
  | _ => r
  end.

Definition is_Ok {A} (r : res A) : Prop := ∃ a, r = Ok a.
Definition is_Err {A} (r : res A) : Prop := ∃ e, r = Err e.
Definition is_Panic {A} (r : res A) : Prop := ∃ p, r = Panic p.

(** ** Keys *)

Record rsa_PublicKey := { rsa_N : Z; rsa_E : Z }.

(** [crypto.PublicKey] is an empty interface; what matters below is whether
    its dynamic type is [*rsa.PublicKey]. *)
Inductive crypto_PublicKey : Type :=
| RSAKey (k : rsa_PublicKey)
| OtherKey (kind : string) (raw : bytes).

(** A [jwk.Key] as far as this code reads it: its [alg] and its material. *)
Record jwk_Key := { jwk_Algorithm : SignatureAlgorithm; jwk_Material : crypto_PublicKey }.

(** The key argument of [jws.WithKey(alg, key)], an [interface{}]. *)
Inductive jws_key : Type :=
| RawKey (k : crypto_PublicKey)
| JWKKey (k : jwk_Key).

(** Modelled from the spec: [discover.PublicKeyRecord] is declared outside
    the verified sources; the public key record of the data model,
    (issuer, alg, kid, public_key, expiration).  The verifier reads
    [PublicKey] only. *)
Module PublicKeyRecord.
Record t := {
  Issuer : string;
  Alg : string;
  Kid : string;
  PublicKey : crypto_PublicKey;
  Expiration : Z
}.
End PublicKeyRecord.
Abbreviation PublicKeyRecord := PublicKeyRecord.t.

(** [*discover.PublicKeyFinder], through the one method used here:
    [ByToken(ctx, issuer, token)]. *)
Definition PublicKeyFinder : Type := string → bytes → lib PublicKeyRecord.

(** ** Messages of the cosigner protocol *)

(** Modelled from the spec: [pktoken.CosignerClaims] is declared outside the
    verified sources; these are the nine cosigner claims of the data model
    (iss, kid, alg, auth_id, auth_time, iat, exp, ruri, nonce), under the
    field names [IssueSignature] gives them. *)
Module CosignerClaims.
Record t := {
  Iss : string;
  KeyID : string;
  Algorithm : string;
  AuthID : string;
  AuthTime : Z;
  IssuedAt : Z;
  Expiration : Z;
  RedirectURI : string;
  Nonce : string
}.
End CosignerClaims.
Abbreviation CosignerClaims := CosignerClaims.t.

(** Modelled from the spec: [msgs.InitMFAAuth] is declared outside the
    verified sources; the message [InitMFAAuth{time_signed, redirect_uri,
    nonce}], under the field names [InitAuth] reads. *)
Module InitMFAAuth.
Record t := {
  TimeSigned : Z;
  RedirectUri : string;
  Nonce : string
}.
End InitMFAAuth.
Abbreviation InitMFAAuth := InitMFAAuth.t.

(** The anonymous struct [NewAuthState] decodes the payload into. *)
Module IDClaims.
Record t := {
  Issuer : string;
  Aud : any;
  Sub : string;
  Email : string
}.
End IDClaims.
Abbreviation IDClaims := IDClaims.t.

(** ** The packages the code calls

    [pktoken], [gq], [discover], [util], [jws], [crypto/hmac], [encoding/json]
    and the embedded [Cosigner] are not part of the verified sources.  Their
    types are abstract and their operations are the fields of [Lib]; every
    result below holds for each implementation of the interface. *)
Class Lib : Type := {
  (** [*pktoken.PKToken] with its exported fields and methods *)
  PKToken : Type;
  Payload : PKToken → bytes;
  OpToken : PKToken → bytes;
  CicToken : PKToken → bytes;
  (** [pkt.Op.ProtectedHeaders().Get(name)] *)
  Op_ProtectedHeaders_Get : PKToken → string → option any;
  (** [pkt.ProviderAlgorithm()], a value and [ok] *)
  ProviderAlgorithm : PKToken → option SignatureAlgorithm;
  (** [pkt.Issuer()] *)
  pkt_Issuer : PKToken → lib string;
  (** [pkt.GetCicValues()], [cic.Hash()], [cic.PublicKey()] *)
  Claims : Type;
  GetCicValues : PKToken → lib Claims;
  Hash : Claims → lib bytes;
  cic_PublicKey : Claims → jwk_Key;
  (** [pkt.VerifySignedMessage(sig)] *)
  VerifySignedMessage : PKToken → bytes → lib bytes;
  (** [json.Unmarshal(data, &claims)] for [claims map[string]any] *)
  Unmarshal_claims : bytes → lib (gmap string any);
  (** [json.Unmarshal(data, &claims)] for
      [claims struct { Audience any `json:"aud"` }]: the [Audience] field,
      [Nil] when the object has no such member *)
  Unmarshal_Audience : bytes → lib any;
  (** [jws.Headers], [json.Unmarshal(data, &headers)], [headers.Algorithm()] *)
  Headers : Type;
  Unmarshal_Headers : bytes → lib Headers;
  Algorithm : Headers → SignatureAlgorithm;
  (** [gq.OriginalJWTHeaders], [util.Base64DecodeForJWT], [gq.GQ256VerifyJWT] *)
  OriginalJWTHeaders : bytes → lib bytes;
  Base64DecodeForJWT : bytes → lib bytes;
  GQ256VerifyJWT : rsa_PublicKey → bytes → lib bool;
  (** [jws.Verify(token, jws.WithKey(alg, key))] *)
  jws_Verify : bytes → SignatureAlgorithm → jws_key → lib bytes;
  (** [discover.DefaultPubkeyFinder()] *)
  DefaultPubkeyFinder : PublicKeyFinder;
  (** [json.Unmarshal(msg, &initMFAAuth)] for [initMFAAuth *msgs.InitMFAAuth]:
      [None] is the nil pointer that decoding JSON null leaves *)
  Unmarshal_InitMFAAuth : bytes → lib (option InitMFAAuth);
  (** [json.Unmarshal(pkt.Payload, &claims)] for the struct of [NewAuthState] *)
  Unmarshal_IDClaims : bytes → lib IDClaims;
  (** [jws.Parse(sig)] and [msg.Payload()] *)
  Message : Type;
  jws_Parse : bytes → lib Message;
  msg_Payload : Message → bytes;
  (** the embedded [Cosigner]: [c.Alg.String()] and [c.Cosign(pkt, protected)] *)
  Cosigner : Type;
  Cosigner_Alg : Cosigner → string;
  Cosign : Cosigner → PKToken → CosignerClaims → lib bytes;
  (** [hmac.New(crypto.SHA3_256.New, key)], [Write(msg)], [Sum(nil)] *)
  hmac_SHA3_256 : bytes → bytes → bytes
}.

(** ** Package [verifier] *)

Definition AudPrefixForGQCommitment : string := "OPENPUBKEY-PKTOKEN:".

Record ProviderVerifierOpts := {
  ClientID : string;
  SkipClientIDCheck : bool;
  (** a pointer: [None] is [nil] *)
  DiscoverPublicKey : option PublicKeyFinder;
  SkipExpirationCheck : bool;
  GQOnly : bool;
  GQCommitment : bool
}.

Record DefaultProviderVerifier := {
  issuer : string;
  commitmentClaim : string;
  options : ProviderVerifierOpts
}.

Definition NewProviderVerifier `{Lib} (issuer commitmentClaim : string)
    (options : ProviderVerifierOpts) : DefaultProviderVerifier :=
  {| issuer := issuer;
     commitmentClaim := commitmentClaim;
     options :=
       match DiscoverPublicKey options with
       | None =>
           {| ClientID := ClientID options;
              SkipClientIDCheck := SkipClientIDCheck options;
              DiscoverPublicKey := Some DefaultPubkeyFinder;
              SkipExpirationCheck := SkipExpirationCheck options;
              GQOnly := GQOnly options;
              GQCommitment := GQCommitment options |}
       | Some _ => options
       end |}.

(** [v.Issuer()] *)
Definition Issuer_of (v : DefaultProviderVerifier) : string := issuer v.

(** [v.options.DiscoverPublicKey.ByToken(ctx, issuer, token)]: the method
    reads the fields of its receiver, so a nil finder panics. *)
Definition ByToken (f : option PublicKeyFinder) (issuer : string) (token : bytes)
    : res (lib PublicKeyRecord) :=
  match f with
  | None => Panic NilPointerDereference
  | Some find => Ok (find issuer token)
  end.

(** The range loop of [verifyAudience] over a [[]any] audience. *)
Fixpoint verifyAudience_list (clientID : string) (whole rest : list any) : res unit :=
  match rest with
  | [] => Err (AudienceDoesNotContainClientID clientID (Slice whole))
  | Str audience :: rest' =>
      if String.eqb audience clientID then Ok ()
      else verifyAudience_list clientID whole rest'
  | x :: _ => Panic (InterfaceConversion x "string")
  end.

Definition verifyAudience `{Lib} (pkt : PKToken) (clientID : string) : res unit :=
  Audience ← call (Unmarshal_Audience (Payload pkt));
  match Audience with
  | Str aud =>
      if negb (String.eqb aud clientID)
      then Err (AudienceDoesNotContainClientID clientID (Str aud))
      else Ok ()
  | Slice aud => verifyAudience_list clientID aud aud
  | _ => Err MissingAudienceClaim
  end.

Definition verifyCicSignature `{Lib} (pkt : PKToken) : res unit :=
  cic ← call (GetCicValues pkt);
  _ ← call (jws_Verify (CicToken pkt) (jwk_Algorithm (cic_PublicKey cic))
              (JWKKey (cic_PublicKey cic)));
  Ok ().

(** [commitment != string(expectedCommitment)] compares an [any] with a
    string: equal exactly when the dynamic type is [string] and the values
    agree. *)
Definition any_eq_string (x : any) (s : string) : bool :=
  match x with
  | Str t => String.eqb t s
  | _ => false
  end.

Definition verifyCommitment `{Lib} (v : DefaultProviderVerifier) (pkt : PKToken)
    : res unit :=
  claims ← call (Unmarshal_claims (Payload pkt));
  cic ← call (GetCicValues pkt);
  expectedCommitment ← call (Hash cic);
  commitment ←
    (if GQCommitment (options v) then
       match (claims : gmap string any) !! "aud" with
       | None => Err AudiencePrefixMissing
       | Some (Str aud) =>
           if negb (String.prefix AudPrefixForGQCommitment aud)
           then Err (AudienceMustBePrefixed aud)
           else
             match Op_ProtectedHeaders_Get pkt "cic" with
             | None => Err MissingGQCommitment
             | Some commitment => Ok commitment
             end
       | Some aud => Panic (InterfaceConversion aud "string")
       end
     else
       match claims !! commitmentClaim v with
       | None => Err (MissingCommitmentClaim (commitmentClaim v))
       | Some commitment => Ok commitment
       end);
  if negb (any_eq_string commitment expectedCommitment)
  then Err (CommitmentDoesNotMatch commitment expectedCommitment)
  else Ok ().

Definition originalTokenHeaders `{Lib} (token : bytes) : res Headers :=
  origHeadersB64 ← call_wrap MalformattedPKTokenHeaders (OriginalJWTHeaders token);
  origHeaders ← call_wrap ErrorDecodingOriginalHeaders (Base64DecodeForJWT origHeadersB64);
  headers ← call_wrap ErrorParsingSegment (Unmarshal_Headers origHeaders);
  Ok headers.

Definition verifyGQSig `{Lib} (v : DefaultProviderVerifier) (pkt : PKToken) : res unit :=
  match ProviderAlgorithm pkt with
  | None => Err MissingProviderAlgorithmHeader
  | Some alg =>
      if negb (String.eqb alg GQ256) then Err SignatureNotGQ
      else
        origHeaders ← wrap MalformattedPKTokenHeaders (originalTokenHeaders (OpToken pkt));
        let alg := Algorithm origHeaders in
        if negb (String.eqb alg RS256) then Err (ExpectedOriginalRS256 alg)
        else
          pktIssuer ← call_wrap MissingIssuer (pkt_Issuer pkt);
          if negb (String.eqb pktIssuer (issuer v))
          then Err (IssuerDoesNotMatch pktIssuer (issuer v))
          else
            found ← ByToken (DiscoverPublicKey (options v)) (Issuer_of v) (OpToken pkt);
            publicKeyRecord ← call_wrap FailedToGetProviderPublicKey found;
            match PublicKeyRecord.PublicKey publicKeyRecord with
            | RSAKey rsaKey =>
                ok ← call (GQ256VerifyJWT rsaKey (OpToken pkt));
                if negb ok then Err IDTokenInvalid else Ok ()
            | _ => Err JwkIsNotRSA
            end
  end.

(** [v.providerPublicKey(ctx, pkt)] *)
Definition providerPublicKey `{Lib} (v : DefaultProviderVerifier) (pkt : PKToken)
    : res (lib PublicKeyRecord) :=
  ByToken (DiscoverPublicKey (options v)) (Issuer_of v) (OpToken pkt).

(** The [switch alg] statement of [VerifyProvider]: two cases, no default. *)
Definition VerifyProvider_switch `{Lib} (v : DefaultProviderVerifier) (pkt : PKToken)
    (alg : SignatureAlgorithm) : res unit :=
  if String.eqb alg GQ256 then
    wrap ErrorVerifyingOPGQSignature (verifyGQSig v pkt)
  else if String.eqb alg RS256 then
    found ← providerPublicKey v pkt;
    pubKeyRecord ← call_wrap FailedToGetOPPublicKey found;
    _ ← call (jws_Verify (OpToken pkt) alg (RawKey (PublicKeyRecord.PublicKey pubKeyRecord)));
    Ok ()
  else Ok ().

(** The option sanity check that opens [VerifyProvider]. *)
Definition VerifyProvider_sanity (v : DefaultProviderVerifier) : res unit :=
  if GQCommitment (options v) then
    if negb (GQOnly (options v)) then
      Err (GQCommitmentRequiresGQOnly (GQOnly (options v)))
    else if negb (String.eqb (commitmentClaim v) "") then
      Err (GQCommitmentRequiresEmptyCommitmentClaim (commitmentClaim v))
    else if negb (SkipClientIDCheck (options v)) then
      Err GQCommitmentRequiresAudNotClientID
    else Ok ()
  else Ok ().

(** [if err := verifyAudience(...); err != nil && !SkipClientIDCheck]:
    the audience is always examined, its error is dropped when the check is
    skipped; a panic is not an error value and is not dropped. *)
Definition VerifyProvider_audience `{Lib} (v : DefaultProviderVerifier) (pkt : PKToken)
    : res unit :=
  match verifyAudience pkt (ClientID (options v)) with
  | Err err => if negb (SkipClientIDCheck (options v)) then Err err else Ok ()
  | r => r
  end.

Definition VerifyProvider `{Lib} (v : DefaultProviderVerifier) (pkt : PKToken) : res unit :=
  _ ← VerifyProvider_sanity v;
  _ ← VerifyProvider_audience v pkt;
  alg ← match ProviderAlgorithm pkt with
        | None => Err ProviderAlgorithmTypeMissing
        | Some alg => Ok alg
        end;
  _ ← (if negb (String.eqb alg GQ256) && GQOnly (options v)
       then Err ErrNonGQUnsupported else Ok ());
  _ ← VerifyProvider_switch v pkt alg;
  _ ← verifyCommitment v pkt;
  _ ← wrap ErrorVerifyingClientSignature (verifyCicSignature pkt);
  Ok ().

(** ** Package [cosigner] *)

(** *** Time

    An instant is its number of nanoseconds since the Unix epoch.  A call
    reads the clock several times; [now k] is its [k]-th reading of
    [time.Now()]. *)
Definition Second : Z := 1000000000.
Definition Minute : Z := 60 * Second.
Definition Hour : Z := 60 * Minute.

(** The value of an [int64] computation: the result wraps around. *)
Definition int64 (x : Z) : Z := (x + 2 ^ 63) mod 2 ^ 64 - 2 ^ 63.

(** The seconds from year 1 to the Unix epoch: a [Time] without a
    monotonic reading holds its seconds since year 1 in an [int64]. *)
Definition unixToInternal : Z := 62135596800.

(** [time.Unix(sec, 0)] stores [sec + unixToInternal], an [int64] sum: the
    instant it stands for is [sec] seconds after the epoch as long as the
    sum does not wrap around, and 2^64 seconds earlier for the values of
    [sec] above [2^63 - 1 - unixToInternal].  [t.Unix()] is on a clock
    reading. *)
Definition time_Unix (sec : Z) : Z := (int64 (sec + unixToInternal) - unixToInternal) * Second.
Definition Unix (t : Z) : Z := t / Second.

(** [t.Sub(u)]: a [Duration] is an [int64] of nanoseconds and [Sub]
    saturates at its bounds.  One of [t] and [u] is a clock reading. *)
Definition minDuration : Z := - 2 ^ 63.
Definition maxDuration : Z := 2 ^ 63 - 1.
Definition Sub (t u : Z) : Z := Z.max minDuration (Z.min maxDuration (t - u)).

(** [time.Since(t)] and [time.Until(t)] at the clock reading [now]. *)
Definition Since (now t : Z) : Z := Sub now t.
Definition Until (now t : Z) : Z := Sub t now.

(** [d.Minutes() > 2].  [Minutes] is the [float64]
    [d/Minute + (d%Minute)/(60*1e9)]; the whole part is exact, the fraction
    is a multiple of [1/(6*10^10)] below 1, far above the spacing of
    [float64] around 2, so the comparison holds exactly when [d] exceeds two
    minutes of nanoseconds. *)
Definition Minutes_gt_2 (d : Z) : bool := (2 * Minute <? d)%Z.

(** *** Encodings *)

Definition hextable (n : N) : ascii :=
  match n with
  | 0 => "0" | 1 => "1" | 2 => "2" | 3 => "3" | 4 => "4" | 5 => "5"
  | 6 => "6" | 7 => "7" | 8 => "8" | 9 => "9" | 10 => "a" | 11 => "b"
  | 12 => "c" | 13 => "d" | 14 => "e" | _ => "f"
  end%N%char.

(** [hex.EncodeToString] *)
Fixpoint EncodeToString (src : bytes) : string :=
  match src with
  | EmptyString => EmptyString
  | String v rest =>
      String (hextable (N.shiftr (N_of_ascii v) 4))
        (String (hextable (N.land (N_of_ascii v) 15)) (EncodeToString rest))
  end.

(** One byte of a [uint64], and [binary.LittleEndian.AppendUint64]. *)
Definition byte_at (v : Z) (i : Z) : ascii :=
  ascii_of_N (Z.to_N (Z.land (Z.shiftr v (8 * i)) 255)).

Definition AppendUint64 (b : bytes) (v : Z) : bytes :=
  b ++ String (byte_at v 0) (String (byte_at v 1) (String (byte_at v 2)
      (String (byte_at v 3) (String (byte_at v 4) (String (byte_at v 5)
      (String (byte_at v 6) (String (byte_at v 7) EmptyString))))))).

(** The conversion [uint64(x)] of an [int64]. *)
Definition uint64 (x : Z) : Z := x mod 2 ^ 64.

(** [strings.Join(elems, sep)] *)
Fixpoint Join (elems : list string) (sep : string) : string :=
  match elems with
  | [] => ""
  | [s] => s
  | s :: rest => s ++ sep ++ Join rest sep
  end.

(** [strings.Split(s, "@")[0]]: what precedes the first at sign, the whole
    string when there is none. *)
Fixpoint Split_at_0 (s : string) : string :=
  match s with
  | EmptyString => EmptyString
  | String c rest => if Ascii.eqb c "@" then EmptyString else String c (Split_at_0 rest)
  end.

(** *** State *)

(** The two structs are parameterised by the library types they hold: the
    PK Token, and the embedded [Cosigner]. *)
Module AuthState.
Record t {PKToken : Type} := {
  Pkt : PKToken;
  Issuer : string;
  Aud : string;
  Sub : string;
  Username : string;
  DisplayName : string;
  RedirectURI : string;
  Nonce : string;
  (** "Was the pkt cosigned" *)
  SigIssued : bool
}.
Arguments t : clear implicits.
End AuthState.
Abbreviation AuthState := (AuthState.t PKToken).

Module AuthCosigner.
Record t {PKToken Cosigner : Type} := {
  Cosigner_ : Cosigner;
  Issuer : string;
  KeyID : string;
  (** an [atomic.Uint64] *)
  AuthIdIter : Z;
  HmacKey : bytes;
  (** [map[string]*AuthState], as [NewAuthCosigner] makes it: a key that is
      absent reads as the nil pointer *)
  AuthStateMap : gmap string (AuthState.t PKToken);
  AuthCodeMap : gmap string string
}.
Arguments t : clear implicits.

Section setters.
Context {PKToken Cosigner : Type}.

Definition set_AuthIdIter (c : t PKToken Cosigner) (n : Z) : t PKToken Cosigner :=
  {| Cosigner_ := Cosigner_ c; Issuer := Issuer c; KeyID := KeyID c;
     AuthIdIter := n; HmacKey := HmacKey c;
     AuthStateMap := AuthStateMap c; AuthCodeMap := AuthCodeMap c |}.

Definition set_AuthStateMap (c : t PKToken Cosigner)
    (m : gmap string (AuthState.t PKToken)) : t PKToken Cosigner :=
  {| Cosigner_ := Cosigner_ c; Issuer := Issuer c; KeyID := KeyID c;
     AuthIdIter := AuthIdIter c; HmacKey := HmacKey c;
     AuthStateMap := m; AuthCodeMap := AuthCodeMap c |}.

Definition set_AuthCodeMap (c : t PKToken Cosigner) (m : gmap string string)
    : t PKToken Cosigner :=
  {| Cosigner_ := Cosigner_ c; Issuer := Issuer c; KeyID := KeyID c;
     AuthIdIter := AuthIdIter c; HmacKey := HmacKey c;
     AuthStateMap := AuthStateMap c; AuthCodeMap := m |}.
End setters.
End AuthCosigner.
Abbreviation AuthCosigner := (AuthCosigner.t PKToken Cosigner).

(** The loop of [NewAuthState] over a [[]any] audience: [v.(string)] on each
    element. *)
Fixpoint audList_of (t : list any) : res (list string) :=
  match t with
  | [] => Ok []
  | Str v :: rest => audList ← audList_of rest; Ok (v :: audList)
  | x :: _ => Panic (InterfaceConversion x "string")
  end.

Definition NewAuthState `{Lib} (pkt : PKToken) (ruri nonce : string) : res AuthState :=
  claims ← call_wrap FailedToUnmarshalPKToken (Unmarshal_IDClaims (Payload pkt));
  audience ← match IDClaims.Aud claims with
             | Str t => Ok t
             | Slice t => audList ← audList_of t; Ok (Join audList ",")
             | t => Err (FailedToDeserializeAud t)
             end;
  Ok {| AuthState.Pkt := pkt;
        AuthState.Issuer := IDClaims.Issuer claims;
        AuthState.Aud := audience;
        AuthState.Sub := IDClaims.Sub claims;
        AuthState.Username := IDClaims.Email claims;
        AuthState.DisplayName := Split_at_0 (IDClaims.Email claims);
        AuthState.RedirectURI := ruri;
        AuthState.Nonce := nonce;
        AuthState.SigIssued := false |}.

(** The operations of the cosigner take the state [c] and return the state
    they leave, next to their result. *)

(** [mac.Write(p)] returns [len(p)] and no error (the contract of
    [hash.Hash]). *)
Definition CreateAuthID `{Lib} (c : AuthCosigner) (pkt : PKToken) (now : Z)
    : AuthCosigner * res string :=
  let authIdInt := (AuthCosigner.AuthIdIter c + 1) mod 2 ^ 64 in
  let c := AuthCosigner.set_AuthIdIter c authIdInt in
  let iterAndTime := AppendUint64 "" (uint64 authIdInt) in
  let iterAndTime := AppendUint64 iterAndTime (uint64 (Unix now)) in
  let n := Z.of_nat (String.length iterAndTime) in
  if negb (n =? 16)%Z then (c, Err (UnexpectedHMACBytes n))
  else (c, Ok (EncodeToString (hmac_SHA3_256 (AuthCosigner.HmacKey c) iterAndTime))).

Definition InitAuth `{Lib} (c : AuthCosigner) (pkt : PKToken) (sig : bytes)
    (now : nat → Z) : AuthCosigner * res string :=
  match VerifySignedMessage pkt sig with
  | Fail err => (c, Err (Foreign err))
  | Done msg =>
      match Unmarshal_InitMFAAuth msg with
      | Fail err => (c, Err (FailedToParseInitMFAAuth (Foreign err)))
      | Done None => (c, Panic NilPointerDereference)
      | Done (Some initMFAAuth) =>
          let TimeSigned := InitMFAAuth.TimeSigned initMFAAuth in
          if Minutes_gt_2 (Since (now 0%nat) (time_Unix TimeSigned)) then
            (c, Err (TimestampTooOld TimeSigned))
          else if Minutes_gt_2 (Until (now 1%nat) (time_Unix TimeSigned)) then
            (c, Err (TimestampTooFarInTheFuture TimeSigned))
          else
            match NewAuthState pkt (InitMFAAuth.RedirectUri initMFAAuth)
                    (InitMFAAuth.Nonce initMFAAuth) with
            | Ok authState =>
                match CreateAuthID c pkt (now 2%nat) with
                | (c, Ok authID) =>
                    (AuthCosigner.set_AuthStateMap c
                       (<[authID := authState]> (AuthCosigner.AuthStateMap c)),
                     Ok authID)
                | (c, Err err) => (c, Err err)
                | (c, Panic p) => (c, Panic p)
                end
            | Err err => (c, Err err)
            | Panic p => (c, Panic p)
            end
      end
  end.

(** [rnd] is what [rand.Read] delivers: the 32 bytes it filled, or its
    error. *)
Definition NewAuthcode `{Lib} (c : AuthCosigner) (authID : string) (rnd : lib bytes)
    : AuthCosigner * res string :=
  match rnd with
  | Fail err => (c, Err (Foreign err))
  | Done authCodeBytes =>
      let authCode := EncodeToString authCodeBytes in
      (AuthCosigner.set_AuthCodeMap c (<[authCode := authID]> (AuthCosigner.AuthCodeMap c)),
       Ok authCode)
  end.

Definition IssueSignature `{Lib} (c : AuthCosigner) (pkt : PKToken) (authID : string)
    (now : nat → Z) : AuthCosigner * res bytes :=
  match AuthCosigner.AuthStateMap c !! authID with
  | None => (c, Panic NilPointerDereference)
  | Some authState =>
      let protected :=
        {| CosignerClaims.Iss := AuthCosigner.Issuer c;
           CosignerClaims.KeyID := AuthCosigner.KeyID c;
           CosignerClaims.Algorithm := Cosigner_Alg (AuthCosigner.Cosigner_ c);
           CosignerClaims.AuthID := authID;
           CosignerClaims.AuthTime := Unix (now 0%nat);
           CosignerClaims.IssuedAt := Unix (now 1%nat);
           CosignerClaims.Expiration := Unix (now 2%nat + Hour);
           CosignerClaims.RedirectURI := AuthState.RedirectURI authState;
           CosignerClaims.Nonce := AuthState.Nonce authState |} in
      (c, call (Cosign (AuthCosigner.Cosigner_ c) pkt protected))
  end.

Definition RedeemAuthcode `{Lib} (c : AuthCosigner) (sig : bytes) (now : nat → Z)
    : AuthCosigner * res bytes :=
  match jws_Parse sig with
  | Fail err => (c, Err (Foreign err))
  | Done msg =>
      match AuthCosigner.AuthCodeMap c !! msg_Payload msg with
      | None => (c, Err InvalidAuthcode)
      | Some authID =>
          match AuthCosigner.AuthStateMap c !! authID with
          | None => (c, Panic NilPointerDereference)
          | Some authState =>
              let pkt := AuthState.Pkt authState in
              match VerifySignedMessage (AuthState.Pkt authState) sig with
              | Fail err => (c, Err (Foreign err))
              | Done _ => IssueSignature c pkt authID now
              end
          end
      end
  end.

(** [UserKey] and the method [UserKey()] of an [AuthState]. *)
Module UserKey.
Record t := {
  Issuer : string;
  Aud : string;
  Sub : string
}.
End UserKey.
Abbreviation UserKey := UserKey.t.

Definition AuthState_UserKey {PKToken : Type} (as_ : AuthState.t PKToken) : UserKey :=
  {| UserKey.Issuer := AuthState.Issuer as_;
     UserKey.Aud := AuthState.Aud as_;
     UserKey.Sub := AuthState.Sub as_ |}.

(** [NewAuthCosigner]: [rnd] is what [rand.Read] delivers for the 64-byte
    HMAC key.  The embedded [Cosigner{Alg: alg, Signer: signer}], whose type
    is declared outside the verified sources, is passed as [cosigner]. *)
Definition NewAuthCosigner `{Lib} (cosigner : Cosigner) (issuer keyID : string)
    (rnd : lib bytes) : res AuthCosigner :=
  match rnd with
  | Fail err => Err (Foreign err)
  | Done hmacKey =>
      Ok {| AuthCosigner.Cosigner_ := cosigner;
            AuthCosigner.Issuer := issuer;
            AuthCosigner.KeyID := keyID;
            AuthCosigner.AuthIdIter := 0;
            AuthCosigner.HmacKey := hmacKey;
            AuthCosigner.AuthStateMap := ∅;
            AuthCosigner.AuthCodeMap := ∅ |}
  end.

(** ** Package [client]: [ExtractClaim] *)

(** The errors of [ExtractClaim], one per [fmt.Errorf]; only the first wraps
    the error of the library. *)
Inductive extract_error : Type :=
| FailedToSplitJWT (msg : string)
| FailedToDecodePayload
| FailedToUnmarshalPayload
| ClaimMissing (claimName : string)
| ClaimNotAString (claimName : string) (claim : any).

(** [SplitCompact] is [jws.SplitCompact]: the three segments of a compact
    JWS.  The type assertion on the claim is the two-valued form, so the
    function has no panic. *)
Definition ExtractClaim `{Lib} (SplitCompact : bytes → lib (bytes * bytes * bytes))
    (idt : bytes) (claimName : string) : extract_error + string :=
  match SplitCompact idt with
  | Fail err => inl (FailedToSplitJWT err)
  | Done (_, payloadB64, _) =>
      match Base64DecodeForJWT payloadB64 with
      | Fail _ => inl FailedToDecodePayload
      | Done payloadJSON =>
          match Unmarshal_claims payloadJSON with
          | Fail _ => inl FailedToUnmarshalPayload
          | Done payload =>
              match (payload : gmap string any) !! claimName with
              | None => inl (ClaimMissing claimName)
              | Some (Str claimStr) => inr claimStr
              | Some claim => inl (ClaimNotAString claimName claim)
              end
          end
      end
  end.

(** ** Package [main] of opkssh: the OpenSSH version check *)

(** The digit class of the regular expression: an ASCII digit. *)
Definition is_digit (c : ascii) : bool :=
  (48 <=? N_of_ascii c)%N && (N_of_ascii c <=? 57)%N.

(** [strings.Split(s, ", ")[0]]: what precedes the first comma followed by a
    space, the whole string when there is none. *)
Fixpoint Split_comma_0 (s : string) : string :=
  match s with
  | EmptyString => EmptyString
  | String c rest =>
      if String.prefix ", " s then EmptyString else String c (Split_comma_0 rest)
  end.

Fixpoint drop_string (n : nat) (s : string) : string :=
  match n, s with
  | S n', String _ rest => drop_string n' rest
  | _, _ => s
  end.

(** [strings.TrimPrefix(s, prefix)] *)
Definition TrimPrefix (s prefix : string) : string :=
  if String.prefix prefix s then drop_string (String.length prefix) s else s.

(** What the group of the regular expression captures in a text that starts
    with a digit.  The expression is anchored at the start only; its group is
    one or more digits, then any number of times a dot with one or more
    digits, all greedy: the digits, and every following dot that is followed
    by a digit, with its digits. *)
Fixpoint version_digits (s : string) : string :=
  match s with
  | EmptyString => EmptyString
  | String c rest =>
      if is_digit c then String c (version_digits rest)
      else if Ascii.eqb c "." then
        match rest with
        | String d _ => if is_digit d then String c (version_digits rest) else EmptyString
        | EmptyString => EmptyString
        end
      else EmptyString
  end.

(** [re.FindStringSubmatch(s)], as its element 1; [None] is the nil slice of
    a text that does not match, one that does not start with a digit. *)
Definition FindStringSubmatch_1 (s : string) : option string :=
  match s with
  | String c _ => if is_digit c then Some (version_digits s) else None
  | EmptyString => None
  end.

Inductive version_error : Type :=
| InvalidOpenSSHVersion.

(** The function returns a [bool] and an [error]; the constant pattern
    always compiles, and what is printed is left out.  [version >= "8.1"]
    compares strings, byte by byte. *)
Definition isOpenSSHVersion8Dot1OrGreater (opensshVersion : string)
    : bool * option version_error :=
  let opensshVersion := TrimPrefix (Split_comma_0 opensshVersion) "OpenSSH_" in
  match FindStringSubmatch_1 opensshVersion with
  | None => (false, Some InvalidOpenSSHVersion)
  | Some version => if String.leb "8.1" version then (true, None) else (false, None)
  end.

(** ** Vocabulary of the statements *)

Section vocabulary.
Context `{Lib}.

(** The dynamic type of [x] is [string]. *)
Definition is_string (x : any) : bool :=
  match x with Str _ => true | _ => false end.

(** The audience rule as the specification words it: a string equal to
    [clientID], or a list of strings that contains it, and nothing else. *)
Definition audience_rule (pkt : PKToken) (clientID : string) : Prop :=
  ∀ aud, Unmarshal_Audience (Payload pkt) = Done aud →
    (verifyAudience pkt clientID = Ok () ↔
       aud = Str clientID ∨ ∃ l : list string, aud = Slice (Str <$> l) ∧ clientID ∈ l).

(** Neither a string nor a list: absent, null, a boolean, a number, an
    object. *)
Definition no_audience (aud : any) : bool :=
  match aud with
  | Str _ | Slice _ => false
  | _ => true
  end.

(** The result is not the error of a commitment that differs from the hash
    of the CIC. *)
Definition not_commitment_mismatch (r : res unit) : Prop :=
  ∀ got expected, r ≠ Err (CommitmentDoesNotMatch got expected).

(** The ordering property as the specification words it: a correct
    commitment and a provider signature that does not verify give the
    error of the signature verification. *)
Definition signature_error_returned (v : DefaultProviderVerifier) (pkt : PKToken) : Prop :=
  ∀ alg e, ProviderAlgorithm pkt = Some alg →
    verifyCommitment v pkt = Ok () →
    VerifyProvider_switch v pkt alg = Err e →
    VerifyProvider v pkt = Err e.

(** The auth ID minted under [key] for the counter value [n] at the Unix
    time [unix]: the MAC of both, in hexadecimal. *)
Definition mint (key : bytes) (n unix : Z) : string :=
  EncodeToString
    (hmac_SHA3_256 key (AppendUint64 (AppendUint64 "" (uint64 n)) (uint64 unix))).

(** The auth ID minted in state [c] at the instant [now]. *)
Definition authID_of (c : AuthCosigner) (now : Z) : string :=
  mint (AuthCosigner.HmacKey c) ((AuthCosigner.AuthIdIter c + 1) mod 2 ^ 64) (Unix now).

(** [hex.DecodeString] on the output of [EncodeToString], used to show the
    encoding injective. *)
Definition fromHexChar (c : ascii) : N :=
  match c with
  | "0" => 0 | "1" => 1 | "2" => 2 | "3" => 3 | "4" => 4 | "5" => 5
  | "6" => 6 | "7" => 7 | "8" => 8 | "9" => 9 | "a" => 10 | "b" => 11
  | "c" => 12 | "d" => 13 | "e" => 14 | "f" => 15 | _ => 0
  end%char%N.

Fixpoint DecodeString (s : string) : bytes :=
  match s with
  | String a (String b rest) =>
      String (ascii_of_N (16 * fromHexChar a + fromHexChar b)) (DecodeString rest)
  | _ => EmptyString
  end.

(** The MAC under [key] maps different messages of 16 bytes, the ones
    [CreateAuthID] feeds it, to different tags.  Tags of 32 bytes leave room
    for that; they do not for messages of every length. *)
Definition collision_free (key : bytes) : Prop :=
  ∀ m m', String.length m = 16%nat → String.length m' = 16%nat →
    hmac_SHA3_256 key m = hmac_SHA3_256 key m' → m = m'.

(** Every session of [c] is stored under an auth ID minted for a counter
    value that the counter has passed. *)
Definition minted (c : AuthCosigner) : Prop :=
  0 ≤ AuthCosigner.AuthIdIter c < 2 ^ 64 ∧
  ∀ authID authState, AuthCosigner.AuthStateMap c !! authID = Some authState →
    ∃ n unix, 0 < n ≤ AuthCosigner.AuthIdIter c ∧
      authID = mint (AuthCosigner.HmacKey c) n unix.

(** The state [InitAuth] leaves when it stores [authState]. *)
Definition InitAuth_state (c : AuthCosigner) (authState : AuthState) (now : Z)
    : AuthCosigner :=
  AuthCosigner.set_AuthStateMap
    (AuthCosigner.set_AuthIdIter c ((AuthCosigner.AuthIdIter c + 1) mod 2 ^ 64))
    (<[authID_of c now := authState]> (AuthCosigner.AuthStateMap c)).

(** The time window as the specification words it: inside it, a valid
    signature over a well-formed message is enough for [InitAuth] to
    succeed. *)
Definition InitAuth_succeeds_in_window (c : AuthCosigner) (pkt : PKToken)
    (sig : bytes) (now : nat → Z) : Prop :=
  ∀ msg m, VerifySignedMessage pkt sig = Done msg →
    Unmarshal_InitMFAAuth msg = Done (Some m) →
    Z.abs (now 0%nat - time_Unix (InitMFAAuth.TimeSigned m)) ≤ 2 * Minute →
    Z.abs (now 1%nat - time_Unix (InitMFAAuth.TimeSigned m)) ≤ 2 * Minute →
    is_Ok (InitAuth c pkt sig now).2.

(** The claims [IssueSignature] hands to [Cosign]. *)
Definition cosigner_claims (c : AuthCosigner) (authID : string) (authState : AuthState)
    (now : nat → Z) : CosignerClaims :=
  {| CosignerClaims.Iss := AuthCosigner.Issuer c;
     CosignerClaims.KeyID := AuthCosigner.KeyID c;
     CosignerClaims.Algorithm := Cosigner_Alg (AuthCosigner.Cosigner_ c);
     CosignerClaims.AuthID := authID;
     CosignerClaims.AuthTime := Unix (now 0%nat);
     CosignerClaims.IssuedAt := Unix (now 1%nat);
     CosignerClaims.Expiration := Unix (now 2%nat + Hour);
     CosignerClaims.RedirectURI := AuthState.RedirectURI authState;
     CosignerClaims.Nonce := AuthState.Nonce authState |}.

(** Single use as the specification words it: after a successful
    [RedeemAuthcode] the authcode is gone, and a second call with it is an
    error. *)
Definition authcode_single_use (c : AuthCosigner) (sig : bytes) (now now' : nat → Z)
    : Prop :=
  ∀ c' cos, RedeemAuthcode c sig now = (c', Ok cos) →
    (∀ msg, jws_Parse sig = Done msg →
       AuthCosigner.AuthCodeMap c' !! msg_Payload msg = None) ∧
    is_Err (RedeemAuthcode c' sig now').2.

(** The states the cosigner can be in are those its operations lead to. *)
Inductive step : AuthCosigner → AuthCosigner → Prop :=
| step_InitAuth c pkt sig now : step c (InitAuth c pkt sig now).1
| step_NewAuthcode c authID rnd : step c (NewAuthcode c authID rnd).1
| step_RedeemAuthcode c sig now : step c (RedeemAuthcode c sig now).1
| step_IssueSignature c pkt authID now : step c (IssueSignature c pkt authID now).1.

(** The type assertion as the specification words it: with [GQCommitment],
    an aud claim that is present and not a string makes [VerifyProvider]
    panic. *)
Definition aud_assertion_panics (v : DefaultProviderVerifier) (pkt : PKToken) : Prop :=
  GQCommitment (options v) = true →
  ∀ claims aud, Unmarshal_claims (Payload pkt) = Done claims →
    (claims : gmap string any) !! "aud" = Some aud →
    is_string aud = false →
    is_Panic (VerifyProvider v pkt).

(** The verifier [v] with another client ID. *)
Definition with_ClientID (v : DefaultProviderVerifier) (clientID : string)
    : DefaultProviderVerifier :=
  {| issuer := issuer v;
     commitmentClaim := commitmentClaim v;
     options :=
       {| ClientID := clientID;
          SkipClientIDCheck := SkipClientIDCheck (options v);
          DiscoverPublicKey := DiscoverPublicKey (options v);
          SkipExpirationCheck := SkipExpirationCheck (options v);
          GQOnly := GQOnly (options v);
          GQCommitment := GQCommitment (options v) |} |}.

(** Every authcode of [c] stands for an auth ID that has a session. *)
Definition codes_bound (c : AuthCosigner) : Prop :=
  ∀ authCode authID, AuthCosigner.AuthCodeMap c !! authCode = Some authID →
    is_Some (AuthCosigner.AuthStateMap c !! authID).

(** The operations of a cosigner that mints authcodes for existing sessions
    only. *)
Inductive careful_step : AuthCosigner → AuthCosigner → Prop :=
| careful_InitAuth c pkt sig now : careful_step c (InitAuth c pkt sig now).1
| careful_NewAuthcode c authID rnd :
    is_Some (AuthCosigner.AuthStateMap c !! authID) →
    careful_step c (NewAuthcode c authID rnd).1
| careful_RedeemAuthcode c sig now : careful_step c (RedeemAuthcode c sig now).1
| careful_IssueSignature c pkt authID now :
    careful_step c (IssueSignature c pkt authID now).1.

(** The character [c] does not occur in [s]. *)
Fixpoint without (c : ascii) (s : string) : bool :=
  match s with
  | EmptyString => true
  | String c' rest => negb (Ascii.eqb c' c) && without c rest
  end.

(** No session of [c] is marked as cosigned. *)
Definition none_issued (c : AuthCosigner) : Prop :=
  ∀ authID authState, AuthCosigner.AuthStateMap c !! authID = Some authState →
    AuthState.SigIssued authState = false.
End vocabulary.

(** ** A small implementation of [Lib]

    The statements about concrete tokens below are evaluated in [Mock.lib],
    an implementation of the interface by tables: which byte strings decode
    to which JSON object, which signatures verify under which key.  A token
    is the record of its parts; its provider algorithm and its issuer are
    read from the protected header and the payload, as [pktoken] does. *)
Module Mock.

#[global] Instance rsa_PublicKey_eq_dec : EqDecision rsa_PublicKey.
Proof. solve_decision. Defined.
#[global] Instance crypto_PublicKey_eq_dec : EqDecision crypto_PublicKey.
Proof. solve_decision. Defined.
#[global] Instance jwk_Key_eq_dec : EqDecision jwk_Key.
Proof. solve_decision. Defined.
#[global] Instance jws_key_eq_dec : EqDecision jws_key.
Proof. solve_decision. Defined.

Fixpoint assoc {A} (k : string) (l : list (string * A)) : option A :=
  match l with
  | [] => None
  | (k', a) :: rest => if String.eqb k k' then Some a else assoc k rest
  end.

Definition field (k : string) (o : list (string * any)) : any :=
  default Nil (assoc k o).

Definition text (x : any) : string :=
  match x with Str s => s | _ => "" end.

Fixpoint digits (s : string) (acc : Z) : Z :=
  match s with
  | EmptyString => acc
  | String c rest => digits rest (10 * acc + (Z.of_N (N_of_ascii c) - 48))
  end.

Definition number (x : any) : Z :=
  match x with Float64 literal => digits literal 0 | _ => 0 end.

Record token := {
  payload : bytes;
  op_protected : list (string * any);
  op_token : bytes;
  cic_token : bytes;
  (** the commitment [cic.Hash()] and the user's key [upk] *)
  cic_hash : bytes;
  upk : jwk_Key
}.

Record world := {
  (** the byte strings that are JSON objects, with their members *)
  objects : list (bytes * list (string * any));
  (** the compact JWS that verify, each with the key it verifies under *)
  verifies : list (bytes * jws_key);
  (** the GQ-signed tokens that verify, each with the provider's key *)
  gq_verifies : list (bytes * rsa_PublicKey);
  (** the original headers a GQ-signed token carries under [jwt] *)
  gq_headers : list (bytes * bytes);
  (** the compact JWS that parse, with their payloads *)
  parses : list (bytes * bytes);
  (** the keys published for an issuer *)
  jwks : list (string * PublicKeyRecord)
}.

Definition decode (w : world) (data : bytes) : lib (list (string * any)) :=
  match assoc data (objects w) with
  | Some o => Done o
  | None => Fail "invalid character looking for beginning of value"
  end.

Definition fmap_lib {A B} (f : A → B) (r : lib A) : lib B :=
  match r with Done a => Done (f a) | Fail e => Fail e end.

Definition of_option {A} (err : string) (o : option A) : lib A :=
  match o with Some a => Done a | None => Fail err end.

Definition cosigner : Type := string.

Definition lib (w : world) : Lib := {|
  PKToken := token;
  Payload := payload;
  OpToken := op_token;
  CicToken := cic_token;
  Op_ProtectedHeaders_Get := λ pkt name, assoc name (op_protected pkt);
  ProviderAlgorithm := λ pkt,
    match assoc "alg" (op_protected pkt) with
    | Some (Str alg) => Some alg
    | _ => None
    end;
  pkt_Issuer := λ pkt,
    fmap_lib (λ o, text (field "iss" o)) (decode w (payload pkt));
  Claims := token;
  GetCicValues := λ pkt, Done pkt;
  Hash := λ cic, Done (cic_hash cic);
  cic_PublicKey := upk;
  VerifySignedMessage := λ pkt sig,
    if bool_decide ((sig, JWKKey (upk pkt)) ∈ verifies w)
    then of_option "failed to parse message" (assoc sig (parses w))
    else Fail "could not verify message using any of the signatures or keys";
  Unmarshal_claims := λ data, fmap_lib list_to_map (decode w data);
  Unmarshal_Audience := λ data, fmap_lib (field "aud") (decode w data);
  Headers := list (string * any);
  Unmarshal_Headers := decode w;
  Algorithm := λ headers, text (field "alg" headers);
  OriginalJWTHeaders := λ tok,
    of_option "missing jwt header" (assoc tok (gq_headers w));
  Base64DecodeForJWT := λ data, Done data;
  GQ256VerifyJWT := λ key tok, Done (bool_decide ((tok, key) ∈ gq_verifies w));
  jws_Verify := λ tok alg key,
    if bool_decide ((tok, key) ∈ verifies w)
    then of_option "failed to parse message" (assoc tok (parses w))
    else Fail "could not verify message using any of the signatures or keys";
  DefaultPubkeyFinder := λ issuer tok,
    of_option "no matching public key found" (assoc issuer (jwks w));
  Unmarshal_InitMFAAuth := λ data,
    fmap_lib (λ o, Some {| InitMFAAuth.TimeSigned := number (field "time" o);
                           InitMFAAuth.RedirectUri := text (field "ruri" o);
                           InitMFAAuth.Nonce := text (field "nonce" o) |})
      (decode w data);
  Unmarshal_IDClaims := λ data,
    fmap_lib (λ o, {| IDClaims.Issuer := text (field "iss" o);
                      IDClaims.Aud := field "aud" o;
                      IDClaims.Sub := text (field "sub" o);
                      IDClaims.Email := text (field "email" o) |})
      (decode w data);
  Message := bytes;
  jws_Parse := λ sig, of_option "failed to parse message" (assoc sig (parses w));
  msg_Payload := λ msg, msg;
  Cosigner := cosigner;
  Cosigner_Alg := λ _, "ES256";
  Cosign := λ c pkt protected,
    Done ("cos:" ++ CosignerClaims.AuthID protected ++ "." ++ c);
  hmac_SHA3_256 := λ key msg, key ++ msg
|}.

End Mock.

(** ** Concrete tokens, verifiers and cosigners *)
Module Scenario.
Import Mock.

Definition op_key : rsa_PublicKey := {| rsa_N := 3233; rsa_E := 65537 |}.

Definition op_record (iss : string) : PublicKeyRecord :=
  {| PublicKeyRecord.Issuer := iss;
     PublicKeyRecord.Alg := "RS256";
     PublicKeyRecord.Kid := "key-1";
     PublicKeyRecord.PublicKey := RSAKey op_key;
     PublicKeyRecord.Expiration := 1800000000 |}.

Definition alice_upk : jwk_Key :=
  {| jwk_Algorithm := "ES256"; jwk_Material := OtherKey "EC" "alice-P256-point" |}.

Definition tenant_a : string := "https://login.example.com/tenant-a/v2.0".
Definition tenant_b : string := "https://login.example.com/tenant-b/v2.0".

Definition id_claims (aud : list (string * any)) : list (string * any) :=
  [("iss", Str tenant_a)] ++ aud ++
  [("nonce", Str "commitment-alice"); ("sub", Str "alice-id");
   ("email", Str "alice@example.com")].

Definition w : world := {|
  objects :=
    [("payload-aud-verifier", id_claims [("aud", Str "verifier")]);
     ("payload-aud-mixed", id_claims [("aud", Slice [Str "verifier"; Float64 "42"])]);
     ("payload-aud-gq-list",
      id_claims [("aud", Slice [Str "OPENPUBKEY-PKTOKEN:commitment-alice"])]);
     ("payload-no-aud", id_claims []);
     ("header-rs256", [("alg", Str "RS256"); ("kid", Str "key-1")]);
     ("init-mfa-auth", [("time", Float64 "1700000000");
                        ("ruri", Str "http://localhost:3000/mfacallback");
                        ("nonce", Str "n-1")])];
  verifies :=
    [("op-token-rs256", RawKey (RSAKey op_key));
     ("cic-token", JWKKey alice_upk);
     ("sig-init-mfa-auth", JWKKey alice_upk);
     ("sig-authcode", JWKKey alice_upk)];
  gq_verifies := [("op-token-gq", op_key)];
  gq_headers := [("op-token-gq", "header-rs256")];
  parses :=
    [("op-token-rs256", "payload-aud-verifier");
     ("cic-token", "payload-aud-verifier");
     ("sig-init-mfa-auth", "init-mfa-auth");
     ("sig-authcode", EncodeToString "0123456789abcdefghijklmnopqrstuv")];
  (** one key set behind the issuer URIs of both tenants *)
  jwks := [(tenant_a, op_record tenant_a); (tenant_b, op_record tenant_b)]
|}.

#[export] Instance L : Lib := Mock.lib w.

Definition token_with (alg : string) (op_token payload : bytes) : token := {|
  payload := payload;
  op_protected := [("alg", Str alg); ("typ", Str "JWT"); ("kid", Str "key-1")];
  op_token := op_token;
  cic_token := "cic-token";
  cic_hash := "commitment-alice";
  upk := alice_upk
|}.

(** An ID token signed by the provider with RS256. *)
Definition pkt_rs256 : token := token_with "RS256" "op-token-rs256" "payload-aud-verifier".

(** The same payload under a header that declares ES256 and a signature
    nobody made. *)
Definition pkt_es256 : token := token_with "ES256" "op-token-forged" "payload-aud-verifier".

(** The same payload and RS256 header with a corrupted signature. *)
Definition pkt_corrupted : token :=
  token_with "RS256" "op-token-corrupted" "payload-aud-verifier".

Definition pkt_aud_mixed : token := token_with "RS256" "op-token-rs256" "payload-aud-mixed".
Definition pkt_no_aud : token := token_with "RS256" "op-token-rs256" "payload-no-aud".

(** A GQ-signed token whose audience is a list and whose protected header
    has no [cic] member. *)
Definition pkt_gq_list_aud : token := {|
  payload := "payload-aud-gq-list";
  op_protected := [("alg", Str "GQ256"); ("typ", Str "JWT"); ("jwt", Str "header-rs256")];
  op_token := "op-token-gq";
  cic_token := "cic-token";
  cic_hash := "commitment-alice";
  upk := alice_upk
|}.

Definition opts (clientID : string) (skipClientIDCheck gq : bool) : ProviderVerifierOpts :=
  {| ClientID := clientID;
     SkipClientIDCheck := skipClientIDCheck;
     DiscoverPublicKey := None;
     SkipExpirationCheck := false;
     GQOnly := gq;
     GQCommitment := gq |}.

Definition v_verifier : DefaultProviderVerifier :=
  NewProviderVerifier tenant_a "nonce" (opts "verifier" false false).
Definition v_other_client : DefaultProviderVerifier :=
  NewProviderVerifier tenant_a "nonce" (opts "other-client" false false).
Definition v_tenant_b : DefaultProviderVerifier :=
  NewProviderVerifier tenant_b "nonce" (opts "verifier" false false).
Definition v_gq_commitment : DefaultProviderVerifier :=
  NewProviderVerifier tenant_a "" (opts "" true true).


(** A cosigner that has not yet served anyone. *)
Definition c0 : AuthCosigner := {|
  AuthCosigner.Cosigner_ := "cosigner-signing-key";
  AuthCosigner.Issuer := "https://mfa.example.com";
  AuthCosigner.KeyID := "cosigner-key-1";
  AuthCosigner.AuthIdIter := 0;
  AuthCosigner.HmacKey := "hmac-key";
  AuthCosigner.AuthStateMap := ∅;
  AuthCosigner.AuthCodeMap := ∅
|}.

(** A clock that shows [sec] seconds after the epoch at every reading. *)
Definition clock (sec : Z) : nat → Z := λ _, time_Unix sec.

Definition authcode_bytes : bytes := "0123456789abcdefghijklmnopqrstuv".

(** The state after [InitAuth] for [pkt_rs256], one minute after the
    message was signed, and the auth ID it returned. *)
Definition c1 : AuthCosigner :=
  (InitAuth c0 pkt_rs256 "sig-init-mfa-auth" (clock 1700000060)).1.
Definition authID1 : string :=
  match (InitAuth c0 pkt_rs256 "sig-init-mfa-auth" (clock 1700000060)).2 with
  | Ok authID => authID
  | _ => ""
  end.

(** The state after [NewAuthcode] for that auth ID. *)
Definition c2 : AuthCosigner := (NewAuthcode c1 authID1 (Done authcode_bytes)).1.

(** The message behind ["sig-init-mfa-auth"], and the cosignature the
    mock signer makes for [authID1]. *)
Definition init_msg : InitMFAAuth :=
  {| InitMFAAuth.TimeSigned := 1700000000;
     InitMFAAuth.RedirectUri := "http://localhost:3000/mfacallback";
     InitMFAAuth.Nonce := "n-1" |}.
Definition cos1 : bytes := "cos:" ++ authID1 ++ ".cosigner-signing-key".

(** A verifier that accepts GQ signatures only, and one whose options ask
    for the GQ commitment without [GQOnly]. *)
Definition opts_gq_only (clientID : string) : ProviderVerifierOpts :=
  {| ClientID := clientID;
     SkipClientIDCheck := false;
     DiscoverPublicKey := None;
     SkipExpirationCheck := false;
     GQOnly := true;
     GQCommitment := false |}.
Definition v_gq_only : DefaultProviderVerifier :=
  NewProviderVerifier tenant_a "nonce" (opts_gq_only "verifier").
Definition v_misconfigured : DefaultProviderVerifier :=
  NewProviderVerifier tenant_a "nonce"
    {| ClientID := "verifier";
       SkipClientIDCheck := true;
       DiscoverPublicKey := None;
       SkipExpirationCheck := false;
       GQOnly := false;
       GQCommitment := true |}.
Definition v_skip (clientID : string) : DefaultProviderVerifier :=
  NewProviderVerifier tenant_a "nonce" (opts clientID true false).

(** The token [pkt_gq_list_aud] with a GQ signature nobody made. *)
Definition pkt_gq_list_aud_forged : token := {|
  payload := "payload-aud-gq-list";
  op_protected := [("alg", Str "GQ256"); ("typ", Str "JWT"); ("jwt", Str "header-rs256")];
  op_token := "op-token-gq-forged";
  cic_token := "cic-token";
  cic_hash := "commitment-alice";
  upk := alice_upk
|}.

(** A GQ-signed token with a string audience. *)
Definition pkt_gq : token := {|
  payload := "payload-aud-verifier";
  op_protected := [("alg", Str "GQ256"); ("typ", Str "JWT"); ("jwt", Str "header-rs256")];
  op_token := "op-token-gq";
  cic_token := "cic-token";
  cic_hash := "commitment-alice";
  upk := alice_upk
|}.

End Scenario.

(** ** A second world: list and joined audiences, compact tokens *)
Module Scenario2.
Import Mock Scenario.

Definition ab_claims (aud : any) : list (string * any) :=
  [("iss", Str tenant_a); ("aud", aud); ("sub", Str "alice-id");
   ("email", Str "alice@example.com")].

(** Two payloads that differ in the form of the audience only: the list of
    [a] and [b], and the string [a,b]. *)
Definition w2 : world := {|
  objects :=
    [("payload-aud-list", ab_claims (Slice [Str "a"; Str "b"]));
     ("payload-aud-joined", ab_claims (Str "a,b"))];
  verifies := [];
  gq_verifies := [];
  gq_headers := [];
  parses := [];
  jwks := []
|}.

Definition L2 : Lib := Mock.lib w2.

Definition pkt_aud_list : token := token_with "RS256" "op-token-list" "payload-aud-list".
Definition pkt_aud_joined : token :=
  token_with "RS256" "op-token-joined" "payload-aud-joined".

(** [jws.SplitCompact] on the compact tokens of [w]. *)
Definition split_compact (tok : bytes) :=
  fmap_lib (λ payload : bytes, ("header-rs256", payload, "signature"))
    (of_option "invalid number of segments" (assoc tok (parses w))).

(** The world [w] with the forged GQ token in it: its original headers are
    there and declare RS256, its GQ signature verifies under no key; and
    with a message that Alice signed with the largest [int64] as its
    time. *)
Definition w3 : world := {|
  objects :=
    ("init-mfa-auth-max", [("time", Float64 "9223372036854775807");
                           ("ruri", Str "http://localhost:3000/mfacallback");
                           ("nonce", Str "n-1")]) :: objects w;
  verifies := ("sig-init-mfa-auth-max", JWKKey alice_upk) :: verifies w;
  gq_verifies := gq_verifies w;
  gq_headers := ("op-token-gq-forged", "header-rs256") :: gq_headers w;
  parses := ("sig-init-mfa-auth-max", "init-mfa-auth-max") :: parses w;
  jwks := jwks w
|}.

Definition L3 : Lib := Mock.lib w3.

Definition v_gq_commitment_3 : DefaultProviderVerifier :=
  NewProviderVerifier (H:=L3) tenant_a "" (opts "" true true).

(** A verifier whose commitment claim is [sub]. *)
Definition v_sub : DefaultProviderVerifier :=
  NewProviderVerifier tenant_a "sub" (opts "verifier" false false).

Definition init_msg_max : InitMFAAuth :=
  {| InitMFAAuth.TimeSigned := 9223372036854775807;
     InitMFAAuth.RedirectUri := "http://localhost:3000/mfacallback";
     InitMFAAuth.Nonce := "n-1" |}.

(** The session [InitAuth] stores for [pkt_rs256] and [init_msg]. *)
Definition session1 : AuthState := {|
  AuthState.Pkt := pkt_rs256;
  AuthState.Issuer := tenant_a;
  AuthState.Aud := "verifier";
  AuthState.Sub := "alice-id";
  AuthState.Username := "alice@example.com";
  AuthState.DisplayName := "alice";
  AuthState.RedirectURI := "http://localhost:3000/mfacallback";
  AuthState.Nonce := "n-1";
  AuthState.SigIssued := false
|}.

End Scenario2.

(** * Properties *)

(** ** Outcomes *)

Lemma bind_Ok_inv {A B} (r : res A) (k : A → res B) (b : B) :
  (r ≫= k) = Ok b → ∃ a, r = Ok a ∧ k a = Ok b.
Proof. destruct r; [by eauto | done | done]. Qed.

Lemma call_Ok_inv {A} (r : lib A) (a : A) : call r = Ok a → r = Done a.
Proof. destruct r; simpl; congruence. Qed.

Lemma call_wrap_Ok_inv {A} w (r : lib A) (a : A) : call_wrap w r = Ok a → r = Done a.
Proof. destruct r; simpl; congruence. Qed.

Lemma String_eqb_true (s t : string) : String.eqb s t = true ↔ s = t.
Proof. apply String.eqb_eq. Qed.

Lemma String_eqb_false (s t : string) : String.eqb s t = false ↔ s ≠ t.
Proof. apply String.eqb_neq. Qed.

(** ** The audience *)

Section audience.
Context `{Lib}.

(** The loop accepts exactly the lists in which [clientID] occurs as a
    string with nothing but strings before it. *)
Lemma verifyAudience_list_Ok (clientID : string) (whole rest : list any) :
  verifyAudience_list clientID whole rest = Ok () ↔
  ∃ before after, rest = ((Str <$> before) ++ Str clientID :: after)%list.
Proof.
  split.
  - induction rest as [|x rest IH]; simpl; [done|].
    destruct x as [| | |audience| |]; try done.
    destruct (String.eqb audience clientID) eqn:Heq.
    + apply String_eqb_true in Heq as ->. intros _. by exists [], rest.
    + intros [before [after ->]]%IH. by exists (audience :: before), after.
  - intros [before [after ->]].
    induction before as [|b before IH]; simpl.
    + by rewrite String.eqb_refl.
    + by destruct (String.eqb b clientID).
Qed.

Lemma verifyAudience_list_strings (clientID : string) (whole : list any) (l : list string) :
  clientID ∉ l →
  verifyAudience_list clientID whole (Str <$> l)
  = Err (AudienceDoesNotContainClientID clientID (Slice whole)).
Proof.
  induction l as [|s l IH]; simpl; [done|].
  intros [Hne Hl]%not_elem_of_cons.
  assert (String.eqb s clientID = false) as -> by (apply String_eqb_false; congruence).
  by apply IH.
Qed.

(** C5, amended: [verifyAudience] succeeds iff the aud claim is a string
    equal to the client ID, or a list in which the client ID occurs as a
    string with only strings before it; so every list of strings containing
    the client ID passes, and what follows the match is not examined.  An
    aud that is another string, a list of strings without the client ID,
    absent or of another JSON type is an error. *)
Theorem verifyAudience_rule (pkt : PKToken) (clientID : string) (aud : any) :
  Unmarshal_Audience (Payload pkt) = Done aud →
  (verifyAudience pkt clientID = Ok () ↔
     aud = Str clientID ∨
     ∃ before after, aud = Slice ((Str <$> before) ++ Str clientID :: after)%list) ∧
  (∀ l : list string, aud = Slice (Str <$> l) → clientID ∈ l →
     verifyAudience pkt clientID = Ok ()) ∧
  ((∃ s, aud = Str s ∧ s ≠ clientID) ∨
   (∃ l : list string, aud = Slice (Str <$> l) ∧ clientID ∉ l) ∨
   no_audience aud = true →
   is_Err (verifyAudience pkt clientID)).
Proof.
  intros Haud. unfold verifyAudience. rewrite Haud. simpl.
  assert (Hlist : ∀ l, verifyAudience_list clientID l l = Ok () ↔
            ∃ before after, l = ((Str <$> before) ++ Str clientID :: after)%list)
    by (intros; apply verifyAudience_list_Ok).
  split; [|split].
  - destruct aud as [| | |s|l|]; simpl;
      try (split; [done | by intros [|(?&?&?)]]).
    + destruct (String.eqb s clientID) eqn:Heq; simpl.
      * apply String_eqb_true in Heq as ->. split; [by left | done].
      * apply String_eqb_false in Heq.
        split; [done | intros [|(?&?&?)]; congruence].
    + rewrite Hlist. split.
      * intros (before & after & ->). right. by exists before, after.
      * intros [|(before & after & [= ->])]; [done | by exists before, after].
  - intros l -> [before [after ->]]%list_elem_of_split.
    apply Hlist. exists before, (Str <$> after). by rewrite fmap_app.
  - intros [(s & -> & Hne)|[(l & -> & Hl)|Hno]].
    + apply String_eqb_false in Hne as ->. simpl. by eexists.
    + rewrite verifyAudience_list_strings by done. by eexists.
    + destruct aud; try done; by eexists.
Qed.

(** When the payload does not decode, the decoder's error is returned. *)
Lemma verifyAudience_undecodable (pkt : PKToken) (clientID msg : string) :
  Unmarshal_Audience (Payload pkt) = Fail msg →
  verifyAudience pkt clientID = Err (Foreign msg).
Proof. intros Haud. unfold verifyAudience. by rewrite Haud. Qed.

Lemma verifyAudience_list_not_commitment clientID whole rest got expected :
  verifyAudience_list clientID whole rest ≠ Err (CommitmentDoesNotMatch got expected).
Proof.
  induction rest as [|x rest IH]; simpl; [done|].
  destruct x; try done. by destruct (String.eqb _ _).
Qed.

Lemma verifyAudience_not_commitment (pkt : PKToken) clientID got expected :
  verifyAudience pkt clientID ≠ Err (CommitmentDoesNotMatch got expected).
Proof.
  unfold verifyAudience.
  destruct (Unmarshal_Audience (Payload pkt)) as [aud|]; simpl; [|done].
  destruct aud; try done.
  - by destruct (String.eqb _ _).
  - apply verifyAudience_list_not_commitment.
Qed.
End audience.

(** ** The commitment *)

Section commitment.
Context `{Lib}.

Lemma any_eq_string_true (x : any) (s : string) :
  any_eq_string x s = true ↔ x = Str s.
Proof.
  destruct x; simpl; try (split; congruence).
  rewrite String_eqb_true. split; congruence.
Qed.

(** Under [GQCommitment], success means a prefixed string audience and a
    [cic] header equal to the hash of the CIC. *)
Lemma verifyCommitment_gq_Ok (v : DefaultProviderVerifier) (pkt : PKToken) :
  GQCommitment (options v) = true →
  verifyCommitment v pkt = Ok () →
  ∃ claims cic expected aud,
    Unmarshal_claims (Payload pkt) = Done claims ∧
    GetCicValues pkt = Done cic ∧ Hash cic = Done expected ∧
    (claims : gmap string any) !! "aud" = Some (Str aud) ∧
    String.prefix AudPrefixForGQCommitment aud = true ∧
    Op_ProtectedHeaders_Get pkt "cic" = Some (Str expected).
Proof.
  intros Hgq. unfold verifyCommitment. rewrite Hgq.
  intros (claims & Hclaims%call_Ok_inv & Hk)%bind_Ok_inv.
  apply bind_Ok_inv in Hk as (cic & Hcic%call_Ok_inv & Hk).
  apply bind_Ok_inv in Hk as (expected & Hhash%call_Ok_inv & Hk).
  apply bind_Ok_inv in Hk as (commitment & Hc & Hk).
  destruct (claims !! "aud") as [[| | |aud| |]|] eqn:Haud; try done.
  destruct (String.prefix AudPrefixForGQCommitment aud) eqn:Hpre; [|done].
  simpl in Hc.
  destruct (Op_ProtectedHeaders_Get pkt "cic") as [c|] eqn:Hget; [|done].
  injection Hc as ->.
  destruct (any_eq_string commitment expected) eqn:Heq; [|done].
  apply any_eq_string_true in Heq as ->.
  by exists claims, cic, expected, aud.
Qed.

(** A payload without an aud claim is an error in this mode. *)
Lemma verifyCommitment_gq_missing_aud (v : DefaultProviderVerifier) (pkt : PKToken) :
  GQCommitment (options v) = true →
  (∀ claims, Unmarshal_claims (Payload pkt) = Done claims →
     (claims : gmap string any) !! "aud" = None) →
  is_Err (verifyCommitment v pkt).
Proof.
  intros Hgq Haud. unfold verifyCommitment. rewrite Hgq.
  destruct (Unmarshal_claims (Payload pkt)) as [claims|]; simpl; [|by eexists].
  destruct (GetCicValues pkt) as [cic|]; simpl; [|by eexists].
  destruct (Hash cic) as [expected|]; simpl; [|by eexists].
  rewrite (Haud claims eq_refl). by eexists.
Qed.

(** A string audience without the prefix is an error in this mode. *)
Lemma verifyCommitment_gq_prefix_mismatch (v : DefaultProviderVerifier) (pkt : PKToken)
    (claims : gmap string any) (aud : string) :
  GQCommitment (options v) = true →
  Unmarshal_claims (Payload pkt) = Done claims →
  claims !! "aud" = Some (Str aud) →
  String.prefix AudPrefixForGQCommitment aud = false →
  is_Err (verifyCommitment v pkt).
Proof.
  intros Hgq Hclaims Haud Hpre. unfold verifyCommitment. rewrite Hgq, Hclaims. simpl.
  destruct (GetCicValues pkt) as [cic|]; simpl; [|by eexists].
  destruct (Hash cic) as [expected|]; simpl; [|by eexists].
  rewrite Haud, Hpre. by eexists.
Qed.

(** A missing [cic] header is an error when the audience is a string or
    absent. *)
Lemma verifyCommitment_gq_missing_cic (v : DefaultProviderVerifier) (pkt : PKToken)
    (claims : gmap string any) :
  GQCommitment (options v) = true →
  Unmarshal_claims (Payload pkt) = Done claims →
  (∀ aud, claims !! "aud" = Some aud → is_string aud = true) →
  Op_ProtectedHeaders_Get pkt "cic" = None →
  is_Err (verifyCommitment v pkt).
Proof.
  intros Hgq Hclaims Haud Hcic. unfold verifyCommitment. rewrite Hgq, Hclaims. simpl.
  destruct (GetCicValues pkt) as [cic|]; simpl; [|by eexists].
  destruct (Hash cic) as [expected|]; simpl; [|by eexists].
  destruct (claims !! "aud") as [aud|] eqn:Hlook; simpl; [|by eexists].
  specialize (Haud aud eq_refl). destruct aud; try done.
  destruct (String.prefix _ _); simpl; [|by eexists].
  rewrite Hcic. by eexists.
Qed.

(** The type assertion is the only panic of [verifyCommitment]. *)
Lemma verifyCommitment_Panic_inv (v : DefaultProviderVerifier) (pkt : PKToken) :
  is_Panic (verifyCommitment v pkt) →
  GQCommitment (options v) = true ∧
  ∃ claims aud, Unmarshal_claims (Payload pkt) = Done claims ∧
    (claims : gmap string any) !! "aud" = Some aud ∧ is_string aud = false.
Proof.
  unfold verifyCommitment. intros [p Hp].
  destruct (Unmarshal_claims (Payload pkt)) as [claims|]; simpl in Hp; [|done].
  destruct (GetCicValues pkt) as [cic|]; simpl in Hp; [|done].
  destruct (Hash cic) as [expected|]; simpl in Hp; [|done].
  destruct (GQCommitment (options v)).
  - split; [done|]. exists claims.
    destruct (claims !! "aud") as [aud|]; [|done].
    exists aud. split; [done|]. split; [done|].
    destruct aud; try done.
    destruct (String.prefix _ _); simpl in Hp; [|done].
    destruct (Op_ProtectedHeaders_Get pkt "cic"); simpl in Hp; [|done].
    by destruct (any_eq_string _ _).
  - destruct (claims !! commitmentClaim v); simpl in Hp; [|done].
    by destruct (any_eq_string _ _).
Qed.

Lemma verifyCommitment_aud_not_string (v : DefaultProviderVerifier) (pkt : PKToken)
    (claims : gmap string any) (cic : Claims) (expected : bytes) (aud : any) :
  GQCommitment (options v) = true →
  Unmarshal_claims (Payload pkt) = Done claims →
  GetCicValues pkt = Done cic →
  Hash cic = Done expected →
  claims !! "aud" = Some aud →
  is_string aud = false →
  verifyCommitment v pkt = Panic (InterfaceConversion aud "string").
Proof.
  intros Hgq Hclaims Hcic Hhash Haud Hstr.
  unfold verifyCommitment. rewrite Hgq, Hclaims. simpl.
  rewrite Hcic. simpl. rewrite Hhash. simpl. rewrite Haud.
  by destruct aud.
Qed.
End commitment.

(** ** [VerifyProvider] *)

Section provider.
Context `{Lib}.

Lemma VerifyProvider_sanity_gq (v : DefaultProviderVerifier) :
  VerifyProvider_sanity v = Ok () →
  GQCommitment (options v) = true →
  GQOnly (options v) = true ∧ commitmentClaim v = "" ∧
  SkipClientIDCheck (options v) = true.
Proof.
  unfold VerifyProvider_sanity. intros Hs Hgq. rewrite Hgq in Hs.
  destruct (GQOnly (options v)); [|done].
  destruct (String.eqb (commitmentClaim v) "") eqn:Hc; [|done].
  apply String_eqb_true in Hc.
  by destruct (SkipClientIDCheck (options v)).
Qed.

Lemma VerifyProvider_sanity_not_commitment (v : DefaultProviderVerifier) :
  not_commitment_mismatch (VerifyProvider_sanity v).
Proof.
  intros got expected. unfold VerifyProvider_sanity.
  destruct (GQCommitment (options v)); [|done].
  destruct (GQOnly (options v)); [|done].
  destruct (String.eqb (commitmentClaim v) ""); [|done].
  by destruct (SkipClientIDCheck (options v)).
Qed.

Lemma VerifyProvider_audience_not_commitment (v : DefaultProviderVerifier) (pkt : PKToken) :
  not_commitment_mismatch (VerifyProvider_audience v pkt).
Proof.
  intros got expected. unfold VerifyProvider_audience.
  pose proof (verifyAudience_not_commitment pkt (ClientID (options v)) got expected).
  destruct (verifyAudience pkt (ClientID (options v))); try done.
  by destruct (SkipClientIDCheck (options v)).
Qed.

(** An algorithm that is neither GQ256 nor RS256 matches no case of the
    switch: nothing is verified and nothing is returned. *)
Lemma VerifyProvider_switch_undeclared (v : DefaultProviderVerifier) (pkt : PKToken)
    (alg : string) :
  alg ≠ GQ256 → alg ≠ RS256 → VerifyProvider_switch v pkt alg = Ok ().
Proof.
  intros Hgq%String_eqb_false Hrs%String_eqb_false.
  unfold VerifyProvider_switch. by rewrite Hgq, Hrs.
Qed.

Lemma VerifyProvider_switch_Err_inv (v : DefaultProviderVerifier) (pkt : PKToken)
    (alg : string) (e : error) :
  VerifyProvider_switch v pkt alg = Err e →
  (alg = GQ256 ∨ alg = RS256) ∧ ∀ got expected, e ≠ CommitmentDoesNotMatch got expected.
Proof.
  unfold VerifyProvider_switch.
  destruct (String.eqb alg GQ256) eqn:Hgq.
  - apply String_eqb_true in Hgq. intros Hw. split; [by left|].
    destruct (verifyGQSig v pkt); simpl in Hw; try done. by injection Hw as <-.
  - destruct (String.eqb alg RS256) eqn:Hrs; [|done].
    apply String_eqb_true in Hrs. intros Hw. split; [by right|].
    unfold providerPublicKey, ByToken in Hw.
    destruct (DiscoverPublicKey (options v)) as [find|]; simpl in Hw; [|done].
    destruct (find (Issuer_of v) (OpToken pkt)) as [record|]; simpl in Hw.
    + destruct (jws_Verify _ _ _); simpl in Hw; [done|]. by injection Hw as <-.
    + by injection Hw as <-.
Qed.

(** When the token is GQ-signed its issuer is compared with the
    verifier's. *)
Lemma verifyGQSig_issuer (v : DefaultProviderVerifier) (pkt : PKToken) :
  verifyGQSig v pkt = Ok () → pkt_Issuer pkt = Done (issuer v).
Proof.
  unfold verifyGQSig.
  destruct (ProviderAlgorithm pkt) as [alg|]; [|done].
  destruct (String.eqb alg GQ256); simpl; [|done].
  intros (origHeaders & _ & Hk)%bind_Ok_inv.
  destruct (String.eqb (Algorithm origHeaders) RS256); simpl in Hk; [|done].
  apply bind_Ok_inv in Hk as (pktIssuer & Hiss%call_wrap_Ok_inv & Hk).
  destruct (String.eqb pktIssuer (issuer v)) eqn:Heq; simpl in Hk; [|done].
  apply String_eqb_true in Heq. by rewrite Hiss, Heq.
Qed.

(** What [VerifyProvider] does once a token has passed the checks that
    precede the switch. *)
Lemma VerifyProvider_from_switch (v : DefaultProviderVerifier) (pkt : PKToken)
    (alg : string) :
  VerifyProvider_sanity v = Ok () →
  VerifyProvider_audience v pkt = Ok () →
  ProviderAlgorithm pkt = Some alg →
  (GQOnly (options v) = true → alg = GQ256) →
  VerifyProvider v pkt =
    (_ ← VerifyProvider_switch v pkt alg;
     _ ← verifyCommitment v pkt;
     _ ← wrap ErrorVerifyingClientSignature (verifyCicSignature pkt);
     Ok ()).
Proof.
  intros Hs Ha Halg Hgq. unfold VerifyProvider.
  rewrite Hs, Ha, Halg. simpl.
  destruct (String.eqb alg GQ256) eqn:Heq; simpl; [done|].
  destruct (GQOnly (options v)); simpl; [|done].
  apply String_eqb_false in Heq. by destruct Heq; apply Hgq.
Qed.

(** With [GQOnly], an algorithm other than GQ256 is refused. *)
Lemma VerifyProvider_GQOnly (v : DefaultProviderVerifier) (pkt : PKToken) (alg : string) :
  GQOnly (options v) = true →
  ProviderAlgorithm pkt = Some alg → alg ≠ GQ256 →
  VerifyProvider v pkt ≠ Ok ().
Proof.
  intros Hgq Halg Hne%String_eqb_false. unfold VerifyProvider.
  destruct (VerifyProvider_sanity v) as [[]| |]; simpl; [|done|done].
  destruct (VerifyProvider_audience v pkt) as [[]| |]; simpl; [|done|done].
  by rewrite Halg; simpl; rewrite Hne, Hgq.
Qed.

(** Without [GQOnly], a token that declares another algorithm is judged on
    its commitment and its client signature alone. *)
Lemma VerifyProvider_undeclared (v : DefaultProviderVerifier) (pkt : PKToken) (alg : string) :
  VerifyProvider_sanity v = Ok () →
  VerifyProvider_audience v pkt = Ok () →
  ProviderAlgorithm pkt = Some alg →
  alg ≠ GQ256 → alg ≠ RS256 →
  GQOnly (options v) = false →
  VerifyProvider v pkt =
    (_ ← verifyCommitment v pkt;
     _ ← wrap ErrorVerifyingClientSignature (verifyCicSignature pkt);
     Ok ()).
Proof.
  intros Hs Ha Halg Hgq Hrs Honly.
  rewrite (VerifyProvider_from_switch v pkt alg) by (done || by rewrite Honly).
  by rewrite VerifyProvider_switch_undeclared.
Qed.

(** A GQ-signed token of another issuer is never accepted. *)
Lemma VerifyProvider_GQ256_issuer (v : DefaultProviderVerifier) (pkt : PKToken)
    (pktIssuer : string) :
  ProviderAlgorithm pkt = Some GQ256 →
  pkt_Issuer pkt = Done pktIssuer → pktIssuer ≠ issuer v →
  VerifyProvider v pkt ≠ Ok ().
Proof.
  intros Halg Hiss Hne. unfold VerifyProvider.
  destruct (VerifyProvider_sanity v) as [[]| |]; simpl; [|done|done].
  destruct (VerifyProvider_audience v pkt) as [[]| |]; simpl; [|done|done].
  rewrite Halg. simpl.
  unfold VerifyProvider_switch. simpl.
  destruct (verifyGQSig v pkt) as [[]| |] eqn:Hsig; simpl; [|done|done].
  apply verifyGQSig_issuer in Hsig. congruence.
Qed.

(** C4, amended: for a PK Token declaring RS256 or GQ256 whose provider
    signature does not verify, [VerifyProvider] returns the error of the
    signature verification whenever the checks that precede it (option
    sanity, audience, GQOnly) pass, and otherwise what the first of those
    checks that does not pass gives: the error of the option check, else
    the error or the panic of the audience check, else
    [ErrNonGQUnsupported]; the commitment is not consulted, and the result
    is never a commitment mismatch. *)
Theorem VerifyProvider_signature_before_commitment (v : DefaultProviderVerifier)
    (pkt : PKToken) (alg : string) (e : error) :
  ProviderAlgorithm pkt = Some alg →
  VerifyProvider_switch v pkt alg = Err e →
  (alg = GQ256 ∨ alg = RS256) ∧
  (VerifyProvider_sanity v = Ok () ∨ ∃ e', VerifyProvider_sanity v = Err e') ∧
  (∀ e', VerifyProvider_sanity v = Err e' → VerifyProvider v pkt = Err e') ∧
  (VerifyProvider_sanity v = Ok () → VerifyProvider_audience v pkt ≠ Ok () →
   VerifyProvider v pkt = VerifyProvider_audience v pkt) ∧
  (VerifyProvider_sanity v = Ok () → VerifyProvider_audience v pkt = Ok () →
   GQOnly (options v) = true → alg ≠ GQ256 →
   VerifyProvider v pkt = Err ErrNonGQUnsupported) ∧
  (VerifyProvider_sanity v = Ok () → VerifyProvider_audience v pkt = Ok () →
   (GQOnly (options v) = true → alg = GQ256) →
   VerifyProvider v pkt = Err e) ∧
  VerifyProvider v pkt ≠ Ok () ∧
  not_commitment_mismatch (VerifyProvider v pkt).
Proof.
  intros Halg Hsw.
  destruct (VerifyProvider_switch_Err_inv _ _ _ _ Hsw) as [Hcase Hne].
  split; [done|]. split; [|split; [|split; [|split; [|split; [|split]]]]].
  - unfold VerifyProvider_sanity.
    destruct (GQCommitment (options v)); [|by left].
    destruct (negb (GQOnly (options v))); [right; by eexists|].
    destruct (negb (String.eqb (commitmentClaim v) "")); [right; by eexists|].
    destruct (negb (SkipClientIDCheck (options v))); [right; by eexists|by left].
  - intros e' Hs. unfold VerifyProvider. by rewrite Hs.
  - intros Hs Ha. unfold VerifyProvider. rewrite Hs. simpl.
    by destruct (VerifyProvider_audience v pkt) as [[]| |].
  - intros Hs Ha Hgq Hne'%String_eqb_false. unfold VerifyProvider.
    rewrite Hs, Ha, Halg. simpl. by rewrite Hne', Hgq.
  - intros Hs Ha Hgq.
    rewrite (VerifyProvider_from_switch v pkt alg) by done. by rewrite Hsw.
  - unfold VerifyProvider.
    destruct (VerifyProvider_sanity v) as [[]| |]; simpl; [|done|done].
    destruct (VerifyProvider_audience v pkt) as [[]| |]; simpl; [|done|done].
    rewrite Halg. simpl.
    destruct (negb (String.eqb alg GQ256) && GQOnly (options v)); simpl; [done|].
    by rewrite Hsw.
  - intros got expected. unfold VerifyProvider.
    pose proof (VerifyProvider_sanity_not_commitment v got expected).
    destruct (VerifyProvider_sanity v) as [[]| |]; simpl; [|done|done].
    pose proof (VerifyProvider_audience_not_commitment v pkt got expected).
    destruct (VerifyProvider_audience v pkt) as [[]| |]; simpl; [|done|done].
    rewrite Halg. simpl.
    destruct (negb (String.eqb alg GQ256) && GQOnly (options v)); simpl; [done|].
    rewrite Hsw. simpl. intros [= ->]. by eapply Hne.
Qed.

(** C9, amended: under [GQCommitment], an aud claim that is present and
    not a string makes the type assertion of [verifyCommitment] panic once
    the payload, the CIC values and their hash are read, and with it
    [VerifyProvider], once the option check has passed, the token declares
    GQ256 and its GQ signature has verified; a string aud never panics
    there. *)
Theorem verifyCommitment_aud_type_assertion (v : DefaultProviderVerifier) (pkt : PKToken)
    (claims : gmap string any) (cic : Claims) (expected : bytes) (aud : any) :
  GQCommitment (options v) = true →
  VerifyProvider_sanity v = Ok () →
  ProviderAlgorithm pkt = Some GQ256 →
  verifyGQSig v pkt = Ok () →
  Unmarshal_claims (Payload pkt) = Done claims →
  GetCicValues pkt = Done cic →
  Hash cic = Done expected →
  claims !! "aud" = Some aud →
  is_string aud = false →
  verifyCommitment v pkt = Panic (InterfaceConversion aud "string") ∧
  is_Panic (VerifyProvider v pkt) ∧
  (∀ (pkt' : PKToken) (claims' : gmap string any) (s : string),
     Unmarshal_claims (Payload pkt') = Done claims' →
     claims' !! "aud" = Some (Str s) →
     ¬ is_Panic (verifyCommitment v pkt')).
Proof.
  intros Hgq Hs Halg Hsig Hclaims Hcic Hhash Haud Hstr.
  assert (Hp : verifyCommitment v pkt = Panic (InterfaceConversion aud "string"))
    by (by eapply verifyCommitment_aud_not_string).
  split; [done|]. split.
  - unfold VerifyProvider. rewrite Hs. simpl.
    destruct (VerifyProvider_audience v pkt) as [[]|e|p] eqn:Ha; simpl.
    + rewrite Halg. simpl. unfold VerifyProvider_switch. simpl.
      rewrite Hsig, Hp. simpl. by eexists.
    + exfalso. unfold VerifyProvider_audience in Ha.
      destruct (VerifyProvider_sanity_gq v Hs Hgq) as (_ & _ & Hskip).
      rewrite Hskip in Ha. by destruct (verifyAudience _ _).
    + by eexists.
  - intros pkt' claims' s Hclaims' Haud' Hpanic.
    apply verifyCommitment_Panic_inv in Hpanic as (_ & c & a & Hc & Ha & Hnot).
    rewrite Hclaims' in Hc. injection Hc as <-.
    rewrite Haud' in Ha. by injection Ha as <-.
Qed.
End provider.

(** ** The verifier on concrete tokens *)

Section verifier_scenarios.
Import Mock Scenario.

Lemma forged_token_verifies_under_no_key (alg : string) (key : jws_key) :
  jws_Verify (OpToken pkt_es256) alg key
  = Fail "could not verify message using any of the signatures or keys".
Proof.
  reflexivity.
Qed.

(** C1: a token whose protected header declares ES256, with a signature
    that verifies under no key, is accepted by a verifier without
    [GQOnly]: the switch has no case for it, and the commitment and the
    client signature are checked with the provider signature unverified. *)
Theorem VerifyProvider_accepts_undeclared_algorithm :
  ProviderAlgorithm pkt_es256 = Some "ES256" ∧
  GQOnly (options v_verifier) = false ∧
  (∀ alg key, ∃ msg, jws_Verify (OpToken pkt_es256) alg key = Fail msg) ∧
  VerifyProvider_switch v_verifier pkt_es256 "ES256" = Ok () ∧
  VerifyProvider v_verifier pkt_es256 = Ok ().
Proof.
  split; [reflexivity|]. split; [reflexivity|]. split.
  - intros alg key. eexists. apply forged_token_verifies_under_no_key.
  - split; vm_compute; reflexivity.
Qed.

(** C2: an RS256 token issued under [tenant_a] is accepted by a verifier
    configured for [tenant_b] when the key finder returns the signing key
    for that issuer too; only the GQ256 path compares the issuers. *)
Theorem VerifyProvider_RS256_issuer_unchecked :
  ProviderAlgorithm pkt_rs256 = Some RS256 ∧
  pkt_Issuer pkt_rs256 = Done tenant_a ∧
  issuer v_tenant_b = tenant_b ∧
  tenant_a ≠ tenant_b ∧
  VerifyProvider v_tenant_b pkt_rs256 = Ok ().
Proof.
  split; [reflexivity|]. split; [reflexivity|]. split; [reflexivity|].
  split; [discriminate|]. vm_compute. reflexivity.
Qed.

(** C4 as stated fails: the commitment of [pkt_corrupted] is correct and
    its RS256 signature does not verify, yet a verifier expecting another
    client ID returns the audience error, which precedes the signature. *)
Lemma signature_error_not_returned :
  ¬ signature_error_returned v_other_client pkt_corrupted.
Proof.
  intros Hclaim.
  specialize (Hclaim "RS256"
    (Foreign "could not verify message using any of the signatures or keys")
    eq_refl eq_refl eq_refl).
  vm_compute in Hclaim. discriminate.
Qed.

Lemma VerifyProvider_signature_before_commitment_witness :
  ProviderAlgorithm pkt_corrupted = Some "RS256" ∧
  VerifyProvider v_verifier pkt_corrupted
  = Err (Foreign "could not verify message using any of the signatures or keys") ∧
  VerifyProvider v_other_client pkt_corrupted
  = Err (AudienceDoesNotContainClientID "other-client" (Str "verifier")) ∧
  VerifyProvider v_gq_only pkt_corrupted = Err ErrNonGQUnsupported ∧
  not_commitment_mismatch (VerifyProvider v_verifier pkt_corrupted).
Proof.
  split; [reflexivity|].
  destruct (VerifyProvider_signature_before_commitment (H:=L) v_verifier pkt_corrupted "RS256"
    (Foreign "could not verify message using any of the signatures or keys")
    eq_refl eq_refl) as (_ & _ & _ & _ & _ & Herr & _ & Hnot).
  destruct (VerifyProvider_signature_before_commitment (H:=L) v_other_client pkt_corrupted
    "RS256" (Foreign "could not verify message using any of the signatures or keys")
    eq_refl eq_refl) as (_ & _ & _ & Haud & _).
  destruct (VerifyProvider_signature_before_commitment (H:=L) v_gq_only pkt_corrupted
    "RS256" (Foreign "could not verify message using any of the signatures or keys")
    eq_refl eq_refl) as (_ & _ & _ & _ & Hgq & _).
  split; [apply Herr; [reflexivity | reflexivity | discriminate]|].
  split; [rewrite Haud; [reflexivity | reflexivity | vm_compute; discriminate]|].
  split; [apply Hgq; [reflexivity | reflexivity | reflexivity | discriminate]|].
  exact Hnot.
Defined.

(** C5 as stated fails: the audience [["verifier", 42]] is not a list of
    strings, and [verifyAudience] accepts it for the client ID
    ["verifier"]. *)
Lemma audience_rule_mixed_list : ¬ audience_rule pkt_aud_mixed "verifier".
Proof.
  intros Hrule.
  destruct (Hrule (Slice [Str "verifier"; Float64 "42"]) eq_refl) as [Hok _].
  destruct (Hok eq_refl) as [Hstr|(l & Hl & _)]; [discriminate|].
  destruct l as [|s1 [|s2 l]]; discriminate.
Qed.

Lemma verifyAudience_rule_witness :
  Unmarshal_Audience (Payload pkt_rs256) = Done (Str "verifier") ∧
  verifyAudience pkt_rs256 "verifier" = Ok () ∧
  is_Err (verifyAudience pkt_rs256 "other-client") ∧
  verifyAudience pkt_gq_list_aud "OPENPUBKEY-PKTOKEN:commitment-alice" = Ok () ∧
  is_Err (verifyAudience pkt_gq_list_aud "verifier") ∧
  verifyAudience pkt_aud_mixed "verifier" = Ok () ∧
  is_Err (verifyAudience pkt_no_aud "verifier").
Proof.
  split; [reflexivity|]. split; [|split; [|split; [|split; [|split]]]].
  - apply (verifyAudience_rule (H:=L) pkt_rs256 "verifier" (Str "verifier") eq_refl).
    by left.
  - apply (verifyAudience_rule (H:=L) pkt_rs256 "other-client" (Str "verifier") eq_refl).
    left. exists "verifier". split; [reflexivity | discriminate].
  - destruct (verifyAudience_rule (H:=L) pkt_gq_list_aud
                "OPENPUBKEY-PKTOKEN:commitment-alice"
                (Slice [Str "OPENPUBKEY-PKTOKEN:commitment-alice"]) eq_refl)
      as (_ & Hlist & _).
    apply (Hlist ["OPENPUBKEY-PKTOKEN:commitment-alice"] eq_refl).
    apply elem_of_cons. by left.
  - apply (verifyAudience_rule (H:=L) pkt_gq_list_aud "verifier"
             (Slice [Str "OPENPUBKEY-PKTOKEN:commitment-alice"]) eq_refl).
    right. left. exists ["OPENPUBKEY-PKTOKEN:commitment-alice"].
    split; [reflexivity|].
    intros [Heq|Hin]%elem_of_cons; [discriminate|by apply elem_of_nil in Hin].
  - apply (verifyAudience_rule (H:=L) pkt_aud_mixed "verifier"
             (Slice [Str "verifier"; Float64 "42"]) eq_refl).
    right. by exists [], [Float64 "42"].
  - apply (verifyAudience_rule (H:=L) pkt_no_aud "verifier" Nil eq_refl).
    right. right. reflexivity.
Defined.

(** C6: under [GQCommitment], a token without a [cic] header whose aud is
    the list [["OPENPUBKEY-PKTOKEN:commitment-alice"]] does not produce an
    error: the type assertion on aud panics before the header is read. *)
Theorem verifyCommitment_missing_cic_panics :
  GQCommitment (options v_gq_commitment) = true ∧
  Op_ProtectedHeaders_Get pkt_gq_list_aud "cic" = None ∧
  verifyCommitment v_gq_commitment pkt_gq_list_aud
  = Panic (InterfaceConversion
             (Slice [Str "OPENPUBKEY-PKTOKEN:commitment-alice"]) "string") ∧
  ¬ is_Err (VerifyProvider v_gq_commitment pkt_gq_list_aud).
Proof.
  split; [reflexivity|]. split; [reflexivity|]. split; [reflexivity|].
  intros [e He]. vm_compute in He. discriminate.
Qed.

(** C9 as stated fails: the aud claim of [pkt_gq_list_aud_forged] is a list
    and the options of the verifier are consistent, yet its GQ signature
    does not verify and [VerifyProvider] returns that error; the type
    assertion is not reached. *)
Lemma aud_assertion_not_reached :
  ¬ aud_assertion_panics (H:=Scenario2.L3) Scenario2.v_gq_commitment_3
      pkt_gq_list_aud_forged.
Proof.
  intros Hclaim.
  destruct (Hclaim eq_refl
    (list_to_map (id_claims
       [("aud", Slice [Str "OPENPUBKEY-PKTOKEN:commitment-alice"])]))
    (Slice [Str "OPENPUBKEY-PKTOKEN:commitment-alice"])
    eq_refl eq_refl eq_refl) as [p Hp].
  vm_compute in Hp. discriminate.
Qed.

Lemma verifyCommitment_aud_type_assertion_witness :
  verifyCommitment v_gq_commitment pkt_gq_list_aud
  = Panic (InterfaceConversion
             (Slice [Str "OPENPUBKEY-PKTOKEN:commitment-alice"]) "string") ∧
  is_Panic (VerifyProvider v_gq_commitment pkt_gq_list_aud).
Proof.
  destruct (verifyCommitment_aud_type_assertion (H:=L) v_gq_commitment pkt_gq_list_aud
    (list_to_map (id_claims
       [("aud", Slice [Str "OPENPUBKEY-PKTOKEN:commitment-alice"])]))
    pkt_gq_list_aud "commitment-alice"
    (Slice [Str "OPENPUBKEY-PKTOKEN:commitment-alice"])) as (Hc & Hv & _);
    try reflexivity.
  by split.
Defined.
End verifier_scenarios.

(** ** The cosigner *)

Section cosigner.
Context `{Lib}.

(** The comparison with two minutes sees through the saturation of
    [Sub]. *)
Lemma Minutes_gt_2_Sub (t u : Z) :
  Minutes_gt_2 (Sub t u) = true ↔ 2 * Minute < t - u.
Proof.
  unfold Minutes_gt_2, Sub, minDuration, maxDuration, Minute, Second.
  rewrite Z.ltb_lt. change (2 ^ 63) with 9223372036854775808. lia.
Qed.

Lemma Minutes_gt_2_Sub_false (t u : Z) :
  Minutes_gt_2 (Sub t u) = false ↔ t - u ≤ 2 * Minute.
Proof.
  rewrite <- not_true_iff_false, Minutes_gt_2_Sub. lia.
Qed.

(** The MAC is always fed 16 bytes, so [CreateAuthID] does not fail. *)
Lemma CreateAuthID_Ok (c : AuthCosigner) (pkt : PKToken) (now : Z) :
  CreateAuthID c pkt now
  = (AuthCosigner.set_AuthIdIter c ((AuthCosigner.AuthIdIter c + 1) mod 2 ^ 64),
     Ok (authID_of c now)).
Proof. reflexivity. Qed.

(** [IssueSignature] and [RedeemAuthcode] read the state and leave it as
    it is. *)
Lemma IssueSignature_state (c : AuthCosigner) (pkt : PKToken) (authID : string)
    (now : nat → Z) :
  (IssueSignature c pkt authID now).1 = c.
Proof. unfold IssueSignature. by destruct (_ !! _). Qed.

Lemma RedeemAuthcode_state (c : AuthCosigner) (sig : bytes) (now : nat → Z) :
  (RedeemAuthcode c sig now).1 = c.
Proof.
  unfold RedeemAuthcode.
  destruct (jws_Parse sig) as [msg|]; [|done].
  destruct (AuthCosigner.AuthCodeMap c !! msg_Payload msg) as [authID|]; [|done].
  destruct (AuthCosigner.AuthStateMap c !! authID) as [authState|]; [|done].
  destruct (VerifySignedMessage _ _); [|done].
  apply IssueSignature_state.
Qed.

Lemma IssueSignature_Ok_inv (c c' : AuthCosigner) (pkt : PKToken) (authID : string)
    (now : nat → Z) (cos : bytes) :
  IssueSignature c pkt authID now = (c', Ok cos) →
  c' = c ∧
  ∃ authState, AuthCosigner.AuthStateMap c !! authID = Some authState ∧
    Cosign (AuthCosigner.Cosigner_ c) pkt (cosigner_claims c authID authState now)
    = Done cos.
Proof.
  unfold IssueSignature.
  destruct (AuthCosigner.AuthStateMap c !! authID) as [authState|]; [|done].
  intros [= <- Hcos%call_Ok_inv]. split; [done|]. by exists authState.
Qed.

Lemma RedeemAuthcode_Ok_inv (c c' : AuthCosigner) (sig cos : bytes) (now : nat → Z) :
  RedeemAuthcode c sig now = (c', Ok cos) →
  ∃ msg authID authState,
    jws_Parse sig = Done msg ∧
    AuthCosigner.AuthCodeMap c !! msg_Payload msg = Some authID ∧
    AuthCosigner.AuthStateMap c !! authID = Some authState ∧
    (∃ signed, VerifySignedMessage (AuthState.Pkt authState) sig = Done signed) ∧
    IssueSignature c (AuthState.Pkt authState) authID now = (c', Ok cos).
Proof.
  unfold RedeemAuthcode.
  destruct (jws_Parse sig) as [msg|]; [|done].
  destruct (AuthCosigner.AuthCodeMap c !! msg_Payload msg) as [authID|] eqn:Hcode; [|done].
  destruct (AuthCosigner.AuthStateMap c !! authID) as [authState|] eqn:Hstate; [|done].
  destruct (VerifySignedMessage _ _) as [signed|] eqn:Hsig; [|done].
  intros Hissue. exists msg, authID, authState. eauto 10.
Qed.

(** C3, amended: [RedeemAuthcode] does not remove the authcode.  After a
    successful call the state of the cosigner is what it was, the authcode
    still maps to its auth ID, and a second call presenting the same signed
    authcode is not refused as an invalid authcode: it reaches
    [IssueSignature] again and returns what [Cosign] returns for the claims
    of the new instant. *)
Theorem RedeemAuthcode_keeps_authcode (c c' : AuthCosigner) (sig cos : bytes)
    (now : nat → Z) :
  RedeemAuthcode c sig now = (c', Ok cos) →
  c' = c ∧
  ∃ msg authID authState,
    jws_Parse sig = Done msg ∧
    AuthCosigner.AuthCodeMap c' !! msg_Payload msg = Some authID ∧
    AuthCosigner.AuthStateMap c' !! authID = Some authState ∧
    ∀ now' : nat → Z,
      RedeemAuthcode c' sig now'
      = (c', call (Cosign (AuthCosigner.Cosigner_ c') (AuthState.Pkt authState)
                     (cosigner_claims c' authID authState now'))).
Proof.
  intros Hredeem.
  destruct (RedeemAuthcode_Ok_inv _ _ _ _ _ Hredeem)
    as (msg & authID & authState & Hparse & Hcode & Hstate & [signed Hsig] & Hissue).
  apply IssueSignature_Ok_inv in Hissue as [-> _].
  split; [done|]. exists msg, authID, authState.
  split; [done|]. split; [done|]. split; [done|].
  intros now'. unfold RedeemAuthcode, IssueSignature.
  by rewrite Hparse, Hcode, Hstate, Hsig.
Qed.

(** C10: [NewAuthcode] stores the authcode for whatever auth ID it is
    given; when no [AuthState] exists under that auth ID, redeeming the
    authcode reads a field through the nil pointer the map returns, and
    panics. *)
Theorem NewAuthcode_unknown_authID (c : AuthCosigner) (authID : string)
    (authCodeBytes sig : bytes) (msg : Message) (now : nat → Z) :
  AuthCosigner.AuthStateMap c !! authID = None →
  jws_Parse sig = Done msg →
  msg_Payload msg = EncodeToString authCodeBytes →
  ∃ c', NewAuthcode c authID (Done authCodeBytes) = (c', Ok (EncodeToString authCodeBytes)) ∧
    AuthCosigner.AuthCodeMap c' !! EncodeToString authCodeBytes = Some authID ∧
    RedeemAuthcode c' sig now = (c', Panic NilPointerDereference).
Proof.
  intros Hstate Hparse Hpayload. eexists. split; [reflexivity|].
  split; [apply lookup_insert_eq|].
  unfold RedeemAuthcode. rewrite Hparse, Hpayload. simpl.
  by rewrite lookup_insert_eq, Hstate.
Qed.

(** *** Auth IDs are fresh *)

Lemma EncodeToString_DecodeString (src : bytes) :
  DecodeString (EncodeToString src) = src.
Proof.
  induction src as [|v src IH]; simpl; [done|].
  rewrite IH. f_equal.
  by destruct v as [[] [] [] [] [] [] [] []].
Qed.

Lemma EncodeToString_inj (a b : bytes) :
  EncodeToString a = EncodeToString b → a = b.
Proof.
  intros Heq. by rewrite <- (EncodeToString_DecodeString a), Heq,
    EncodeToString_DecodeString.
Qed.

Lemma byte_at_value (v i : Z) :
  0 ≤ i → N_of_ascii (byte_at v i) = Z.to_N ((v / 2 ^ (8 * i)) mod 256).
Proof.
  intros Hi. unfold byte_at.
  rewrite Z.shiftr_div_pow2 by lia.
  change 255 with (Z.ones 8). rewrite Z.land_ones by lia.
  change (2 ^ 8) with 256.
  apply N_ascii_embedding.
  pose proof (Z.mod_pos_bound (v / 2 ^ (8 * i)) 256). lia.
Qed.

Lemma byte_at_inj (a b i : Z) :
  0 ≤ i → byte_at a i = byte_at b i →
  (a / 2 ^ (8 * i)) mod 256 = (b / 2 ^ (8 * i)) mod 256.
Proof.
  intros Hi Heq. apply (f_equal N_of_ascii) in Heq.
  rewrite !byte_at_value in Heq by done.
  apply Z2N.inj in Heq; [done | |].
  - pose proof (Z.mod_pos_bound (a / 2 ^ (8 * i)) 256). lia.
  - pose proof (Z.mod_pos_bound (b / 2 ^ (8 * i)) 256). lia.
Qed.

(** The little-endian encoding of a [uint64] determines it. *)
Lemma AppendUint64_inj (a b : Z) :
  0 ≤ a < 2 ^ 64 → 0 ≤ b < 2 ^ 64 →
  AppendUint64 "" a = AppendUint64 "" b → a = b.
Proof.
  intros Ha Hb Heq. unfold AppendUint64 in Heq. simpl in Heq.
  injection Heq as H0 H1 H2 H3 H4 H5 H6 H7.
  apply byte_at_inj in H0, H1, H2, H3, H4, H5, H6, H7; try lia.
  change (2 ^ 64) with 18446744073709551616 in *.
  change (2 ^ (8 * 0)) with 1 in *.
  change (2 ^ (8 * 1)) with 256 in *.
  change (2 ^ (8 * 2)) with 65536 in *.
  change (2 ^ (8 * 3)) with 16777216 in *.
  change (2 ^ (8 * 4)) with 4294967296 in *.
  change (2 ^ (8 * 5)) with 1099511627776 in *.
  change (2 ^ (8 * 6)) with 281474976710656 in *.
  change (2 ^ (8 * 7)) with 72057594037927936 in *.
  Z.div_mod_to_equations. lia.
Qed.

(** Under a MAC that is collision-free on messages of 16 bytes, auth IDs
    minted for different counter values differ. *)
Lemma mint_inj (key : bytes) (n n' unix unix' : Z) :
  collision_free key →
  0 ≤ n < 2 ^ 64 → 0 ≤ n' < 2 ^ 64 →
  mint key n unix = mint key n' unix' → n = n'.
Proof.
  intros Hfree Hn Hn' Heq. unfold mint in Heq.
  apply EncodeToString_inj, Hfree in Heq; [|reflexivity..].
  unfold uint64 in Heq.
  rewrite (Z.mod_small n), (Z.mod_small n') in Heq by done.
  apply AppendUint64_inj; [done..|].
  unfold AppendUint64 in *. simpl in *.
  injection Heq. intros. congruence.
Qed.

(** While the counter has not wrapped around and the MAC is collision-free
    on messages of 16 bytes, the auth ID [InitAuth] returns is not the key
    of any session, and the new state again stores every session under a
    minted auth ID. *)
Lemma InitAuth_fresh (c c' : AuthCosigner) (pkt : PKToken) (sig : bytes)
    (now : nat → Z) (authID : string) :
  minted c →
  AuthCosigner.AuthIdIter c + 1 < 2 ^ 64 →
  collision_free (AuthCosigner.HmacKey c) →
  InitAuth c pkt sig now = (c', Ok authID) →
  AuthCosigner.AuthStateMap c !! authID = None ∧ minted c'.
Proof.
  intros [Hiter Hminted] Hwrap Hfree. unfold InitAuth.
  destruct (VerifySignedMessage pkt sig) as [msg|]; [|done].
  destruct (Unmarshal_InitMFAAuth msg) as [[m|]|]; [|done|done].
  destruct (Minutes_gt_2 (Since _ _)); [done|].
  destruct (Minutes_gt_2 (Until _ _)); [done|].
  destruct (NewAuthState _ _ _) as [authState| |]; [|done|done].
  rewrite CreateAuthID_Ok. intros [= <- <-].
  unfold authID_of. rewrite Z.mod_small by lia.
  split.
  - destruct (AuthCosigner.AuthStateMap c !! _) as [st|] eqn:Hst; [|done].
    destruct (Hminted _ _ Hst) as (n & unix & Hn & Heq).
    apply mint_inj in Heq; [lia | done | lia | lia].
  - split; simpl; [lia|].
    intros authID st Hst. apply lookup_insert_Some in Hst as [[<- _]|[_ Hst]].
    + exists (AuthCosigner.AuthIdIter c + 1), (Unix (now 2%nat)). split; [lia|done].
    + destruct (Hminted _ _ Hst) as (n & unix & Hn & ->).
      exists n, unix. split; [lia|done].
Qed.

(** Every operation keeps the sessions under minted auth IDs, keeps the
    HMAC key and advances the counter by one at most. *)
Lemma step_minted (c c' : AuthCosigner) :
  step c c' →
  minted c →
  AuthCosigner.AuthIdIter c + 1 < 2 ^ 64 →
  collision_free (AuthCosigner.HmacKey c) →
  minted c' ∧
  AuthCosigner.HmacKey c' = AuthCosigner.HmacKey c ∧
  AuthCosigner.AuthIdIter c' ≤ AuthCosigner.AuthIdIter c + 1.
Proof.
  destruct 1 as [c pkt sig now|c authID rnd|c sig now|c pkt authID now];
    intros Hminted Hwrap Hfree.
  - destruct (InitAuth c pkt sig now) as [c' [authID| |]] eqn:Hinit.
    + destruct (InitAuth_fresh _ _ _ _ _ _ Hminted Hwrap Hfree Hinit) as [_ Hminted'].
      split; [done|]. revert Hinit. unfold InitAuth.
      destruct (VerifySignedMessage pkt sig) as [msg|]; [|done].
      destruct (Unmarshal_InitMFAAuth msg) as [[m|]|]; [|done|done].
      destruct (Minutes_gt_2 (Since _ _)); [done|].
      destruct (Minutes_gt_2 (Until _ _)); [done|].
      destruct (NewAuthState _ _ _) as [authState| |]; [|done|done].
      rewrite CreateAuthID_Ok. intros [= <- _]. simpl.
      split; [done|]. destruct Hminted as [Hiter _].
      assert (0 ≤ AuthCosigner.AuthIdIter c + 1 < 2 ^ 64) as Hsmall by lia.
      rewrite (Z.mod_small _ _ Hsmall). lia.
    + simpl. assert (c' = c) as ->; [|split; [done|split; [done|lia]]].
      revert Hinit. unfold InitAuth.
      destruct (VerifySignedMessage pkt sig) as [msg|]; [|congruence].
      destruct (Unmarshal_InitMFAAuth msg) as [[m|]|]; [|congruence..].
      destruct (Minutes_gt_2 (Since _ _)); [congruence|].
      destruct (Minutes_gt_2 (Until _ _)); [congruence|].
      destruct (NewAuthState _ _ _) as [authState| |]; [|congruence..].
      by rewrite CreateAuthID_Ok.
    + simpl. assert (c' = c) as ->; [|split; [done|split; [done|lia]]].
      revert Hinit. unfold InitAuth.
      destruct (VerifySignedMessage pkt sig) as [msg|]; [|congruence].
      destruct (Unmarshal_InitMFAAuth msg) as [[m|]|]; [|congruence..].
      destruct (Minutes_gt_2 (Since _ _)); [congruence|].
      destruct (Minutes_gt_2 (Until _ _)); [congruence|].
      destruct (NewAuthState _ _ _) as [authState| |]; [|congruence..].
      by rewrite CreateAuthID_Ok.
  - unfold NewAuthcode. destruct rnd as [b|]; simpl; (split; [done|split; [done|lia]]).
  - rewrite RedeemAuthcode_state. split; [done|split; [done|lia]].
  - rewrite IssueSignature_state. split; [done|split; [done|lia]].
Qed.

(** So does every sequence of operations that is too short for the counter
    to wrap around. *)
Lemma nsteps_minted (n : nat) (c c' : AuthCosigner) :
  nsteps step n c c' →
  minted c →
  AuthCosigner.AuthIdIter c + Z.of_nat n < 2 ^ 64 →
  collision_free (AuthCosigner.HmacKey c) →
  minted c' ∧
  AuthCosigner.HmacKey c' = AuthCosigner.HmacKey c ∧
  AuthCosigner.AuthIdIter c' ≤ AuthCosigner.AuthIdIter c + Z.of_nat n.
Proof.
  induction 1 as [c|n c c1 c' Hstep Hrest IH]; intros Hminted Hwrap Hfree.
  - split; [done|split; [done|lia]].
  - destruct (step_minted c c1 Hstep Hminted) as (Hminted1 & Hkey1 & Hiter1);
      [lia|done|].
    destruct IH as (Hminted' & Hkey' & Hiter'); [done|lia|by rewrite Hkey1|].
    split; [done|]. split; [congruence|lia].
Qed.

(** The instant [time.Unix] makes of an [int64]: that many seconds after
    the epoch as long as the sum with [unixToInternal] does not wrap around,
    and 2^64 seconds earlier when it does. *)
Lemma time_Unix_exact (sec : Z) :
  - 2 ^ 63 ≤ sec < 2 ^ 63 - unixToInternal → time_Unix sec = sec * Second.
Proof.
  unfold time_Unix, int64, unixToInternal.
  change (2 ^ 63) with 9223372036854775808. change (2 ^ 64) with 18446744073709551616.
  intros Hsec. rewrite Z.mod_small by lia. f_equal. lia.
Qed.

Lemma time_Unix_wrapped (sec : Z) :
  2 ^ 63 - unixToInternal ≤ sec < 2 ^ 63 → time_Unix sec = (sec - 2 ^ 64) * Second.
Proof.
  unfold time_Unix, int64, unixToInternal.
  change (2 ^ 63) with 9223372036854775808. change (2 ^ 64) with 18446744073709551616.
  intros Hsec. f_equal.
  rewrite <- (Z.mod_unique (sec + 62135596800 + 9223372036854775808) 18446744073709551616 1
                (sec + 62135596800 + 9223372036854775808 - 18446744073709551616)); lia.
Qed.

(** Inside the time window [InitAuth] does what [NewAuthState] allows. *)
Lemma InitAuth_in_window (c : AuthCosigner) (pkt : PKToken) (sig msg : bytes)
    (m : InitMFAAuth) (now : nat → Z) :
  VerifySignedMessage pkt sig = Done msg →
  Unmarshal_InitMFAAuth msg = Done (Some m) →
  now 0%nat - time_Unix (InitMFAAuth.TimeSigned m) ≤ 2 * Minute →
  time_Unix (InitMFAAuth.TimeSigned m) - now 1%nat ≤ 2 * Minute →
  InitAuth c pkt sig now =
    match NewAuthState pkt (InitMFAAuth.RedirectUri m) (InitMFAAuth.Nonce m) with
    | Ok authState =>
        (InitAuth_state c authState (now 2%nat), Ok (authID_of c (now 2%nat)))
    | Err err => (c, Err err)
    | Panic p => (c, Panic p)
    end.
Proof.
  intros Hsig Hmsg Hold%Minutes_gt_2_Sub_false Hnew%Minutes_gt_2_Sub_false.
  unfold InitAuth, Since, Until. rewrite Hsig, Hmsg, Hold, Hnew.
  destruct (NewAuthState _ _ _); [|done|done].
  by rewrite CreateAuthID_Ok.
Qed.

(** C7, amended: given a valid signature over a well-formed message,
    [InitAuth] compares the clock with the instant [time.Unix] makes of
    [time_signed]: [time_signed] seconds after the epoch, and 2^64 seconds
    earlier for a [time_signed] above [2^63 - 1 - unixToInternal], which
    every clock reading after the epoch finds too old.  It returns an error
    when the clock is more than two minutes past that instant and when it
    is more than two minutes before it; otherwise it returns the error or
    the panic of [NewAuthState] when the payload of the PK Token does not
    yield a state, and else stores the new state under the auth ID minted
    from the incremented counter and returns that auth ID.  No session was
    stored under that auth ID before as long as the counter has not wrapped
    around and the MAC is collision-free on messages of 16 bytes: in every
    state whose sessions are stored under minted auth IDs, and so in every
    state that fewer than 2^64 - 1 operations lead to from a cosigner that
    [NewAuthCosigner] made. *)
Theorem InitAuth_time_window (c : AuthCosigner) (pkt : PKToken) (sig msg : bytes)
    (m : InitMFAAuth) (now : nat → Z) :
  VerifySignedMessage pkt sig = Done msg →
  Unmarshal_InitMFAAuth msg = Done (Some m) →
  (- 2 ^ 63 ≤ InitMFAAuth.TimeSigned m < 2 ^ 63 - unixToInternal →
   time_Unix (InitMFAAuth.TimeSigned m) = InitMFAAuth.TimeSigned m * Second) ∧
  (2 ^ 63 - unixToInternal ≤ InitMFAAuth.TimeSigned m < 2 ^ 63 →
   0 ≤ now 0%nat →
   InitAuth c pkt sig now = (c, Err (TimestampTooOld (InitMFAAuth.TimeSigned m)))) ∧
  (2 * Minute < now 0%nat - time_Unix (InitMFAAuth.TimeSigned m) →
   InitAuth c pkt sig now = (c, Err (TimestampTooOld (InitMFAAuth.TimeSigned m)))) ∧
  (now 0%nat - time_Unix (InitMFAAuth.TimeSigned m) ≤ 2 * Minute →
   2 * Minute < time_Unix (InitMFAAuth.TimeSigned m) - now 1%nat →
   InitAuth c pkt sig now
   = (c, Err (TimestampTooFarInTheFuture (InitMFAAuth.TimeSigned m)))) ∧
  (now 0%nat - time_Unix (InitMFAAuth.TimeSigned m) ≤ 2 * Minute →
   time_Unix (InitMFAAuth.TimeSigned m) - now 1%nat ≤ 2 * Minute →
   InitAuth c pkt sig now =
     match NewAuthState pkt (InitMFAAuth.RedirectUri m) (InitMFAAuth.Nonce m) with
     | Ok authState =>
         (InitAuth_state c authState (now 2%nat), Ok (authID_of c (now 2%nat)))
     | Err err => (c, Err err)
     | Panic p => (c, Panic p)
     end) ∧
  (now 0%nat - time_Unix (InitMFAAuth.TimeSigned m) ≤ 2 * Minute →
   time_Unix (InitMFAAuth.TimeSigned m) - now 1%nat ≤ 2 * Minute →
   is_Ok (NewAuthState pkt (InitMFAAuth.RedirectUri m) (InitMFAAuth.Nonce m)) →
   minted c →
   AuthCosigner.AuthIdIter c + 1 < 2 ^ 64 →
   collision_free (AuthCosigner.HmacKey c) →
   AuthCosigner.AuthStateMap c !! authID_of c (now 2%nat) = None) ∧
  (now 0%nat - time_Unix (InitMFAAuth.TimeSigned m) ≤ 2 * Minute →
   time_Unix (InitMFAAuth.TimeSigned m) - now 1%nat ≤ 2 * Minute →
   is_Ok (NewAuthState pkt (InitMFAAuth.RedirectUri m) (InitMFAAuth.Nonce m)) →
   ∀ cosigner issuer keyID hmacKey c_new (n : nat),
     NewAuthCosigner cosigner issuer keyID (Done hmacKey) = Ok c_new →
     nsteps step n c_new c →
     Z.of_nat n + 1 < 2 ^ 64 →
     collision_free hmacKey →
     AuthCosigner.AuthStateMap c !! authID_of c (now 2%nat) = None).
Proof.
  intros Hsig Hmsg.
  assert (Hpast : 2 * Minute < now 0%nat - time_Unix (InitMFAAuth.TimeSigned m) →
    InitAuth c pkt sig now = (c, Err (TimestampTooOld (InitMFAAuth.TimeSigned m)))).
  { intros Hold%Minutes_gt_2_Sub. unfold InitAuth, Since.
    by rewrite Hsig, Hmsg, Hold. }
  pose proof (InitAuth_in_window c pkt sig msg m now Hsig Hmsg) as Hin.
  assert (Hfresh : now 0%nat - time_Unix (InitMFAAuth.TimeSigned m) ≤ 2 * Minute →
    time_Unix (InitMFAAuth.TimeSigned m) - now 1%nat ≤ 2 * Minute →
    is_Ok (NewAuthState pkt (InitMFAAuth.RedirectUri m) (InitMFAAuth.Nonce m)) →
    minted c →
    AuthCosigner.AuthIdIter c + 1 < 2 ^ 64 →
    collision_free (AuthCosigner.HmacKey c) →
    AuthCosigner.AuthStateMap c !! authID_of c (now 2%nat) = None).
  { intros Hold Hnew [authState Hstate] Hminted Hwrap Hfree.
    specialize (Hin Hold Hnew). rewrite Hstate in Hin.
    by destruct (InitAuth_fresh _ _ _ _ _ _ Hminted Hwrap Hfree Hin). }
  split; [apply time_Unix_exact|].
  split; [|split; [exact Hpast|split; [|split; [exact Hin|split; [exact Hfresh|]]]]].
  - intros Hwrap Hnow. apply Hpast. rewrite (time_Unix_wrapped _ Hwrap).
    unfold Minute, Second.
    change (2 ^ 63) with 9223372036854775808 in Hwrap.
    change (2 ^ 64) with 18446744073709551616. lia.
  - intros Hold%Minutes_gt_2_Sub_false Hnew%Minutes_gt_2_Sub.
    unfold InitAuth, Since, Until. by rewrite Hsig, Hmsg, Hold, Hnew.
  - intros Hold Hnew Hstate cosigner issuer keyID hmacKey c_new n Hmade Hsteps Hn Hfree.
    injection Hmade as <-.
    destruct (nsteps_minted n _ c Hsteps) as (Hminted & Hkey & Hiter).
    + split; simpl; [lia|]. intros authID authState Hl. simpl in Hl.
      by rewrite lookup_empty in Hl.
    + simpl. lia.
    + done.
    + apply Hfresh; [done..| |by rewrite Hkey]. simpl in Hiter. lia.
Qed.

(** *** [SigIssued] is never set *)

Lemma NewAuthState_SigIssued (pkt : PKToken) (ruri nonce : string) (authState : AuthState) :
  NewAuthState pkt ruri nonce = Ok authState → AuthState.SigIssued authState = false.
Proof.
  unfold NewAuthState.
  intros (claims & _ & Hk)%bind_Ok_inv.
  apply bind_Ok_inv in Hk as (audience & _ & Hk).
  by injection Hk as <-.
Qed.

Lemma InitAuth_none_issued (c : AuthCosigner) (pkt : PKToken) (sig : bytes)
    (now : nat → Z) :
  none_issued c → none_issued (InitAuth c pkt sig now).1.
Proof.
  intros Hc. unfold InitAuth.
  destruct (VerifySignedMessage pkt sig) as [msg|]; [|done].
  destruct (Unmarshal_InitMFAAuth msg) as [[m|]|]; [|done|done].
  destruct (Minutes_gt_2 (Since _ _)); [done|].
  destruct (Minutes_gt_2 (Until _ _)); [done|].
  destruct (NewAuthState _ _ _) as [authState| |] eqn:Hnew; [|done|done].
  rewrite CreateAuthID_Ok. simpl.
  intros authID st Hst. simpl in Hst.
  apply lookup_insert_Some in Hst as [[_ <-]|[_ Hst]].
  - by eapply NewAuthState_SigIssued.
  - by eapply Hc.
Qed.

Lemma step_none_issued (c c' : AuthCosigner) :
  step c c' → none_issued c → none_issued c'.
Proof.
  destruct 1 as [c pkt sig now|c authID rnd|c sig now|c pkt authID now]; intros Hc.
  - by apply InitAuth_none_issued.
  - unfold NewAuthcode. by destruct rnd.
  - by rewrite RedeemAuthcode_state.
  - by rewrite IssueSignature_state.
Qed.

(** From a cosigner without sessions, no sequence of operations leads to
    a state in which some [SigIssued] is true. *)
Lemma reachable_none_issued (c c' : AuthCosigner) :
  AuthCosigner.AuthStateMap c = ∅ → rtc step c c' → none_issued c'.
Proof.
  intros Hempty Hsteps.
  assert (Hc : none_issued c) by (intros authID st; by rewrite Hempty).
  clear Hempty.
  induction Hsteps as [|c1 c2 c3 Hstep _ IH]; [done|].
  apply IH. by eapply step_none_issued.
Qed.
End cosigner.

(** ** The cosigner on concrete sessions *)

Section cosigner_scenarios.
Import Mock Scenario.

(** The MAC of [Mock.lib] has no collisions, and the cosigner [c0] has no
    sessions. *)
Lemma mock_collision_free (key : bytes) : collision_free (H:=L) key.
Proof.
  intros m m' _ _. simpl. induction key as [|k key IH]; simpl; [done|].
  intros [= Heq]. by apply IH.
Qed.

Lemma minted_c0 : minted (H:=L) c0.
Proof. split; [done|]. intros authID authState Hl. simpl in Hl. by rewrite lookup_empty in Hl. Qed.

(** C3 as stated fails: in the session of [c2] the signed authcode is
    redeemed, and it is still in the map afterwards. *)
Lemma authcode_redeemed_twice :
  ¬ authcode_single_use c2 "sig-authcode" (clock 1700000090) (clock 1700000100).
Proof.
  intros Hclaim.
  assert (Hfirst : RedeemAuthcode c2 "sig-authcode" (clock 1700000090) = (c2, Ok cos1))
    by (vm_compute; reflexivity).
  destruct (Hclaim c2 cos1 Hfirst) as [Hgone _].
  specialize (Hgone (EncodeToString authcode_bytes) eq_refl).
  vm_compute in Hgone. discriminate.
Qed.

Lemma RedeemAuthcode_keeps_authcode_witness :
  RedeemAuthcode c2 "sig-authcode" (clock 1700000090) = (c2, Ok cos1) ∧
  RedeemAuthcode c2 "sig-authcode" (clock 1700000100) = (c2, Ok cos1) ∧
  AuthCosigner.AuthCodeMap c2 !! EncodeToString authcode_bytes = Some authID1.
Proof.
  assert (Hfirst : RedeemAuthcode c2 "sig-authcode" (clock 1700000090) = (c2, Ok cos1))
    by (vm_compute; reflexivity).
  split; [exact Hfirst|].
  destruct (RedeemAuthcode_keeps_authcode (H:=L) c2 c2 "sig-authcode" cos1
              (clock 1700000090) Hfirst)
    as (_ & msg & authID & authState & Hparse & Hcode & Hstate & Hagain).
  injection Hparse as <-.
  assert (authID = authID1) as ->.
  { vm_compute in Hcode. injection Hcode as <-. vm_compute. reflexivity. }
  split; [|exact Hcode].
  rewrite (Hagain (clock 1700000100)). reflexivity.
Defined.

(** C7 as stated fails: one minute after [time_signed], with a valid
    signature over a well-formed message, [InitAuth] returns an error for a
    PK Token whose payload has no aud claim. *)
Lemma InitAuth_fails_in_window :
  ¬ InitAuth_succeeds_in_window c0 pkt_no_aud "sig-init-mfa-auth" (clock 1700000060).
Proof.
  intros Hclaim.
  destruct (Hclaim "init-mfa-auth" init_msg eq_refl eq_refl) as [authID Hok].
  - vm_compute. discriminate.
  - vm_compute. discriminate.
  - vm_compute in Hok. discriminate.
Qed.

Lemma InitAuth_time_window_witness :
  VerifySignedMessage pkt_rs256 "sig-init-mfa-auth" = Done "init-mfa-auth" ∧
  Unmarshal_InitMFAAuth "init-mfa-auth" = Done (Some init_msg) ∧
  time_Unix 1700000000 = 1700000000 * Second ∧
  InitAuth c0 pkt_rs256 "sig-init-mfa-auth" (clock 1700000121)
  = (c0, Err (TimestampTooOld 1700000000)) ∧
  InitAuth c0 pkt_rs256 "sig-init-mfa-auth" (clock 1699999879)
  = (c0, Err (TimestampTooFarInTheFuture 1700000000)) ∧
  InitAuth c0 pkt_rs256 "sig-init-mfa-auth" (clock 1700000060) = (c1, Ok authID1) ∧
  AuthCosigner.AuthStateMap c1 !! authID_of c1 (clock 1700000060 2%nat) = None ∧
  InitAuth (H:=Scenario2.L3) c0 pkt_rs256 "sig-init-mfa-auth-max" (clock 1700000060)
  = (c0, Err (TimestampTooOld 9223372036854775807)).
Proof.
  split; [reflexivity|]. split; [reflexivity|].
  assert (H01 : InitAuth c0 pkt_rs256 "sig-init-mfa-auth" (clock 1700000060)
                = (c1, Ok authID1)).
  { destruct (InitAuth_time_window (H:=L) c0 pkt_rs256 "sig-init-mfa-auth" "init-mfa-auth"
             init_msg (clock 1700000060) eq_refl eq_refl) as (_ & _ & _ & _ & Hin & _).
    rewrite Hin.
    - vm_compute. reflexivity.
    - vm_compute. discriminate.
    - vm_compute. discriminate. }
  split; [|split; [|split; [|split; [exact H01|split]]]].
  - apply (InitAuth_time_window (H:=L) c0 pkt_rs256 "sig-init-mfa-auth" "init-mfa-auth"
             init_msg (clock 1700000060) eq_refl eq_refl).
    vm_compute. split; [discriminate|reflexivity].
  - apply (InitAuth_time_window (H:=L) c0 pkt_rs256 "sig-init-mfa-auth" "init-mfa-auth"
             init_msg (clock 1700000121) eq_refl eq_refl).
    vm_compute. reflexivity.
  - apply (InitAuth_time_window (H:=L) c0 pkt_rs256 "sig-init-mfa-auth" "init-mfa-auth"
             init_msg (clock 1699999879) eq_refl eq_refl).
    + vm_compute. discriminate.
    + vm_compute. reflexivity.
  - destruct (InitAuth_time_window (H:=L) c1 pkt_rs256 "sig-init-mfa-auth" "init-mfa-auth"
             init_msg (clock 1700000060) eq_refl eq_refl) as (_ & _ & _ & _ & _ & _ & Hfresh).
    apply (Hfresh ltac:(vm_compute; discriminate) ltac:(vm_compute; discriminate)
             ltac:(eexists; vm_compute; reflexivity)
             "cosigner-signing-key" "https://mfa.example.com" "cosigner-key-1" "hmac-key"
             c0 1%nat eq_refl).
    + apply nsteps_once.
      change c1 with (InitAuth c0 pkt_rs256 "sig-init-mfa-auth" (clock 1700000060)).1.
      apply (step_InitAuth (H:=L) c0 pkt_rs256 "sig-init-mfa-auth" (clock 1700000060)).
    + reflexivity.
    + apply mock_collision_free.
  - destruct (InitAuth_time_window (H:=Scenario2.L3) c0 pkt_rs256 "sig-init-mfa-auth-max"
             "init-mfa-auth-max" Scenario2.init_msg_max (clock 1700000060)
             eq_refl eq_refl) as (_ & Hwrap & _).
    apply Hwrap.
    + vm_compute. split; [discriminate|reflexivity].
    + vm_compute. discriminate.
Defined.

(** C8: [IssueSignature] succeeds for the session [authID1] of [c1] and
    returns the cosignature, and the [AuthState] stored under [authID1]
    still has [SigIssued] false: no operation of the cosigner writes the
    field. *)
Theorem IssueSignature_SigIssued_not_set :
  IssueSignature c1 pkt_rs256 authID1 (clock 1700000090) = (c1, Ok cos1) ∧
  AuthState.SigIssued <$> (AuthCosigner.AuthStateMap c1 !! authID1) = Some false ∧
  AuthState.SigIssued
    <$> (AuthCosigner.AuthStateMap
           (IssueSignature c1 pkt_rs256 authID1 (clock 1700000090)).1 !! authID1)
  = Some false.
Proof. repeat split; vm_compute; reflexivity. Qed.

Lemma NewAuthcode_unknown_authID_witness :
  AuthCosigner.AuthStateMap c0 !! "never-created" = None ∧
  ∃ c', NewAuthcode c0 "never-created" (Done authcode_bytes)
        = (c', Ok (EncodeToString authcode_bytes)) ∧
    AuthCosigner.AuthCodeMap c' !! EncodeToString authcode_bytes = Some "never-created" ∧
    RedeemAuthcode c' "sig-authcode" (clock 1700000090) = (c', Panic NilPointerDereference).
Proof.
  split; [reflexivity|].
  apply (NewAuthcode_unknown_authID (H:=L) c0 "never-created" authcode_bytes
           "sig-authcode" (EncodeToString authcode_bytes) (clock 1700000090));
    reflexivity.
Defined.
End cosigner_scenarios.

(** * Further properties of the verifier *)

Section verifier_more.
Context `{Lib}.

(** X1: when [VerifyProvider] returns nil, the options are consistent, the
    audience matched or its check was skipped, the token declares an
    algorithm that [GQOnly] allows, a GQ256 token passed [verifyGQSig], an
    RS256 token verified under the key the finder returned for the
    verifier's issuer, the commitment matched and the client signature
    verified. *)
Theorem VerifyProvider_Ok_inv (v : DefaultProviderVerifier) (pkt : PKToken) :
  VerifyProvider v pkt = Ok () →
  VerifyProvider_sanity v = Ok () ∧
  (verifyAudience pkt (ClientID (options v)) = Ok () ∨
   SkipClientIDCheck (options v) = true) ∧
  ∃ alg, ProviderAlgorithm pkt = Some alg ∧
    (GQOnly (options v) = true → alg = GQ256) ∧
    (alg = GQ256 → verifyGQSig v pkt = Ok ()) ∧
    (alg = RS256 →
       ∃ find record payload,
         DiscoverPublicKey (options v) = Some find ∧
         find (issuer v) (OpToken pkt) = Done record ∧
         jws_Verify (OpToken pkt) RS256 (RawKey (PublicKeyRecord.PublicKey record))
         = Done payload) ∧
    verifyCommitment v pkt = Ok () ∧
    verifyCicSignature pkt = Ok ().
Proof.
  unfold VerifyProvider.
  intros ([] & Hsanity & Hk)%bind_Ok_inv.
  apply bind_Ok_inv in Hk as ([] & Haud & Hk).
  apply bind_Ok_inv in Hk as (alg & Halg & Hk).
  apply bind_Ok_inv in Hk as ([] & Honly & Hk).
  apply bind_Ok_inv in Hk as ([] & Hswitch & Hk).
  apply bind_Ok_inv in Hk as ([] & Hcommit & Hk).
  apply bind_Ok_inv in Hk as ([] & Hcic & _).
  split; [done|]. split.
  - unfold VerifyProvider_audience in Haud.
    destruct (verifyAudience pkt (ClientID (options v))) as [[]|e|p]; [by left| |done].
    destruct (SkipClientIDCheck (options v)); [by right|done].
  - exists alg. destruct (ProviderAlgorithm pkt) as [alg'|]; [|done].
    injection Halg as ->. split; [done|].
    split; [|split; [|split; [|split]]].
    + intros Hgq. rewrite Hgq in Honly.
      destruct (String.eqb alg GQ256) eqn:Heq; [|done].
      by apply String_eqb_true.
    + intros ->. unfold VerifyProvider_switch in Hswitch. simpl in Hswitch.
      by destruct (verifyGQSig v pkt) as [[]| |].
    + intros ->. unfold VerifyProvider_switch in Hswitch. simpl in Hswitch.
      unfold providerPublicKey, ByToken, Issuer_of in Hswitch.
      destruct (DiscoverPublicKey (options v)) as [find|]; [|done].
      simpl in Hswitch.
      destruct (find (issuer v) (OpToken pkt)) as [record|] eqn:Hfind; [|done].
      simpl in Hswitch.
      destruct (jws_Verify _ _ _) as [payload|] eqn:Hverify; [|done].
      by exists find, record, payload.
    + done.
    + by destruct (verifyCicSignature pkt) as [[]| |].
Qed.

(** X2: with [GQOnly], a token that declares any algorithm other than
    GQ256 is never accepted; once the option check and the audience check
    have passed it is refused with [ErrNonGQUnsupported], before any key is
    looked up. *)
Theorem VerifyProvider_GQOnly_refuses (v : DefaultProviderVerifier) (pkt : PKToken)
    (alg : string) :
  GQOnly (options v) = true →
  ProviderAlgorithm pkt = Some alg →
  alg ≠ GQ256 →
  VerifyProvider v pkt ≠ Ok () ∧
  (VerifyProvider_sanity v = Ok () → VerifyProvider_audience v pkt = Ok () →
   VerifyProvider v pkt = Err ErrNonGQUnsupported).
Proof.
  intros Hgq Halg Hne%String_eqb_false. unfold VerifyProvider. split.
  - destruct (VerifyProvider_sanity v) as [[]| |]; simpl; [|done|done].
    destruct (VerifyProvider_audience v pkt) as [[]| |]; simpl; [|done|done].
    by rewrite Halg; simpl; rewrite Hne, Hgq.
  - intros -> ->. simpl. by rewrite Halg; simpl; rewrite Hne, Hgq.
Qed.

(** X3: options that ask for the GQ commitment without [GQOnly], with a
    commitment claim, or without [SkipClientIDCheck] are refused before the
    token is examined: every token gets the same configuration error. *)
Theorem VerifyProvider_misconfigured (v : DefaultProviderVerifier) :
  GQCommitment (options v) = true →
  GQOnly (options v) = false ∨ commitmentClaim v ≠ "" ∨
    SkipClientIDCheck (options v) = false →
  ∃ e, VerifyProvider_sanity v = Err e ∧ ∀ pkt : PKToken, VerifyProvider v pkt = Err e.
Proof.
  intros Hgq Hbad.
  assert (∃ e, VerifyProvider_sanity v = Err e) as [e He].
  { unfold VerifyProvider_sanity. rewrite Hgq.
    destruct (GQOnly (options v)); simpl; [|by eexists].
    destruct (String.eqb (commitmentClaim v) "") eqn:Hc; simpl; [|by eexists].
    apply String_eqb_true in Hc.
    destruct (SkipClientIDCheck (options v)); simpl; [|by eexists].
    by destruct Hbad as [|[|]]. }
  exists e. split; [done|]. intros pkt. unfold VerifyProvider. by rewrite He.
Qed.

(** X4: [verifyGQSig] accepts a token only if it declares GQ256, its
    original headers (the [jwt] header, decoded) declare RS256, its issuer is
    the verifier's, the finder returns an RSA key for that issuer, and the GQ
    signature verifies under that key. *)
Theorem verifyGQSig_Ok_inv (v : DefaultProviderVerifier) (pkt : PKToken) :
  verifyGQSig v pkt = Ok () →
  ProviderAlgorithm pkt = Some GQ256 ∧
  (∃ origHeadersB64 origHeaders headers,
     OriginalJWTHeaders (OpToken pkt) = Done origHeadersB64 ∧
     Base64DecodeForJWT origHeadersB64 = Done origHeaders ∧
     Unmarshal_Headers origHeaders = Done headers ∧
     Algorithm headers = RS256) ∧
  pkt_Issuer pkt = Done (issuer v) ∧
  ∃ find record rsaKey,
    DiscoverPublicKey (options v) = Some find ∧
    find (issuer v) (OpToken pkt) = Done record ∧
    PublicKeyRecord.PublicKey record = RSAKey rsaKey ∧
    GQ256VerifyJWT rsaKey (OpToken pkt) = Done true.
Proof.
  unfold verifyGQSig.
  destruct (ProviderAlgorithm pkt) as [alg|]; [|done].
  destruct (String.eqb alg GQ256) eqn:Halg; simpl; [|done].
  apply String_eqb_true in Halg as ->.
  intros (headers & Hheaders & Hk)%bind_Ok_inv.
  destruct (String.eqb (Algorithm headers) RS256) eqn:Hrs; simpl in Hk; [|done].
  apply String_eqb_true in Hrs.
  apply bind_Ok_inv in Hk as (pktIssuer & Hiss%call_wrap_Ok_inv & Hk).
  destruct (String.eqb pktIssuer (issuer v)) eqn:Heq; simpl in Hk; [|done].
  apply String_eqb_true in Heq as ->.
  apply bind_Ok_inv in Hk as (found & Hfound & Hk).
  apply bind_Ok_inv in Hk as (record & Hrecord%call_wrap_Ok_inv & Hk).
  unfold ByToken, Issuer_of in Hfound.
  destruct (DiscoverPublicKey (options v)) as [find|]; [|done].
  injection Hfound as <-.
  destruct (PublicKeyRecord.PublicKey record) as [rsaKey|] eqn:Hkey; [|done].
  apply bind_Ok_inv in Hk as (ok & Hok%call_Ok_inv & Hk).
  destruct ok; [|done].
  split; [done|]. split; [|split; [done|by exists find, record, rsaKey]].
  unfold originalTokenHeaders in Hheaders.
  destruct (OriginalJWTHeaders (OpToken pkt)) as [h64|]; [|done]. simpl in Hheaders.
  destruct (Base64DecodeForJWT h64) as [h|] eqn:Hdec; [|done]. simpl in Hheaders.
  destruct (Unmarshal_Headers h) as [hs|] eqn:Hun; [|done].
  injection Hheaders as ->. by exists h64, h, headers.
Qed.

(** X5: without [GQCommitment], [verifyCommitment] never panics; once the
    payload and the CIC are read it succeeds exactly when the commitment
    claim is the string that equals the hash of the CIC, a missing claim is
    an error, and a claim of another value or type is a mismatch. *)
Theorem verifyCommitment_claim (v : DefaultProviderVerifier) (pkt : PKToken)
    (claims : gmap string any) (cic : Claims) (expected : bytes) :
  GQCommitment (options v) = false →
  Unmarshal_claims (Payload pkt) = Done claims →
  GetCicValues pkt = Done cic →
  Hash cic = Done expected →
  (verifyCommitment v pkt = Ok () ↔ claims !! commitmentClaim v = Some (Str expected)) ∧
  (claims !! commitmentClaim v = None →
   verifyCommitment v pkt = Err (MissingCommitmentClaim (commitmentClaim v))) ∧
  (∀ x, claims !! commitmentClaim v = Some x → x ≠ Str expected →
   verifyCommitment v pkt = Err (CommitmentDoesNotMatch x expected)) ∧
  (∀ pkt' : PKToken, ¬ is_Panic (verifyCommitment v pkt')).
Proof.
  intros Hgq Hclaims Hcic Hhash.
  assert (Hrun : verifyCommitment v pkt =
            match claims !! commitmentClaim v with
            | None => Err (MissingCommitmentClaim (commitmentClaim v))
            | Some x => if any_eq_string x expected then Ok ()
                        else Err (CommitmentDoesNotMatch x expected)
            end).
  { unfold verifyCommitment. rewrite Hgq, Hclaims. simpl.
    rewrite Hcic. simpl. rewrite Hhash. simpl.
    destruct (claims !! commitmentClaim v) as [x|]; simpl; [|done].
    by destruct (any_eq_string x expected). }
  split; [|split; [|split]].
  - rewrite Hrun. destruct (claims !! commitmentClaim v) as [x|]; [|done].
    destruct (any_eq_string x expected) eqn:Heq.
    + apply any_eq_string_true in Heq as ->. done.
    + split; [done|]. intros [= ->].
      by rewrite (proj2 (any_eq_string_true _ _) eq_refl) in Heq.
  - intros Hnone. by rewrite Hrun, Hnone.
  - intros x Hx Hne. rewrite Hrun, Hx.
    destruct (any_eq_string x expected) eqn:Heq; [|done].
    by apply any_eq_string_true in Heq.
  - intros pkt' Hpanic%verifyCommitment_Panic_inv. destruct Hpanic as [Hp _]. congruence.
Qed.

(** X6: [verifyAudience] panics exactly when the aud claim is a list with an
    element that is not a string and that no occurrence of the client ID, as
    a string, precedes. *)
Theorem verifyAudience_Panic_iff (pkt : PKToken) (clientID : string) :
  is_Panic (verifyAudience pkt clientID) ↔
  ∃ (before : list string) (x : any) (after : list any),
    Unmarshal_Audience (Payload pkt) = Done (Slice ((Str <$> before) ++ x :: after)%list) ∧
    is_string x = false ∧ clientID ∉ before.
Proof.
  assert (Hlist : ∀ whole rest,
    is_Panic (verifyAudience_list clientID whole rest) ↔
    ∃ (before : list string) (x : any) (after : list any),
      rest = ((Str <$> before) ++ x :: after)%list ∧
      is_string x = false ∧ clientID ∉ before).
  { intros whole rest. induction rest as [|y rest IH]; simpl.
    - split; [by intros [p Hp]|]. intros (before & x & after & Heq & _).
      by destruct before.
    - destruct y as [| | |s| |];
        try (split; [intros _; eexists [], _, rest; split; [done|]; split; [done|];
                       apply not_elem_of_nil
                    | intros _; by eexists]).
      destruct (String.eqb s clientID) eqn:Hs.
      + apply String_eqb_true in Hs as ->.
        split; [by intros [p Hp]|].
        intros (before & x & after & Heq & Hx & Hnotin).
        destruct before as [|b before]; simpl in Heq.
        * injection Heq as <- _. done.
        * injection Heq as <- _. destruct Hnotin. apply elem_of_cons. by left.
      + apply String_eqb_false in Hs. rewrite IH. split.
        * intros (before & x & after & -> & Hx & Hnotin).
          exists (s :: before), x, after. split; [done|]. split; [done|].
          apply not_elem_of_cons. split; [congruence|done].
        * intros (before & x & after & Heq & Hx & Hnotin).
          destruct before as [|b before]; simpl in Heq.
          -- injection Heq as <- _. done.
          -- injection Heq as <- ->. apply not_elem_of_cons in Hnotin as [_ Hnotin].
             by exists before, x, after. }
  unfold verifyAudience.
  destruct (Unmarshal_Audience (Payload pkt)) as [aud|]; simpl.
  - destruct aud as [| | |s|l|];
      try (split; [by intros [p Hp] | by intros (before & x & after & [=] & _)]).
    + split; [|by intros (before & x & after & [=] & _)].
      destruct (String.eqb s clientID); by intros [p Hp].
    + rewrite Hlist. split.
      * intros (before & x & after & -> & Hx). by exists before, x, after.
      * intros (before & x & after & [= ->] & Hx). by exists before, x, after.
  - split; [by intros [p Hp] | by intros (before & x & after & [=] & _)].
Qed.

(** A verifier that has a key finder dereferences no nil pointer. *)
Lemma VerifyProvider_no_nil (v : DefaultProviderVerifier) (pkt : PKToken)
    (find : PublicKeyFinder) :
  DiscoverPublicKey (options v) = Some find →
  VerifyProvider v pkt ≠ Panic NilPointerDereference.
Proof.
  intros Hfinder.
  assert (Hgq : verifyGQSig v pkt ≠ Panic NilPointerDereference).
  { unfold verifyGQSig.
    destruct (ProviderAlgorithm pkt) as [alg|]; [|done].
    destruct (String.eqb alg GQ256); simpl; [|done].
    unfold originalTokenHeaders.
    destruct (OriginalJWTHeaders _) as [h64|]; simpl; [|done].
    destruct (Base64DecodeForJWT h64) as [h|]; simpl; [|done].
    destruct (Unmarshal_Headers h) as [hs|]; simpl; [|done].
    destruct (String.eqb (Algorithm hs) RS256); simpl; [|done].
    destruct (pkt_Issuer pkt) as [i|]; simpl; [|done].
    destruct (String.eqb i (issuer v)); simpl; [|done].
    rewrite Hfinder. simpl.
    destruct (find _ _) as [record|]; simpl; [|done].
    destruct (PublicKeyRecord.PublicKey record); [|done].
    destruct (GQ256VerifyJWT _ _) as [[]|]; done. }
  assert (Hlist : ∀ cid whole rest,
            verifyAudience_list cid whole rest ≠ Panic NilPointerDereference).
  { intros cid whole rest. induction rest as [|x rest IH]; simpl; [done|].
    destruct x; try done. by destruct (String.eqb _ _). }
  unfold VerifyProvider.
  destruct (VerifyProvider_sanity v) as [[]|e|p] eqn:Hs; simpl; [|done|].
  2:{ unfold VerifyProvider_sanity in Hs.
      destruct (GQCommitment _); [|done]. destruct (GQOnly _); [|done].
      destruct (String.eqb _ _); [|done]. by destruct (SkipClientIDCheck _). }
  destruct (VerifyProvider_audience v pkt) as [[]|e|p] eqn:Ha; simpl; [|done|].
  2:{ unfold VerifyProvider_audience, verifyAudience in Ha.
      destruct (Unmarshal_Audience _) as [aud|]; simpl in Ha;
        [|by destruct (SkipClientIDCheck _)].
      destruct aud as [| | |s|l|]; simpl in Ha;
        try (by destruct (SkipClientIDCheck _)).
      - destruct (String.eqb s _); simpl in Ha; [done|]. by destruct (SkipClientIDCheck _).
      - pose proof (Hlist (ClientID (options v)) l l) as Hl.
        destruct (verifyAudience_list _ l l); [done| |congruence].
        by destruct (SkipClientIDCheck _). }
  destruct (ProviderAlgorithm pkt) as [alg|]; simpl; [|done].
  destruct (negb (String.eqb alg GQ256) && GQOnly (options v)); simpl; [done|].
  destruct (VerifyProvider_switch v pkt alg) as [[]|e|p] eqn:Hsw; simpl; [|done|].
  2:{ unfold VerifyProvider_switch in Hsw.
      destruct (String.eqb alg GQ256).
      - destruct (verifyGQSig v pkt); simpl in Hsw; congruence.
      - destruct (String.eqb alg RS256); [|done].
        unfold providerPublicKey in Hsw. rewrite Hfinder in Hsw. simpl in Hsw.
        destruct (find _ _) as [record|]; simpl in Hsw; [|done].
        by destruct (jws_Verify _ _ _). }
  destruct (verifyCommitment v pkt) as [[]|e|p] eqn:Hc; simpl; [|done|].
  2:{ intros [= ->].
      assert (Hp : is_Panic (verifyCommitment v pkt)) by (by eexists).
      apply verifyCommitment_Panic_inv in Hp as (Hgqc & claims & aud & Hcl & Haud & Hstr).
      unfold verifyCommitment in Hc. rewrite Hgqc, Hcl in Hc. simpl in Hc.
      destruct (GetCicValues pkt) as [cic|]; simpl in Hc; [|done].
      destruct (Hash cic) as [expected|]; simpl in Hc; [|done].
      rewrite Haud in Hc. by destruct aud. }
  unfold verifyCicSignature.
  destruct (GetCicValues pkt) as [cic|]; simpl; [|done].
  by destruct (jws_Verify _ _ _).
Qed.

(** X7: [NewProviderVerifier] keeps the issuer, the commitment claim and the
    options it is given and installs the default key finder when none is
    supplied; [VerifyProvider] on a verifier it built never dereferences a
    nil finder. *)
Theorem NewProviderVerifier_finder (iss claim : string) (opts : ProviderVerifierOpts)
    (pkt : PKToken) :
  issuer (NewProviderVerifier iss claim opts) = iss ∧
  commitmentClaim (NewProviderVerifier iss claim opts) = claim ∧
  ClientID (options (NewProviderVerifier iss claim opts)) = ClientID opts ∧
  SkipClientIDCheck (options (NewProviderVerifier iss claim opts)) = SkipClientIDCheck opts ∧
  SkipExpirationCheck (options (NewProviderVerifier iss claim opts))
  = SkipExpirationCheck opts ∧
  GQOnly (options (NewProviderVerifier iss claim opts)) = GQOnly opts ∧
  GQCommitment (options (NewProviderVerifier iss claim opts)) = GQCommitment opts ∧
  DiscoverPublicKey (options (NewProviderVerifier iss claim opts))
  = Some (default DefaultPubkeyFinder (DiscoverPublicKey opts)) ∧
  VerifyProvider (NewProviderVerifier iss claim opts) pkt ≠ Panic NilPointerDereference.
Proof.
  assert (Hfinder : DiscoverPublicKey (options (NewProviderVerifier iss claim opts))
                    = Some (default DefaultPubkeyFinder (DiscoverPublicKey opts)))
    by (unfold NewProviderVerifier; simpl; by destruct (DiscoverPublicKey opts) eqn:Hd).
  repeat split;
    try (unfold NewProviderVerifier; simpl; by destruct (DiscoverPublicKey opts) eqn:Hd).
  by eapply VerifyProvider_no_nil.
Qed.

(** X8: with [SkipClientIDCheck], the client ID the verifier is configured
    with does not matter: two verifiers that differ in it alone return the
    same result for a token, unless the audience check panics. *)
Theorem VerifyProvider_skip_client_id (v : DefaultProviderVerifier) (pkt : PKToken)
    (clientID : string) :
  SkipClientIDCheck (options v) = true →
  ¬ is_Panic (verifyAudience pkt (ClientID (options v))) →
  ¬ is_Panic (verifyAudience pkt clientID) →
  VerifyProvider (with_ClientID v clientID) pkt = VerifyProvider v pkt.
Proof.
  intros Hskip Hv Hc.
  assert (Ha : VerifyProvider_audience v pkt = Ok ()).
  { unfold VerifyProvider_audience. rewrite Hskip.
    destruct (verifyAudience pkt (ClientID (options v))) as [[]| |p]; try done.
    destruct Hv. by eexists. }
  assert (Ha' : VerifyProvider_audience (with_ClientID v clientID) pkt = Ok ()).
  { unfold VerifyProvider_audience. simpl. rewrite Hskip.
    destruct (verifyAudience pkt clientID) as [[]| |p]; try done.
    destruct Hc. by eexists. }
  unfold VerifyProvider. rewrite Ha, Ha'. reflexivity.
Qed.
End verifier_more.

(** * Further properties of the cosigner *)

Section cosigner_more.
Context `{Lib}.

Lemma EncodeToString_length (src : bytes) :
  String.length (EncodeToString src) = (2 * String.length src)%nat.
Proof. induction src as [|v src IH]; simpl; [done|]. rewrite IH. lia. Qed.

Lemma Unix_add_Hour (t : Z) : Unix (t + Hour) = Unix t + 3600.
Proof.
  unfold Unix, Hour, Minute.
  replace (t + 60 * (60 * Second)) with (t + 3600 * Second) by lia.
  apply Z.div_add. unfold Second. lia.
Qed.

Lemma Unix_mono (t u : Z) : t ≤ u → Unix t ≤ Unix u.
Proof. intros Htu. unfold Unix, Second. apply Z.div_le_mono; lia. Qed.

(** What [InitAuth] does to the two maps. *)
Lemma InitAuth_maps (c : AuthCosigner) (pkt : PKToken) (sig : bytes) (now : nat → Z) :
  (¬ is_Ok (InitAuth c pkt sig now).2 → (InitAuth c pkt sig now).1 = c) ∧
  (∀ authID, (InitAuth c pkt sig now).2 = Ok authID →
     ∃ authState,
       AuthCosigner.AuthStateMap (InitAuth c pkt sig now).1
       = <[authID := authState]> (AuthCosigner.AuthStateMap c) ∧
       AuthCosigner.AuthCodeMap (InitAuth c pkt sig now).1 = AuthCosigner.AuthCodeMap c).
Proof.
  unfold InitAuth.
  destruct (VerifySignedMessage pkt sig) as [msg|]; [|by split].
  destruct (Unmarshal_InitMFAAuth msg) as [[m|]|]; [|by split|by split].
  destruct (Minutes_gt_2 (Since _ _)); [by split|].
  destruct (Minutes_gt_2 (Until _ _)); [by split|].
  destruct (NewAuthState _ _ _) as [authState| |]; [|by split|by split].
  rewrite CreateAuthID_Ok. simpl. split.
  - intros Hno. destruct Hno. by eexists.
  - intros authID [= <-]. by exists authState.
Qed.

(** X9: an [InitAuth] that does not succeed leaves the cosigner as it was;
    one that succeeds has verified the signature, advances the counter by
    one, stores under the returned auth ID the state [NewAuthState] built
    from the PK Token and from the redirect URI and nonce of the signed
    message, and touches neither the authcodes nor the keys. *)
Theorem InitAuth_effect (c : AuthCosigner) (pkt : PKToken) (sig : bytes) (now : nat → Z) :
  (¬ is_Ok (InitAuth c pkt sig now).2 → (InitAuth c pkt sig now).1 = c) ∧
  (∀ authID, (InitAuth c pkt sig now).2 = Ok authID →
     ∃ msg m authState,
       VerifySignedMessage pkt sig = Done msg ∧
       Unmarshal_InitMFAAuth msg = Done (Some m) ∧
       NewAuthState pkt (InitMFAAuth.RedirectUri m) (InitMFAAuth.Nonce m) = Ok authState ∧
       AuthCosigner.AuthStateMap (InitAuth c pkt sig now).1
       = <[authID := authState]> (AuthCosigner.AuthStateMap c) ∧
       AuthCosigner.AuthIdIter (InitAuth c pkt sig now).1
       = (AuthCosigner.AuthIdIter c + 1) mod 2 ^ 64 ∧
       AuthCosigner.AuthCodeMap (InitAuth c pkt sig now).1 = AuthCosigner.AuthCodeMap c ∧
       AuthCosigner.HmacKey (InitAuth c pkt sig now).1 = AuthCosigner.HmacKey c ∧
       AuthCosigner.Issuer (InitAuth c pkt sig now).1 = AuthCosigner.Issuer c ∧
       AuthCosigner.KeyID (InitAuth c pkt sig now).1 = AuthCosigner.KeyID c ∧
       AuthCosigner.Cosigner_ (InitAuth c pkt sig now).1 = AuthCosigner.Cosigner_ c).
Proof.
  unfold InitAuth.
  destruct (VerifySignedMessage pkt sig) as [msg|] eqn:Hsig; [|by split].
  destruct (Unmarshal_InitMFAAuth msg) as [[m|]|] eqn:Hmsg; [|by split|by split].
  destruct (Minutes_gt_2 (Since _ _)); [by split|].
  destruct (Minutes_gt_2 (Until _ _)); [by split|].
  destruct (NewAuthState _ _ _) as [authState| |] eqn:Hnew; [|by split|by split].
  rewrite CreateAuthID_Ok. simpl. split.
  - intros Hno. destruct Hno. by eexists.
  - intros authID [= <-]. by exists msg, m, authState.
Qed.

(** X10: while the counter has not wrapped around and the MAC is
    collision-free on messages of 16 bytes, the ones [CreateAuthID] feeds
    it, a successful [InitAuth] returns an auth ID under which no session
    was stored, and every session that existed is still stored, unchanged,
    under its auth ID. *)
Theorem InitAuth_keeps_sessions (c c' : AuthCosigner) (pkt : PKToken) (sig : bytes)
    (now : nat → Z) (authID : string) :
  minted c →
  AuthCosigner.AuthIdIter c + 1 < 2 ^ 64 →
  collision_free (AuthCosigner.HmacKey c) →
  InitAuth c pkt sig now = (c', Ok authID) →
  AuthCosigner.AuthStateMap c !! authID = None ∧
  (∀ authID' authState, AuthCosigner.AuthStateMap c !! authID' = Some authState →
     AuthCosigner.AuthStateMap c' !! authID' = Some authState) ∧
  minted c'.
Proof.
  intros Hminted Hwrap Hfree Hinit.
  destruct (InitAuth_fresh _ _ _ _ _ _ Hminted Hwrap Hfree Hinit) as [Hfresh Hminted'].
  split; [done|]. split; [|done].
  destruct (InitAuth_maps c pkt sig now) as [_ Hok].
  rewrite Hinit in Hok. simpl in Hok.
  destruct (Hok authID eq_refl) as (st & Hmap & _).
  intros authID' authState Hst. rewrite Hmap.
  rewrite lookup_insert_ne; [done|]. intros <-. congruence.
Qed.

(** X11: [NewAuthcode] touches the authcode map only: the sessions, the
    counter, the HMAC key, the issuer, the key ID and the signer stay as
    they are.  When the random
    source fails nothing changes; otherwise the authcode is the hexadecimal
    form of the random bytes, twice as long, it maps to the auth ID, and
    every other authcode keeps its auth ID; two authcodes minted from
    different random bytes are both valid afterwards. *)
Theorem NewAuthcode_effect (c : AuthCosigner) (authID authID' : string)
    (authCodeBytes authCodeBytes' : bytes) :
  authCodeBytes ≠ authCodeBytes' →
  (∀ err, NewAuthcode c authID (Fail err) = (c, Err (Foreign err))) ∧
  (NewAuthcode c authID (Done authCodeBytes)).2 = Ok (EncodeToString authCodeBytes) ∧
  String.length (EncodeToString authCodeBytes) = (2 * String.length authCodeBytes)%nat ∧
  AuthCosigner.AuthStateMap (NewAuthcode c authID (Done authCodeBytes)).1
  = AuthCosigner.AuthStateMap c ∧
  AuthCosigner.AuthIdIter (NewAuthcode c authID (Done authCodeBytes)).1
  = AuthCosigner.AuthIdIter c ∧
  AuthCosigner.HmacKey (NewAuthcode c authID (Done authCodeBytes)).1
  = AuthCosigner.HmacKey c ∧
  AuthCosigner.Issuer (NewAuthcode c authID (Done authCodeBytes)).1
  = AuthCosigner.Issuer c ∧
  AuthCosigner.KeyID (NewAuthcode c authID (Done authCodeBytes)).1
  = AuthCosigner.KeyID c ∧
  AuthCosigner.Cosigner_ (NewAuthcode c authID (Done authCodeBytes)).1
  = AuthCosigner.Cosigner_ c ∧
  AuthCosigner.AuthCodeMap (NewAuthcode c authID (Done authCodeBytes)).1
    !! EncodeToString authCodeBytes = Some authID ∧
  (∀ authCode, authCode ≠ EncodeToString authCodeBytes →
     AuthCosigner.AuthCodeMap (NewAuthcode c authID (Done authCodeBytes)).1 !! authCode
     = AuthCosigner.AuthCodeMap c !! authCode) ∧
  (let c1 := (NewAuthcode c authID (Done authCodeBytes)).1 in
   let c2 := (NewAuthcode c1 authID' (Done authCodeBytes')).1 in
   AuthCosigner.AuthCodeMap c2 !! EncodeToString authCodeBytes = Some authID ∧
   AuthCosigner.AuthCodeMap c2 !! EncodeToString authCodeBytes' = Some authID').
Proof.
  intros Hne. simpl.
  split; [done|]. split; [done|]. split; [apply EncodeToString_length|].
  split; [done|]. split; [done|].
  split; [done|]. split; [done|]. split; [done|]. split; [done|].
  split; [apply lookup_insert_eq|].
  split; [intros authCode Hcode; by apply lookup_insert_ne|].
  split; [|apply lookup_insert_eq].
  rewrite lookup_insert_ne; [apply lookup_insert_eq|].
  intros Heq%EncodeToString_inj. congruence.
Qed.

(** X12: [RedeemAuthcode] never changes the state.  A signature that does
    not parse and a signature that does not verify under the key of the
    session's PK Token give the library's error, an unknown authcode gives
    "Invalid authcode"; a cosignature is returned only when the authcode is
    known, its session exists and the signature verifies, and it is then
    what [Cosign] makes of the session's PK Token and claims. *)
Theorem RedeemAuthcode_outcomes (c : AuthCosigner) (sig : bytes) (now : nat → Z) :
  (RedeemAuthcode c sig now).1 = c ∧
  (∀ err, jws_Parse sig = Fail err → (RedeemAuthcode c sig now).2 = Err (Foreign err)) ∧
  (∀ msg, jws_Parse sig = Done msg →
     AuthCosigner.AuthCodeMap c !! msg_Payload msg = None →
     (RedeemAuthcode c sig now).2 = Err InvalidAuthcode) ∧
  (∀ msg authID authState err, jws_Parse sig = Done msg →
     AuthCosigner.AuthCodeMap c !! msg_Payload msg = Some authID →
     AuthCosigner.AuthStateMap c !! authID = Some authState →
     VerifySignedMessage (AuthState.Pkt authState) sig = Fail err →
     (RedeemAuthcode c sig now).2 = Err (Foreign err)) ∧
  (∀ cos, (RedeemAuthcode c sig now).2 = Ok cos →
     ∃ msg authID authState signed,
       jws_Parse sig = Done msg ∧
       AuthCosigner.AuthCodeMap c !! msg_Payload msg = Some authID ∧
       AuthCosigner.AuthStateMap c !! authID = Some authState ∧
       VerifySignedMessage (AuthState.Pkt authState) sig = Done signed ∧
       Cosign (AuthCosigner.Cosigner_ c) (AuthState.Pkt authState)
         (cosigner_claims c authID authState now) = Done cos).
Proof.
  split; [apply RedeemAuthcode_state|].
  unfold RedeemAuthcode. split; [by intros err ->|]. split; [by intros msg -> ->|].
  split; [by intros msg authID authState err -> -> -> ->|].
  intros cos.
  destruct (jws_Parse sig) as [msg|]; [|done].
  destruct (AuthCosigner.AuthCodeMap c !! msg_Payload msg) as [authID|] eqn:Hcode; [|done].
  destruct (AuthCosigner.AuthStateMap c !! authID) as [authState|] eqn:Hstate; [|done].
  destruct (VerifySignedMessage _ _) as [signed|] eqn:Hsig; [|done].
  unfold IssueSignature. rewrite Hstate. simpl.
  intros Hcos%call_Ok_inv. by exists msg, authID, authState, signed.
Qed.

(** X13: the three steps of a session compose.  After [InitAuth] for a PK
    Token and a signed message inside the time window, and [NewAuthcode] for
    the auth ID it returned, [RedeemAuthcode] with a valid signature over
    that authcode returns what [Cosign] makes of the same PK Token and of
    claims that carry the auth ID and the redirect URI and nonce of the
    signed message. *)
Theorem session_composes (c : AuthCosigner) (pkt : PKToken) (sig sig' msg signed : bytes)
    (m : InitMFAAuth) (authState : AuthState) (authCodeBytes : bytes)
    (parsed : Message) (now now' : nat → Z) :
  VerifySignedMessage pkt sig = Done msg →
  Unmarshal_InitMFAAuth msg = Done (Some m) →
  now 0%nat - time_Unix (InitMFAAuth.TimeSigned m) ≤ 2 * Minute →
  time_Unix (InitMFAAuth.TimeSigned m) - now 1%nat ≤ 2 * Minute →
  NewAuthState pkt (InitMFAAuth.RedirectUri m) (InitMFAAuth.Nonce m) = Ok authState →
  jws_Parse sig' = Done parsed →
  msg_Payload parsed = EncodeToString authCodeBytes →
  VerifySignedMessage pkt sig' = Done signed →
  ∃ c1 authID c2 claims,
    InitAuth c pkt sig now = (c1, Ok authID) ∧
    NewAuthcode c1 authID (Done authCodeBytes) = (c2, Ok (EncodeToString authCodeBytes)) ∧
    RedeemAuthcode c2 sig' now' = (c2, call (Cosign (AuthCosigner.Cosigner_ c) pkt claims)) ∧
    CosignerClaims.AuthID claims = authID ∧
    CosignerClaims.RedirectURI claims = InitMFAAuth.RedirectUri m ∧
    CosignerClaims.Nonce claims = InitMFAAuth.Nonce m ∧
    CosignerClaims.Iss claims = AuthCosigner.Issuer c ∧
    CosignerClaims.KeyID claims = AuthCosigner.KeyID c.
Proof.
  intros Hsig Hmsg Hold Hnew Hstate Hparse Hpayload Hsig'.
  pose proof (InitAuth_in_window c pkt sig msg m now Hsig Hmsg Hold Hnew) as Hin.
  rewrite Hstate in Hin.
  assert (Hpkt : AuthState.Pkt authState = pkt ∧
                 AuthState.RedirectURI authState = InitMFAAuth.RedirectUri m ∧
                 AuthState.Nonce authState = InitMFAAuth.Nonce m).
  { unfold NewAuthState in Hstate.
    apply bind_Ok_inv in Hstate as (claims & _ & Hk).
    apply bind_Ok_inv in Hk as (audience & _ & Hk).
    by injection Hk as <-. }
  destruct Hpkt as (Hpkt & Hruri & Hnonce).
  exists (InitAuth_state c authState (now 2%nat)), (authID_of c (now 2%nat)),
    (NewAuthcode (InitAuth_state c authState (now 2%nat)) (authID_of c (now 2%nat))
       (Done authCodeBytes)).1,
    (cosigner_claims c (authID_of c (now 2%nat)) authState now').
  split; [exact Hin|]. split; [reflexivity|].
  split; [|by repeat split].
  unfold RedeemAuthcode, IssueSignature. rewrite Hparse, Hpayload. simpl.
  rewrite !lookup_insert_eq. by rewrite Hpkt, Hsig'.
Qed.

(** X14: the claims of an issued cosignature name the cosigner's issuer and
    key ID, the auth ID, and the redirect URI and nonce of the session; the
    expiry is 3600 seconds after the Unix time of the third clock reading,
    so with a clock that does not run backwards the cosignature is valid for
    at least an hour from its [iat], and its [auth_time] is not after its
    [iat]. *)
Theorem IssueSignature_claims (c c' : AuthCosigner) (pkt : PKToken) (authID : string)
    (now : nat → Z) (cos : bytes) :
  IssueSignature c pkt authID now = (c', Ok cos) →
  ∃ authState claims,
    AuthCosigner.AuthStateMap c !! authID = Some authState ∧
    Cosign (AuthCosigner.Cosigner_ c) pkt claims = Done cos ∧
    CosignerClaims.Iss claims = AuthCosigner.Issuer c ∧
    CosignerClaims.KeyID claims = AuthCosigner.KeyID c ∧
    CosignerClaims.Algorithm claims = Cosigner_Alg (AuthCosigner.Cosigner_ c) ∧
    CosignerClaims.AuthID claims = authID ∧
    CosignerClaims.RedirectURI claims = AuthState.RedirectURI authState ∧
    CosignerClaims.Nonce claims = AuthState.Nonce authState ∧
    CosignerClaims.Expiration claims = Unix (now 2%nat) + 3600 ∧
    (now 1%nat ≤ now 2%nat →
     CosignerClaims.IssuedAt claims + 3600 ≤ CosignerClaims.Expiration claims) ∧
    (now 0%nat ≤ now 1%nat →
     CosignerClaims.AuthTime claims ≤ CosignerClaims.IssuedAt claims).
Proof.
  intros Hissue.
  destruct (IssueSignature_Ok_inv _ _ _ _ _ _ Hissue) as (-> & authState & Hstate & Hcos).
  exists authState, (cosigner_claims c authID authState now).
  split; [done|]. split; [done|]. simpl. repeat (split; [done|]).
  split; [apply Unix_add_Hour|]. split.
  - intros Hclock. rewrite Unix_add_Hour. apply Unix_mono in Hclock. lia.
  - apply Unix_mono.
Qed.

(** Minting authcodes for existing sessions only keeps every authcode bound
    to a session. *)
Lemma careful_step_codes_bound (c c' : AuthCosigner) :
  careful_step c c' → codes_bound c → codes_bound c'.
Proof.
  destruct 1 as [c pkt sig now|c authID rnd Hsession|c sig now|c pkt authID now];
    intros Hc.
  - destruct (InitAuth_maps c pkt sig now) as [Hfail Hok].
    destruct ((InitAuth c pkt sig now).2) as [authID| |] eqn:Hr.
    + destruct (Hok authID eq_refl) as (st & Hmap & Hcodes).
      intros code id. rewrite Hcodes, Hmap. intros Hcode%Hc.
      apply lookup_insert_is_Some. destruct (decide (authID = id)); [by left|by right].
    + rewrite Hfail; [done|]. by intros [a Ha].
    + rewrite Hfail; [done|]. by intros [a Ha].
  - unfold NewAuthcode. destruct rnd as [b|]; [|done]. simpl.
    intros code id Hcode. simpl in Hcode.
    apply lookup_insert_Some in Hcode as [[_ <-]|[_ Hcode]]; [done|by eapply Hc].
  - by rewrite RedeemAuthcode_state.
  - by rewrite IssueSignature_state.
Qed.

(** X15: a cosigner that starts without authcodes and mints authcodes for
    existing sessions only never panics in [RedeemAuthcode]: whatever is
    presented, the call returns a cosignature or an error. *)
Theorem RedeemAuthcode_never_panics (c0 c : AuthCosigner) (sig : bytes) (now : nat → Z) :
  AuthCosigner.AuthCodeMap c0 = ∅ →
  rtc careful_step c0 c →
  ¬ is_Panic (RedeemAuthcode c sig now).2.
Proof.
  intros Hempty Hsteps.
  assert (Hc : codes_bound c).
  { assert (Hc0 : codes_bound c0) by (intros code id; by rewrite Hempty).
    clear Hempty. induction Hsteps as [|c1 c2 c3 Hstep _ IH]; [done|].
    apply IH. by eapply careful_step_codes_bound. }
  intros [p Hp]. unfold RedeemAuthcode in Hp.
  destruct (jws_Parse sig) as [msg|]; [|done].
  destruct (AuthCosigner.AuthCodeMap c !! msg_Payload msg) as [authID|] eqn:Hcode; [|done].
  destruct (Hc _ _ Hcode) as [authState Hstate]. rewrite Hstate in Hp.
  destruct (VerifySignedMessage _ _); [|done].
  unfold IssueSignature in Hp. rewrite Hstate in Hp. simpl in Hp.
  by destruct (Cosign _ _ _).
Qed.
End cosigner_more.

(** * Sessions, user keys and auth IDs *)

Section sessions.
Context `{Lib}.

Lemma audList_of_strings (l : list string) : audList_of (Str <$> l) = Ok l.
Proof.
  induction l as [|s l IH]; [done|].
  rewrite fmap_cons. cbn [audList_of]. by rewrite IH.
Qed.

Lemma audList_of_mixed (before : list string) (x : any) (after : list any) :
  is_string x = false →
  audList_of ((Str <$> before) ++ x :: after) = Panic (InterfaceConversion x "string").
Proof.
  intros Hx. induction before as [|s before IH].
  - simpl. by destruct x.
  - rewrite fmap_cons. cbn [app audList_of]. by rewrite IH.
Qed.

Lemma audList_of_not_Err (l : list any) (e : error) : audList_of l ≠ Err e.
Proof.
  induction l as [|x l IH]; simpl; [done|].
  destruct x; try done. by destruct (audList_of l).
Qed.

(** X16: once the payload decodes, [NewAuthState] depends on the type of
    the aud claim: a string is kept, a list of strings is joined with
    commas, a list with an element that is not a string panics at that
    element, and anything else is an error.  The state it returns holds the
    PK Token, the issuer, subject and email of the payload, the redirect URI
    and nonce it was given, and is not marked as cosigned. *)
Theorem NewAuthState_outcome (pkt : PKToken) (ruri nonce : string) (claims : IDClaims) :
  Unmarshal_IDClaims (Payload pkt) = Done claims →
  (∀ t, IDClaims.Aud claims = Str t →
     ∃ st, NewAuthState pkt ruri nonce = Ok st ∧ AuthState.Aud st = t) ∧
  (∀ l : list string, IDClaims.Aud claims = Slice (Str <$> l) →
     ∃ st, NewAuthState pkt ruri nonce = Ok st ∧ AuthState.Aud st = Join l ",") ∧
  (∀ (before : list string) x after,
     IDClaims.Aud claims = Slice ((Str <$> before) ++ x :: after)%list →
     is_string x = false →
     NewAuthState pkt ruri nonce = Panic (InterfaceConversion x "string")) ∧
  (no_audience (IDClaims.Aud claims) = true →
   NewAuthState pkt ruri nonce = Err (FailedToDeserializeAud (IDClaims.Aud claims))) ∧
  (∀ st, NewAuthState pkt ruri nonce = Ok st →
     AuthState.Pkt st = pkt ∧
     AuthState.Issuer st = IDClaims.Issuer claims ∧
     AuthState.Sub st = IDClaims.Sub claims ∧
     AuthState.Username st = IDClaims.Email claims ∧
     AuthState.RedirectURI st = ruri ∧
     AuthState.Nonce st = nonce ∧
     AuthState.SigIssued st = false).
Proof.
  intros Hclaims. unfold NewAuthState. rewrite Hclaims. simpl.
  split; [|split; [|split; [|split]]].
  - intros t ->. simpl. by eexists.
  - intros l ->. simpl. rewrite audList_of_strings. simpl. by eexists.
  - intros before x after -> Hx. simpl. by rewrite audList_of_mixed.
  - intros Hno. by destruct (IDClaims.Aud claims).
  - intros st Hst.
    apply bind_Ok_inv in Hst as (audience & _ & Hst). by injection Hst as <-.
Qed.

(** X17: the user key does not tell a list audience from the string of its
    members joined by commas: two PK Tokens with the same issuer and
    subject, one with the audience list [l] and one with the audience string
    [Join l ","], get the same [UserKey]. *)
Theorem UserKey_joined_audience (pkt1 pkt2 : PKToken) (ruri1 nonce1 ruri2 nonce2 : string)
    (claims1 claims2 : IDClaims) (l : list string) :
  Unmarshal_IDClaims (Payload pkt1) = Done claims1 →
  Unmarshal_IDClaims (Payload pkt2) = Done claims2 →
  IDClaims.Issuer claims1 = IDClaims.Issuer claims2 →
  IDClaims.Sub claims1 = IDClaims.Sub claims2 →
  IDClaims.Aud claims1 = Slice (Str <$> l) →
  IDClaims.Aud claims2 = Str (Join l ",") →
  ∃ st1 st2,
    NewAuthState pkt1 ruri1 nonce1 = Ok st1 ∧
    NewAuthState pkt2 ruri2 nonce2 = Ok st2 ∧
    AuthState_UserKey st1 = AuthState_UserKey st2.
Proof.
  intros H1 H2 Hiss Hsub Haud1 Haud2.
  unfold NewAuthState. rewrite H1, H2. simpl. rewrite Haud1, Haud2. simpl.
  rewrite audList_of_strings. simpl.
  eexists _, _. split; [done|]. split; [done|].
  unfold AuthState_UserKey. simpl. by rewrite Hiss, Hsub.
Qed.

Lemma Split_at_0_without (s : string) : without "@" (Split_at_0 s) = true.
Proof.
  induction s as [|c s IH]; simpl; [done|].
  destruct (Ascii.eqb c "@") eqn:Hc; simpl; [done|]. by rewrite Hc.
Qed.

Lemma Split_at_0_id (s : string) : without "@" s = true → Split_at_0 s = s.
Proof.
  induction s as [|c s IH]; simpl; [done|].
  destruct (Ascii.eqb c "@"); simpl; [done|]. intros Hs. by rewrite IH.
Qed.

Lemma Split_at_0_prefix (s : string) :
  ∃ rest, s = Split_at_0 s ++ rest ∧ (rest = "" ∨ ∃ r, rest = String "@" r).
Proof.
  induction s as [|c s (rest & Hs & Hrest)]; simpl.
  - exists "". by split; [|left].
  - destruct (Ascii.eqb c "@") eqn:Hc; simpl.
    + apply Ascii.eqb_eq in Hc as ->. exists (String "@" s). split; [done|]. right. by eexists.
    + exists rest. split; [|done].
      change (String c s = String c (Split_at_0 s ++ rest)). congruence.
Qed.

(** X18: the display name of a session is the user name up to its first at
    sign: it contains no at sign, it is the whole user name when that has
    none, and otherwise the user name continues with an at sign. *)
Theorem NewAuthState_DisplayName (pkt : PKToken) (ruri nonce : string) (st : AuthState) :
  NewAuthState pkt ruri nonce = Ok st →
  without "@" (AuthState.DisplayName st) = true ∧
  (without "@" (AuthState.Username st) = true →
   AuthState.DisplayName st = AuthState.Username st) ∧
  ∃ rest, AuthState.Username st = AuthState.DisplayName st ++ rest ∧
    (rest = "" ∨ ∃ r, rest = String "@" r).
Proof.
  unfold NewAuthState.
  intros (claims & _ & Hk)%bind_Ok_inv.
  apply bind_Ok_inv in Hk as (audience & _ & Hk). injection Hk as <-. simpl.
  split; [apply Split_at_0_without|]. split; [apply Split_at_0_id|apply Split_at_0_prefix].
Qed.

(** X19: [NewAuthCosigner] fails exactly when the random source does.  The
    cosigner it returns has the given HMAC key, a counter at zero and no
    sessions or authcodes: every [RedeemAuthcode] on it is an error and
    leaves it unchanged, and every [IssueSignature] on it panics. *)
Theorem NewAuthCosigner_state (cosigner : Cosigner) (issuer keyID : string) :
  (∀ err, NewAuthCosigner cosigner issuer keyID (Fail err) = Err (Foreign err)) ∧
  (∀ hmacKey, ∃ c,
     NewAuthCosigner cosigner issuer keyID (Done hmacKey) = Ok c ∧
     AuthCosigner.HmacKey c = hmacKey ∧
     AuthCosigner.AuthIdIter c = 0 ∧
     minted c ∧ codes_bound c ∧ none_issued c ∧
     (∀ sig now, ∃ e, RedeemAuthcode c sig now = (c, Err e)) ∧
     (∀ pkt authID now, IssueSignature c pkt authID now = (c, Panic NilPointerDereference))).
Proof.
  split; [done|]. intros hmacKey. eexists. split; [reflexivity|]. simpl.
  split; [done|]. split; [done|].
  split; [split; [simpl; lia|]; by intros authID st; simpl; rewrite lookup_empty|].
  split; [by intros code authID; simpl; rewrite lookup_empty|].
  split; [by intros authID st; simpl; rewrite lookup_empty|].
  split.
  - intros sig now. unfold RedeemAuthcode.
    destruct (jws_Parse sig) as [msg|]; [|by eexists].
    simpl. rewrite lookup_empty. by eexists.
  - intros pkt authID now. unfold IssueSignature. simpl. by rewrite lookup_empty.
Qed.

(** X20: [CreateAuthID] never fails: the MAC is always fed exactly 16 bytes,
    so the error for another count is dead code.  It advances the counter
    by one modulo 2^64, which keeps it a [uint64] and takes 2^64 - 1 to
    zero, and the auth ID has two hexadecimal digits per byte of the MAC. *)
Theorem CreateAuthID_total (c : AuthCosigner) (pkt : PKToken) (now : Z) :
  ∃ authID,
    CreateAuthID c pkt now
    = (AuthCosigner.set_AuthIdIter c ((AuthCosigner.AuthIdIter c + 1) mod 2 ^ 64),
       Ok authID) ∧
    0 ≤ AuthCosigner.AuthIdIter (CreateAuthID c pkt now).1 < 2 ^ 64 ∧
    (AuthCosigner.AuthIdIter c = 2 ^ 64 - 1 →
     AuthCosigner.AuthIdIter (CreateAuthID c pkt now).1 = 0) ∧
    (∃ iterAndTime, String.length iterAndTime = 16%nat ∧
       authID = EncodeToString (hmac_SHA3_256 (AuthCosigner.HmacKey c) iterAndTime) ∧
       String.length authID
       = (2 * String.length (hmac_SHA3_256 (AuthCosigner.HmacKey c) iterAndTime))%nat) ∧
    (∀ sig clock n, (InitAuth c pkt sig clock).2 ≠ Err (UnexpectedHMACBytes n)).
Proof.
  eexists. split; [apply CreateAuthID_Ok|]. rewrite CreateAuthID_Ok. simpl.
  split; [apply Z.mod_pos_bound; lia|].
  split; [intros ->; reflexivity|].
  split.
  - eexists. split; [|split; [reflexivity|apply EncodeToString_length]]. reflexivity.
  - intros sig clock n. unfold InitAuth.
    destruct (VerifySignedMessage pkt sig) as [msg|]; [|done].
    destruct (Unmarshal_InitMFAAuth msg) as [[m|]|]; [|done|done].
    destruct (Minutes_gt_2 (Since _ _)); [done|].
    destruct (Minutes_gt_2 (Until _ _)); [done|].
    destruct (NewAuthState _ _ _) as [authState|e|] eqn:Hnew; [by rewrite CreateAuthID_Ok| |done].
    simpl. intros [= ->]. unfold NewAuthState in Hnew.
    destruct (Unmarshal_IDClaims _) as [claims|]; simpl in Hnew; [|done].
    destruct (IDClaims.Aud claims) as [| | |t|l|]; simpl in Hnew; try done.
    pose proof (audList_of_not_Err l) as Hl.
    destruct (audList_of l); simpl in Hnew; [done| |done]. by destruct (Hl e).
Qed.

(** X21: under a MAC that is collision-free on messages of 16 bytes the
    auth ID determines what it was minted from: two auth IDs minted under
    one key agree only if the counter values and the Unix times agree (all
    of them [uint64]); the little-endian encoding of the two numbers and the
    hexadecimal encoding of the tag are injective. *)
Theorem mint_determines (key : bytes) (n n' unix unix' : Z) :
  collision_free key →
  0 ≤ n < 2 ^ 64 → 0 ≤ n' < 2 ^ 64 →
  0 ≤ unix < 2 ^ 64 → 0 ≤ unix' < 2 ^ 64 →
  mint key n unix = mint key n' unix' →
  n = n' ∧ unix = unix'.
Proof.
  intros Hfree Hn Hn' Hu Hu' Heq. unfold mint in Heq.
  apply EncodeToString_inj, Hfree in Heq; [|reflexivity..].
  unfold uint64 in Heq.
  rewrite (Z.mod_small n), (Z.mod_small n'), (Z.mod_small unix),
    (Z.mod_small unix') in Heq by done.
  unfold AppendUint64 in Heq. simpl in Heq. injection Heq. intros.
  split; apply AppendUint64_inj; try done; unfold AppendUint64; simpl; congruence.
Qed.
End sessions.

(** * The claim a client extracts and the OpenSSH version check *)

Section client.
Context `{Lib}.
Variable SplitCompact : bytes → lib (bytes * bytes * bytes).

(** What [ExtractClaim] returns once the token splits and its payload
    decodes. *)
Lemma ExtractClaim_decoded (idt header payloadB64 signature payloadJSON : bytes)
    (payload : gmap string any) (claimName : string) :
  SplitCompact idt = Done (header, payloadB64, signature) →
  Base64DecodeForJWT payloadB64 = Done payloadJSON →
  Unmarshal_claims payloadJSON = Done payload →
  ExtractClaim SplitCompact idt claimName
  = match payload !! claimName with
    | None => inl (ClaimMissing claimName)
    | Some (Str claimStr) => inr claimStr
    | Some claim => inl (ClaimNotAString claimName claim)
    end.
Proof. intros Hs Hb Hu. unfold ExtractClaim. by rewrite Hs, Hb, Hu. Qed.

(** X22: [ExtractClaim] and [verifyCommitment] read the commitment alike.
    For an ID token whose payload segment is the payload of the PK Token,
    [ExtractClaim] returns a claim exactly when the payload has it as a
    string, and, without [GQCommitment], the verifier accepts the commitment
    exactly when [ExtractClaim] on the verifier's commitment claim returns
    the hash of the CIC; a claim of another type is an error of
    [ExtractClaim], not a panic. *)
Theorem ExtractClaim_commitment (v : DefaultProviderVerifier) (pkt : PKToken)
    (idt header payloadB64 signature : bytes) (claims : gmap string any)
    (cic : Claims) (expected : bytes) :
  GQCommitment (options v) = false →
  SplitCompact idt = Done (header, payloadB64, signature) →
  Base64DecodeForJWT payloadB64 = Done (Payload pkt) →
  Unmarshal_claims (Payload pkt) = Done claims →
  GetCicValues pkt = Done cic →
  Hash cic = Done expected →
  (∀ claimName claimStr,
     ExtractClaim SplitCompact idt claimName = inr claimStr ↔
     claims !! claimName = Some (Str claimStr)) ∧
  (∀ claimName claim, claims !! claimName = Some claim → is_string claim = false →
     ExtractClaim SplitCompact idt claimName = inl (ClaimNotAString claimName claim)) ∧
  (verifyCommitment v pkt = Ok () ↔
   ExtractClaim SplitCompact idt (commitmentClaim v) = inr expected).
Proof.
  intros Hgq Hs Hb Hu Hcic Hhash.
  assert (Hextract : ∀ claimName claimStr,
    ExtractClaim SplitCompact idt claimName = inr claimStr ↔
    claims !! claimName = Some (Str claimStr)).
  { intros claimName claimStr. rewrite (ExtractClaim_decoded _ _ _ _ _ _ _ Hs Hb Hu).
    destruct (claims !! claimName) as [[]|]; split; congruence. }
  split; [exact Hextract|]. split.
  - intros claimName claim Hclaim Hstr.
    rewrite (ExtractClaim_decoded _ _ _ _ _ _ _ Hs Hb Hu), Hclaim.
    by destruct claim.
  - rewrite Hextract. unfold verifyCommitment.
    rewrite Hu. simpl. rewrite Hcic. simpl. rewrite Hhash. simpl. rewrite Hgq.
    destruct (claims !! commitmentClaim v) as [x|] eqn:Hx; simpl; [|split; congruence].
    destruct (any_eq_string x expected) eqn:Heq; simpl.
    + apply any_eq_string_true in Heq as ->. done.
    + split; [done|]. intros [= ->].
      assert (any_eq_string (Str expected) expected = true) as Ht
        by by apply any_eq_string_true.
      congruence.
Qed.
End client.

Section openssh.

Lemma version_digits_digit (d : ascii) (rest : string) :
  is_digit d = true → version_digits (String d rest) = String d (version_digits rest).
Proof. intros Hd. simpl. by rewrite Hd. Qed.

Lemma isOpenSSHVersion8Dot1OrGreater_digit (s : string) (d : ascii) (rest : string) :
  TrimPrefix (Split_comma_0 s) "OpenSSH_" = String d rest →
  is_digit d = true →
  isOpenSSHVersion8Dot1OrGreater s
  = (String.leb "8.1" (String d (version_digits rest)), None).
Proof.
  intros Ht Hd. unfold isOpenSSHVersion8Dot1OrGreater, FindStringSubmatch_1.
  rewrite Ht, Hd, (version_digits_digit _ _ Hd). by destruct (String.leb _ _).
Qed.

(** X23: the comparison with 8.1 is one of strings, so the first digit of
    the version decides unless it is 8: a version that starts with a digit
    below 8 is reported as older than 8.1, whatever follows (10.0 as much as
    7.9), one that starts with 9 as 8.1 or newer, and one that starts with 8
    by comparing what follows with the text [.1]. *)
Theorem isOpenSSHVersion8Dot1OrGreater_first_digit (s : string) (d : ascii)
    (rest : string) :
  TrimPrefix (Split_comma_0 s) "OpenSSH_" = String d rest →
  is_digit d = true →
  ((N_of_ascii d < 56)%N → isOpenSSHVersion8Dot1OrGreater s = (false, None)) ∧
  ((56 < N_of_ascii d)%N → isOpenSSHVersion8Dot1OrGreater s = (true, None)) ∧
  (d = "8"%char →
   isOpenSSHVersion8Dot1OrGreater s = (String.leb ".1" (version_digits rest), None)).
Proof.
  intros Ht Hd. rewrite (isOpenSSHVersion8Dot1OrGreater_digit _ _ _ Ht Hd).
  unfold String.leb. simpl String.compare.
  unfold Ascii.compare. change (N_of_ascii "8") with 56%N.
  split; [|split].
  - intros Hlt. apply N.compare_gt_iff in Hlt. by rewrite Hlt.
  - intros Hgt. apply N.compare_lt_iff in Hgt. by rewrite Hgt.
  - intros ->. done.
Qed.

(** X24: for a version with a one-digit major number and a minor number the
    answer is that of the numbers, as long as the minor number is not
    written with a leading zero: true for 9.x, and for 8.x exactly when x
    does not start with 0. *)
Theorem isOpenSSHVersion8Dot1OrGreater_one_digit_major (s : string) (major minor : ascii)
    (rest : string) :
  TrimPrefix (Split_comma_0 s) "OpenSSH_" = String major (String "." (String minor rest)) →
  is_digit major = true →
  is_digit minor = true →
  isOpenSSHVersion8Dot1OrGreater s
  = ((56 <? N_of_ascii major)%N || Ascii.eqb major "8" && negb (Ascii.eqb minor "0"), None).
Proof.
  intros Ht Hmajor Hminor.
  rewrite (isOpenSSHVersion8Dot1OrGreater_digit _ _ _ Ht Hmajor). f_equal.
  assert (Hv : version_digits (String "." (String minor rest))
               = String "." (String minor (version_digits rest))).
  { change (version_digits (String "." (String minor rest)))
      with (if is_digit minor
            then String "."%char (version_digits (String minor rest)) else EmptyString).
    by rewrite Hminor, (version_digits_digit _ _ Hminor). }
  rewrite Hv. unfold String.leb. simpl String.compare.
  unfold Ascii.compare. change (N_of_ascii "8") with 56%N.
  change (N_of_ascii ".") with 46%N. change (N_of_ascii "1") with 49%N.
  destruct (Ascii.eqb major "8") eqn:Hm8.
  - apply Ascii.eqb_eq in Hm8 as ->. change (N_of_ascii "8") with 56%N.
    rewrite N.compare_refl, N.ltb_irrefl. cbn [orb andb].
    unfold is_digit in Hminor. apply andb_prop in Hminor as [Hlo _].
    apply N.leb_le in Hlo.
    destruct (Ascii.eqb minor "0") eqn:Hm0.
    + apply Ascii.eqb_eq in Hm0 as ->. done.
    + assert (N_of_ascii minor ≠ 48%N) as Hne.
      { intros Heq. apply Ascii.eqb_neq in Hm0. apply Hm0.
        rewrite <- (ascii_N_embedding minor), Heq. done. }
      destruct (49 ?= N_of_ascii minor)%N eqn:Hcmp; cbn [negb].
      * by destruct (version_digits rest).
      * done.
      * apply N.compare_gt_iff in Hcmp. lia.
  - rewrite andb_false_l, orb_false_r.
    assert (N_of_ascii major ≠ 56%N) as Hne.
    { intros Heq. apply Ascii.eqb_neq in Hm8. apply Hm8.
      rewrite <- (ascii_N_embedding major), Heq. done. }
    destruct (56 ?= N_of_ascii major)%N eqn:Hcmp.
    + apply N.compare_eq_iff in Hcmp. congruence.
    + apply N.compare_lt_iff in Hcmp. by apply N.ltb_lt in Hcmp as ->.
    + apply N.compare_gt_iff in Hcmp.
      assert ((56 <? N_of_ascii major)%N = false) as -> by (apply N.ltb_ge; lia). done.
Qed.
End openssh.

(** * The further properties on concrete tokens and cosigners *)

Section more_scenarios.
Import Mock Scenario Scenario2.

Lemma VerifyProvider_Ok_inv_witness :
  VerifyProvider v_verifier pkt_rs256 = Ok () ∧
  verifyAudience pkt_rs256 "verifier" = Ok () ∧
  verifyCommitment v_verifier pkt_rs256 = Ok () ∧
  verifyCicSignature pkt_rs256 = Ok ().
Proof.
  assert (Hok : VerifyProvider v_verifier pkt_rs256 = Ok ()) by (vm_compute; reflexivity).
  split; [exact Hok|].
  destruct (VerifyProvider_Ok_inv (H:=L) v_verifier pkt_rs256 Hok)
    as (_ & [Haud|Hskip] & alg & _ & _ & _ & _ & Hc & Hs).
  - by repeat split.
  - vm_compute in Hskip. discriminate.
Defined.

Lemma VerifyProvider_GQOnly_refuses_witness :
  ProviderAlgorithm pkt_rs256 = Some "RS256" ∧
  VerifyProvider v_gq_only pkt_rs256 = Err ErrNonGQUnsupported.
Proof.
  split; [reflexivity|].
  destruct (VerifyProvider_GQOnly_refuses (H:=L) v_gq_only pkt_rs256 "RS256")
    as [_ Herr]; [reflexivity|reflexivity|discriminate|].
  apply Herr; vm_compute; reflexivity.
Defined.

Lemma VerifyProvider_misconfigured_witness :
  ∃ e, VerifyProvider_sanity v_misconfigured = Err e ∧
    VerifyProvider v_misconfigured pkt_rs256 = Err e ∧
    VerifyProvider v_misconfigured pkt_corrupted = Err e.
Proof.
  destruct (VerifyProvider_misconfigured (H:=L) v_misconfigured) as (e & Hs & Hall);
    [reflexivity|by left|].
  exists e. split; [exact Hs|]. split; apply Hall.
Defined.

Lemma verifyGQSig_Ok_inv_witness :
  verifyGQSig v_verifier pkt_gq = Ok () ∧
  pkt_Issuer pkt_gq = Done tenant_a ∧
  GQ256VerifyJWT op_key "op-token-gq" = Done true.
Proof.
  assert (Hok : verifyGQSig v_verifier pkt_gq = Ok ()) by (vm_compute; reflexivity).
  split; [exact Hok|].
  destruct (verifyGQSig_Ok_inv (H:=L) v_verifier pkt_gq Hok)
    as (_ & _ & Hiss & find & record & rsaKey & _ & _ & _ & _).
  split; [exact Hiss|]. vm_compute. reflexivity.
Defined.

Lemma verifyCommitment_claim_witness :
  verifyCommitment v_verifier pkt_rs256 = Ok () ∧
  verifyCommitment v_sub pkt_rs256
  = Err (CommitmentDoesNotMatch (Str "alice-id") "commitment-alice").
Proof.
  split.
  - apply (verifyCommitment_claim (H:=L) v_verifier pkt_rs256
             (list_to_map (id_claims [("aud", Str "verifier")])) pkt_rs256
             "commitment-alice"); reflexivity.
  - destruct (verifyCommitment_claim (H:=L) v_sub pkt_rs256
                (list_to_map (id_claims [("aud", Str "verifier")])) pkt_rs256
                "commitment-alice") as (_ & _ & Hother & _); [reflexivity..|].
    apply Hother; [reflexivity|discriminate].
Defined.

Lemma VerifyProvider_skip_client_id_witness :
  VerifyProvider (with_ClientID (v_skip "verifier") "someone-else") pkt_rs256
  = VerifyProvider (v_skip "verifier") pkt_rs256 ∧
  VerifyProvider (v_skip "verifier") pkt_rs256 = Ok ().
Proof.
  split; [|vm_compute; reflexivity].
  apply (VerifyProvider_skip_client_id (H:=L) (v_skip "verifier") pkt_rs256 "someone-else").
  - reflexivity.
  - intros [p Hp]. vm_compute in Hp. discriminate.
  - intros [p Hp]. vm_compute in Hp. discriminate.
Defined.

Lemma InitAuth_keeps_sessions_witness :
  InitAuth c0 pkt_rs256 "sig-init-mfa-auth" (clock 1700000060) = (c1, Ok authID1) ∧
  AuthCosigner.AuthStateMap c1 !! authID1 = Some session1 ∧
  ∃ c' authID',
    InitAuth c1 pkt_rs256 "sig-init-mfa-auth" (clock 1700000060) = (c', Ok authID') ∧
    AuthCosigner.AuthStateMap c1 !! authID' = None ∧
    AuthCosigner.AuthStateMap c' !! authID1 = Some session1.
Proof.
  assert (H01 : InitAuth c0 pkt_rs256 "sig-init-mfa-auth" (clock 1700000060)
                = (c1, Ok authID1)) by (vm_compute; reflexivity).
  assert (Hs1 : AuthCosigner.AuthStateMap c1 !! authID1 = Some session1)
    by (vm_compute; reflexivity).
  split; [exact H01|]. split; [exact Hs1|].
  destruct (InitAuth_keeps_sessions (H:=L) c0 c1 pkt_rs256 "sig-init-mfa-auth"
              (clock 1700000060) authID1 minted_c0 eq_refl
              (mock_collision_free "hmac-key") H01) as (_ & _ & Hminted).
  eexists _, _. split; [vm_compute; reflexivity|].
  destruct (InitAuth_keeps_sessions (H:=L) c1 _ pkt_rs256 "sig-init-mfa-auth"
              (clock 1700000060) _ Hminted eq_refl
              (mock_collision_free "hmac-key") eq_refl) as (Hfresh & Hkept & _).
  split; [exact Hfresh|]. exact (Hkept authID1 session1 Hs1).
Defined.

Lemma NewAuthcode_effect_witness :
  let c' := (NewAuthcode c1 authID1 (Done "first-random-bytes")).1 in
  let c'' := (NewAuthcode c' authID1 (Done "other-random-bytes")).1 in
  AuthCosigner.AuthCodeMap c'' !! EncodeToString "first-random-bytes" = Some authID1 ∧
  AuthCosigner.AuthCodeMap c'' !! EncodeToString "other-random-bytes" = Some authID1.
Proof.
  destruct (NewAuthcode_effect (H:=L) c1 authID1 authID1 "first-random-bytes"
              "other-random-bytes")
    as (_ & _ & _ & _ & _ & _ & _ & _ & _ & _ & _ & Hboth);
    [discriminate|].
  exact Hboth.
Defined.

Lemma session_composes_witness :
  ∃ c1' authID c2' claims,
    InitAuth c0 pkt_rs256 "sig-init-mfa-auth" (clock 1700000060) = (c1', Ok authID) ∧
    NewAuthcode c1' authID (Done authcode_bytes)
    = (c2', Ok (EncodeToString authcode_bytes)) ∧
    RedeemAuthcode c2' "sig-authcode" (clock 1700000090)
    = (c2', call (Cosign (AuthCosigner.Cosigner_ c0) pkt_rs256 claims)) ∧
    CosignerClaims.AuthID claims = authID ∧
    CosignerClaims.RedirectURI claims = "http://localhost:3000/mfacallback" ∧
    CosignerClaims.Nonce claims = "n-1" ∧
    CosignerClaims.Iss claims = "https://mfa.example.com" ∧
    CosignerClaims.KeyID claims = "cosigner-key-1".
Proof.
  apply (session_composes (H:=L) c0 pkt_rs256 "sig-init-mfa-auth" "sig-authcode"
           "init-mfa-auth" (EncodeToString authcode_bytes) init_msg session1
           authcode_bytes (EncodeToString authcode_bytes)
           (clock 1700000060) (clock 1700000090));
    try reflexivity; vm_compute; discriminate.
Defined.

Lemma IssueSignature_claims_witness :
  IssueSignature c1 pkt_rs256 authID1 (clock 1700000090) = (c1, Ok cos1) ∧
  ∃ claims,
    Cosign (AuthCosigner.Cosigner_ c1) pkt_rs256 claims = Done cos1 ∧
    CosignerClaims.AuthID claims = authID1 ∧
    CosignerClaims.Expiration claims = 1700000090 + 3600 ∧
    CosignerClaims.IssuedAt claims + 3600 ≤ CosignerClaims.Expiration claims.
Proof.
  assert (Hok : IssueSignature c1 pkt_rs256 authID1 (clock 1700000090) = (c1, Ok cos1))
    by (vm_compute; reflexivity).
  split; [exact Hok|].
  destruct (IssueSignature_claims (H:=L) c1 c1 pkt_rs256 authID1 (clock 1700000090) cos1 Hok)
    as (authState & claims & _ & Hcos & _ & _ & _ & Hid & _ & _ & Hexp & Hiat & _).
  exists claims. split; [exact Hcos|]. split; [exact Hid|].
  split; [rewrite Hexp; vm_compute; reflexivity|]. apply Hiat. reflexivity.
Defined.

Lemma RedeemAuthcode_never_panics_witness :
  rtc (careful_step (H:=L)) c0 c2 ∧
  ¬ is_Panic (RedeemAuthcode c2 "sig-authcode" (clock 1700000090)).2 ∧
  ¬ is_Panic (RedeemAuthcode c2 "sig-never-made" (clock 1700000090)).2.
Proof.
  assert (Hreach : rtc (careful_step (H:=L)) c0 c2).
  { eapply rtc_l; [apply (careful_InitAuth (H:=L) c0 pkt_rs256 "sig-init-mfa-auth"
                            (clock 1700000060))|].
    eapply rtc_l; [|apply rtc_refl].
    apply (careful_NewAuthcode (H:=L) _ authID1 (Done authcode_bytes)).
    exists session1. vm_compute. reflexivity. }
  split; [exact Hreach|].
  split; apply (RedeemAuthcode_never_panics (H:=L) c0 c2 _ _ eq_refl Hreach).
Defined.

Lemma NewAuthState_outcome_witness :
  (∃ st, NewAuthState pkt_rs256 "ruri" "n-1" = Ok st ∧ AuthState.Aud st = "verifier") ∧
  (∃ st, NewAuthState (H:=L2) pkt_aud_list "ruri" "n-1" = Ok st ∧
     AuthState.Aud st = "a,b") ∧
  NewAuthState pkt_aud_mixed "ruri" "n-1" = Panic (InterfaceConversion (Float64 "42") "string") ∧
  NewAuthState pkt_no_aud "ruri" "n-1" = Err (FailedToDeserializeAud Nil).
Proof.
  split; [|split; [|split]].
  - destruct (NewAuthState_outcome (H:=L) pkt_rs256 "ruri" "n-1"
                {| IDClaims.Issuer := tenant_a; IDClaims.Aud := Str "verifier";
                   IDClaims.Sub := "alice-id"; IDClaims.Email := "alice@example.com" |}
                eq_refl) as (Hstr & _).
    exact (Hstr "verifier" eq_refl).
  - destruct (NewAuthState_outcome (H:=L2) pkt_aud_list "ruri" "n-1"
                {| IDClaims.Issuer := tenant_a; IDClaims.Aud := Slice [Str "a"; Str "b"];
                   IDClaims.Sub := "alice-id"; IDClaims.Email := "alice@example.com" |}
                eq_refl) as (_ & Hlist & _).
    exact (Hlist ["a"; "b"] eq_refl).
  - destruct (NewAuthState_outcome (H:=L) pkt_aud_mixed "ruri" "n-1"
                {| IDClaims.Issuer := tenant_a;
                   IDClaims.Aud := Slice [Str "verifier"; Float64 "42"];
                   IDClaims.Sub := "alice-id"; IDClaims.Email := "alice@example.com" |}
                eq_refl) as (_ & _ & Hmixed & _).
    exact (Hmixed ["verifier"] (Float64 "42") [] eq_refl eq_refl).
  - destruct (NewAuthState_outcome (H:=L) pkt_no_aud "ruri" "n-1"
                {| IDClaims.Issuer := tenant_a; IDClaims.Aud := Nil;
                   IDClaims.Sub := "alice-id"; IDClaims.Email := "alice@example.com" |}
                eq_refl) as (_ & _ & _ & Hnone & _).
    exact (Hnone eq_refl).
Defined.

Lemma UserKey_joined_audience_witness :
  ∃ st1 st2,
    NewAuthState (H:=L2) pkt_aud_list "ruri-1" "n-1" = Ok st1 ∧
    NewAuthState (H:=L2) pkt_aud_joined "ruri-2" "n-2" = Ok st2 ∧
    AuthState_UserKey st1 = AuthState_UserKey st2.
Proof.
  apply (UserKey_joined_audience (H:=L2) pkt_aud_list pkt_aud_joined
           "ruri-1" "n-1" "ruri-2" "n-2"
           {| IDClaims.Issuer := tenant_a; IDClaims.Aud := Slice [Str "a"; Str "b"];
              IDClaims.Sub := "alice-id"; IDClaims.Email := "alice@example.com" |}
           {| IDClaims.Issuer := tenant_a; IDClaims.Aud := Str "a,b";
              IDClaims.Sub := "alice-id"; IDClaims.Email := "alice@example.com" |}
           ["a"; "b"]); reflexivity.
Defined.

Lemma NewAuthState_DisplayName_witness :
  NewAuthState pkt_rs256 "http://localhost:3000/mfacallback" "n-1" = Ok session1 ∧
  without "@" (AuthState.DisplayName session1) = true ∧
  ∃ rest, AuthState.Username session1 = (AuthState.DisplayName session1 ++ rest)%string ∧
    (rest = "" ∨ ∃ r, rest = String "@" r).
Proof.
  assert (Hok : NewAuthState pkt_rs256 "http://localhost:3000/mfacallback" "n-1"
                = Ok session1) by (vm_compute; reflexivity).
  split; [exact Hok|].
  destruct (NewAuthState_DisplayName (H:=L) pkt_rs256 _ _ session1 Hok)
    as (Hwithout & _ & Hrest).
  by split.
Defined.

Lemma mint_determines_witness :
  mint (H:=L) "hmac-key" 1 1700000060 ≠ mint (H:=L) "hmac-key" 2 1700000060 ∧
  mint (H:=L) "hmac-key" 1 1700000060 ≠ mint (H:=L) "hmac-key" 1 1700000061.
Proof.
  split; intros Heq.
  - destruct (mint_determines (H:=L) "hmac-key" 1 2 1700000060 1700000060
                (mock_collision_free "hmac-key")) as [Hn _]; [lia..|exact Heq|].
    discriminate.
  - destruct (mint_determines (H:=L) "hmac-key" 1 1 1700000060 1700000061
                (mock_collision_free "hmac-key")) as [_ Hu]; [lia..|exact Heq|].
    discriminate.
Defined.

Lemma ExtractClaim_commitment_witness :
  ExtractClaim split_compact "op-token-rs256" "nonce" = inr "commitment-alice" ∧
  verifyCommitment v_verifier pkt_rs256 = Ok () ∧
  ExtractClaim split_compact "op-token-rs256" "aud" = inr "verifier".
Proof.
  destruct (ExtractClaim_commitment (H:=L) split_compact v_verifier pkt_rs256
              "op-token-rs256" "header-rs256" "payload-aud-verifier" "signature"
              (list_to_map (id_claims [("aud", Str "verifier")])) pkt_rs256
              "commitment-alice") as (Hextract & _ & Hiff); [reflexivity..|].
  assert (Hnonce : ExtractClaim split_compact "op-token-rs256" "nonce"
                   = inr "commitment-alice") by (apply Hextract; reflexivity).
  split; [exact Hnonce|]. split.
  - apply Hiff. exact Hnonce.
  - apply Hextract. reflexivity.
Defined.

Lemma isOpenSSHVersion8Dot1OrGreater_first_digit_witness :
  isOpenSSHVersion8Dot1OrGreater "OpenSSH_10.0p2, OpenSSL 3.5.0" = (false, None) ∧
  isOpenSSHVersion8Dot1OrGreater "OpenSSH_7.9p1, OpenSSL 1.1.1" = (false, None) ∧
  isOpenSSHVersion8Dot1OrGreater "OpenSSH_9.9p1, OpenSSL 3.0.2" = (true, None).
Proof.
  split; [|split].
  - destruct (isOpenSSHVersion8Dot1OrGreater_first_digit "OpenSSH_10.0p2, OpenSSL 3.5.0"
                "1" "0.0p2" eq_refl eq_refl) as (Hlow & _).
    apply Hlow. reflexivity.
  - destruct (isOpenSSHVersion8Dot1OrGreater_first_digit "OpenSSH_7.9p1, OpenSSL 1.1.1"
                "7" ".9p1" eq_refl eq_refl) as (Hlow & _).
    apply Hlow. reflexivity.
  - destruct (isOpenSSHVersion8Dot1OrGreater_first_digit "OpenSSH_9.9p1, OpenSSL 3.0.2"
                "9" ".9p1" eq_refl eq_refl) as (_ & Hhigh & _).
    apply Hhigh. reflexivity.
Defined.

Lemma isOpenSSHVersion8Dot1OrGreater_one_digit_major_witness :
  isOpenSSHVersion8Dot1OrGreater "OpenSSH_8.9p1 Ubuntu-3ubuntu0.10, OpenSSL 3.0.2"
  = (true, None) ∧
  isOpenSSHVersion8Dot1OrGreater "OpenSSH_8.0p1, OpenSSL 1.1.1" = (false, None).
Proof.
  split.
  - apply (isOpenSSHVersion8Dot1OrGreater_one_digit_major
             "OpenSSH_8.9p1 Ubuntu-3ubuntu0.10, OpenSSL 3.0.2" "8" "9"
             "p1 Ubuntu-3ubuntu0.10" eq_refl eq_refl eq_refl).
  - apply (isOpenSSHVersion8Dot1OrGreater_one_digit_major
             "OpenSSH_8.0p1, OpenSSL 1.1.1" "8" "0" "p1" eq_refl eq_refl eq_refl).
Defined.
End more_scenarios.
